(** * Complot: segment / schedule reconciliation

    A shallow embedding of the reconciliation core of
    [src/subscript/complot/complot.py] (class [SegmentPlot]): the per-well
    configuration reader [get_info_per_well], the packer detection
    [get_packer], the day resolver [get_day_index], the depth-to-cell merge
    [get_md] and the per-segment table assembly [get_data]; around it, the
    readers of the input file keywords ([datafile_kw], [casename_kw],
    [well_file_kw], [output_file_kw]), the zone windows of
    [plot_trajectory], and the order of the calls and the export of
    [main].

    Modelling conventions.
    - Floating point columns (depths, rates, days) are exact rationals [Q];
      rounding is not modelled.  Integer columns are [Z].
    - A pandas DataFrame is the list of its rows, in row order; the keyword
      columns of a row are an association list in column order, so that a
      frame may lack a column.
    - A Python exception is a value of [exn]; a function that may raise
      returns [result].  What a function prints is the list of its lines. *)

From Stdlib Require Import ZArith QArith Qabs String Ascii Bool Lia Arith List.
From Stdlib Require Import DecimalString.
From Stdlib Require Import Permutation Sorted Lqa.
Import ListNotations.

Local Open Scope Q_scope.

(** ** Exceptions and results *)

Module Py.

Inductive exn : Type :=
| ValueError (msg : string)
| IndexError
| KeyError (key : string)
| UnboundLocalError (name : string)
| TypeError
| SystemExit.

Inductive result (A : Type) : Type :=
| Ok (a : A)
| Raise (e : exn).

Arguments Ok {A} a.
Arguments Raise {A} e.

Definition bind {A B : Type} (m : result A) (k : A -> result B) : result B :=
  match m with
  | Ok a => k a
  | Raise e => Raise e
  end.

Definition is_ok {A : Type} (m : result A) : bool :=
  match m with Ok _ => true | Raise _ => false end.

(** [for x in xs: body] over a result-returning body, threading a state. *)
Fixpoint for_each {A S : Type} (xs : list A) (body : S -> A -> result S)
    (s : S) : result S :=
  match xs with
  | [] => Ok s
  | x :: xs' => bind (body s x) (for_each xs' body)
  end.

(** [[f(x) for x in xs]] where [f] may raise. *)
Fixpoint traverse {A B : Type} (f : A -> result B) (xs : list A)
    : result (list B) :=
  match xs with
  | [] => Ok []
  | x :: xs' =>
      bind (f x) (fun y => bind (traverse f xs') (fun ys => Ok (y :: ys)))
  end.

(** [a[i]] on a sequence: IndexError out of range. *)
Definition index {A : Type} (a : list A) (i : nat) : result A :=
  match nth_error a i with
  | Some x => Ok x
  | None => Raise IndexError
  end.

(** [a[i] = v] on a numpy array: IndexError out of range. *)
Fixpoint store {A : Type} (a : list A) (i : nat) (v : A) : result (list A) :=
  match a, i with
  | [], _ => Raise IndexError
  | _ :: a', O => Ok (v :: a')
  | x :: a', S i' => bind (store a' i' v) (fun r => Ok (x :: r))
  end.

End Py.

Import Py.

Notation "x <- m ;; k" := (Py.bind m (fun x => k))
  (at level 61, m at next level, right associativity).

(** ** numpy and pandas helpers *)

Module Np.

(** [np.arange(start, stop, 1)]. *)
Definition arange (start stop : Z) : list Z :=
  map (fun i => (start + Z.of_nat i)%Z) (seq 0 (Z.to_nat (stop - start))).

(** [np.argwhere(cond)] reshaped to one dimension: the positions at which
    the condition holds, in increasing order. *)
Fixpoint argwhere_from {A : Type} (p : A -> bool) (a : list A) (i : nat)
    : list nat :=
  match a with
  | [] => []
  | x :: a' =>
      if p x then i :: argwhere_from p a' (S i) else argwhere_from p a' (S i)
  end.

Definition argwhere {A : Type} (p : A -> bool) (a : list A) : list nat :=
  argwhere_from p a 0.

(** [x < y] on floats. *)
Definition Qltb (x y : Q) : bool := negb (Qle_bool y x).

(** [frame[frame[col].isin(values)]] on an integer column. *)
Definition isin (values : list Z) (x : Z) : bool :=
  existsb (Z.eqb x) values.

(** [frame.loc[a : b]] on a frame with the default index: both ends are
    labels and both are included; a label past the last row is allowed. *)
Definition loc_slice {A : Type} (frame : list A) (a b : nat) : list A :=
  firstn (S b - a) (skipn a frame).

(** The sum of an array, from its first entry on. *)
Fixpoint total (a : list Q) : Q :=
  match a with
  | [] => 0
  | x :: a' => x + total a'
  end.

(** [str(n)] of an integer. *)
Definition str (n : Z) : string := NilZero.string_of_int (Z.to_int n).

End Np.

Import Np.

(** ** The keywords of the input file *)

Module Input.

Local Open Scope string_scope.

(** [s.replace(c, "...")] with a one-character [c] and the empty string:
    every [c] is dropped. *)
Fixpoint remove (c : ascii) (s : string) : string :=
  match s with
  | EmptyString => EmptyString
  | String a s' =>
      if Ascii.eqb a c then remove c s' else String a (remove c s')
  end.

Fixpoint lstrip (c : ascii) (s : string) : string :=
  match s with
  | EmptyString => EmptyString
  | String a s' => if Ascii.eqb a c then lstrip c s' else s
  end.

Fixpoint rstrip (c : ascii) (s : string) : string :=
  match s with
  | EmptyString => EmptyString
  | String a s' =>
      match rstrip c s' with
      | EmptyString =>
          if Ascii.eqb a c then EmptyString else String a EmptyString
      | kept => String a kept
      end
  end.

(** [s.strip(c)] for a one-character [c]. *)
Definition strip (c : ascii) (s : string) : string := rstrip c (lstrip c s).

Definition newline : ascii := "010"%char.
Definition quote : ascii := "'"%char.

(** [for i in range(n_line): mydata[i] = mydata[i].strip(newline)]. *)
Definition stripped (read_clean_input : list string) : list string :=
  map (strip newline) read_clean_input.

(** [while str(mydata[i]) != "/": append(...); i = i + 1] on the lines
    from position [i] on: reading past the last line is an IndexError. *)
Fixpoint read_block (mydata : list string) : result (list string) :=
  match mydata with
  | [] => Raise IndexError
  | line :: rest =>
      if String.eqb line "/" then Ok []
      else content <- read_block rest ;; Ok (remove quote line :: content)
  end.

(** [for i in range(n_line): if mydata[i] == keyword: ...]: every line
    that is the keyword starts a block, and the loop goes on at the line
    after the keyword (the [i] of the [while] is rebound by the [for]). *)
Fixpoint read_keyword (keyword : string) (mydata : list string)
    : result (list string) :=
  match mydata with
  | [] => Ok []
  | line :: rest =>
      if String.eqb line keyword then
        content <- read_block rest ;;
        later <- read_keyword keyword rest ;;
        Ok (content ++ later)%list
      else read_keyword keyword rest
  end.

(** [datafile_kw()]: [self.data_file]. *)
Definition datafile_kw (read_clean_input : list string)
    : result (list string) :=
  data_file <- read_keyword "DATAFILE" (stripped read_clean_input) ;;
  if (length data_file =? 0)%nat
  then Raise (ValueError "Error : Eclipse file is not specified")
  else Ok data_file.

(** [casename_kw()]: [self.case_name]. *)
Definition casename_kw (read_clean_input : list string)
    (data_file : list string) : result (list string) :=
  case_name <- read_keyword "CASENAME" (stripped read_clean_input) ;;
  Ok (if (length case_name =? 0)%nat then data_file else case_name).

(** [well_file_kw()]: [self.well_file].  Without a WELLFILE entry the
    schedule files are looked up in the data files, which are read from
    disk: [advanced_wells] stands for that scan. *)
Definition well_file_kw (advanced_wells : list string -> result (list string))
    (read_clean_input : list string) (data_file : list string)
    : result (list string) :=
  well_file <- read_keyword "WELLFILE" (stripped read_clean_input) ;;
  well_file <- (if (length well_file =? 0)%nat
                then advanced_wells data_file else Ok well_file) ;;
  if (length well_file =? 0)%nat
  then Raise (ValueError "Error : Well file is not specified")
  else if negb (length data_file =? length well_file)%nat
  then Raise (ValueError "Error : Well file must be given for each Data file")
  else Ok well_file.

Definition output_warning : string :=
  "Warning : Output file is not specified. WellBuilderPlot will not export the results.".

(** The loop of [output_file_kw()] from a line on, with the current
    [self.output_file]: the warnings printed and the file name. *)
Fixpoint output_file_loop (mydata : list string) (output_file : string)
    : list string * result string :=
  match mydata with
  | [] => ([], Ok output_file)
  | line :: rest =>
      if String.eqb line "OUTPUTFILE" then
        match rest with
        | [] => ([], Raise IndexError)
        | next :: _ =>
            if String.eqb next "/" then
              let (out, r) := output_file_loop rest output_file in
              (output_warning :: out, r)
            else output_file_loop rest (remove quote next)
        end
      else output_file_loop rest output_file
  end.

(** [output_file_kw()]: the warnings printed and [self.output_file]. *)
Definition output_file_kw (read_clean_input : list string)
    : list string * result string :=
  output_file_loop (stripped read_clean_input) EmptyString.

End Input.

(** ** Rate ratios (water cut, gas-oil ratio) *)

Module Ratio.

Definition min_rate : Q := 1 # 10.
Definition eps : Q := 1 # 100000.

(** [np.where((abs(SWFR) + abs(SOFR)) < min_rate, 0.0,
             abs(SWFR) / (abs(SWFR) + abs(SOFR) + 0.00001))], one row. *)
Definition swct (swfr sofr : Q) : Q :=
  if Qlt_le_dec (Qabs swfr + Qabs sofr) min_rate
  then 0
  else Qabs swfr / (Qabs swfr + Qabs sofr + eps).

(** [abs(SGFRF) / (abs(SOFR) + 0.00001)], one row. *)
Definition sgor (sgfrf sofr : Q) : Q :=
  Qabs sgfrf / (Qabs sofr + eps).

End Ratio.

(** ** Per-well configuration: the INFORMATION keyword *)

Module Info.

Local Open Scope string_scope.

(** One line of the INFORMATION table ([information_kw]). *)
Record information_row : Type := {
  WELL : string;
  LATERAL : Z;
  TUBINGSEGMENT : string;
  DEVICESEGMENT : string;
  ANNULUSSEGMENT : string;
  DAYS : string
}.

(** [s.split(sep)] for a one-character separator. *)
Fixpoint split (sep : ascii) (s : string) : list string :=
  match s with
  | EmptyString => [EmptyString]
  | String c s' =>
      if Ascii.eqb c sep then EmptyString :: split sep s'
      else match split sep s' with
           | [] => [String c EmptyString]
           | h :: t => String c h :: t
           end
  end.

Definition tubing_error : string :=
  "Error : Tubing Segment must be defined by interval segment number e.g 1-200".
Definition device_error : string :=
  "Error : Device Segment must be defined by interval segment number e.g 1-200".
Definition unequal_error : string :=
  "Error : the number of device segments are not the same with the number of tubing segments.".
Definition annulus_error : string :=
  "Error : Annulus Segment must be defined by interval segment number e.g 1-200".
Definition days_warning : string :=
  "Warning : Column DAYS is not supplied. Selects the first time step by default.".

(** What [get_info_per_well] returns. *)
Record well_info : Type := {
  tubing_segment : list Z;
  device_segment : list Z;
  annulus_segment : list Z;
  my_days : list Q
}.

Section GetInfo.

(** Python's [int(str)] and numpy's string-to-float64 cast; [None] is the
    ValueError either raises on text it does not accept. *)
Variable py_int : string -> option Z.
Variable py_float : string -> option Q.

Definition int (s : string) : result Z :=
  match py_int s with
  | Some z => Ok z
  | None => Raise (ValueError "invalid literal for int()")
  end.

Definition float64 (s : string) : result Q :=
  match py_float s with
  | Some q => Ok q
  | None => Raise (ValueError "could not convert string to float")
  end.

(** [np.arange(int(content[0]), int(content[1]) + 1, 1)]. *)
Definition interval (content : list string) : result (list Z) :=
  start <- int (nth 0 content "") ;;
  stop <- int (nth 1 content "") ;;
  Ok (arange start (stop + 1)).

(** The tubing column: a malformed interval prints and calls [sys.exit()]. *)
Definition read_tubing (content : string) : list string * result (list Z) :=
  if String.eqb content "1*" then ([], Ok [0%Z])
  else
    let content := split "-" content in
    if negb (List.length content =? 2)%nat
    then ([tubing_error], Raise SystemExit)
    else ([], interval content).

(** The device column, with the comparison against the tubing count. *)
Definition read_device (tubing : list Z) (content : string)
    : result (list Z) :=
  if String.eqb content "1*" then Ok [0%Z]
  else
    let content := split "-" content in
    device <- (if (List.length content =? 2)%nat
               then interval content
               else Raise (ValueError device_error)) ;;
    if negb (List.length tubing =? List.length device)%nat
    then Raise (ValueError unequal_error)
    else Ok device.

Definition read_annulus (content : string) : result (list Z) :=
  if String.eqb content "1*" then Ok [0%Z]
  else
    let content := split "-" content in
    if (List.length content =? 2)%nat
    then interval content
    else Raise (ValueError annulus_error).

Definition read_days (content : string) : list string * result (list Q) :=
  if String.eqb content "1*" then ([days_warning], Ok [0%Q])
  else ([], traverse float64 (split "-" content)).

(** [get_info_per_well(well, lateral)]: the printed lines and the result. *)
Definition get_info_per_well (information : list information_row)
    (well : string) (lateral : Z) : list string * result well_info :=
  let info :=
    filter (fun r => Z.eqb (LATERAL r) lateral)
      (filter (fun r => String.eqb (WELL r) well) information) in
  match info with
  | [] => ([], Raise IndexError)
  | row :: _ =>
      let (out1, tubing) := read_tubing (TUBINGSEGMENT row) in
      match tubing with
      | Raise e => (out1, Raise e)
      | Ok tubing =>
          match read_device tubing (DEVICESEGMENT row) with
          | Raise e => (out1, Raise e)
          | Ok device =>
              match read_annulus (ANNULUSSEGMENT row) with
              | Raise e => (out1, Raise e)
              | Ok annulus =>
                  let (out2, days) := read_days (DAYS row) in
                  ((out1 ++ out2)%list,
                   days <- days ;;
                   Ok {| tubing_segment := tubing;
                         device_segment := device;
                         annulus_segment := annulus;
                         my_days := days |})
              end
          end
      end
  end.

End GetInfo.

End Info.

(** ** The schedule tables (WELSEGS, COMPSEGS, COMPDAT) *)

Module Schedule.

(** One record of a well's WELSEGS content. *)
Record welsegs_row : Type := {
  TUBINGSEGMENT : Z;
  TUBINGOUTLET : Z;
  TUBINGMD : Q;
  TUBINGTVD : Q;
  TUBINGID : Q
}.

(** One record of a well's COMPSEGS content.  The content frame carries
    pandas' default index: the label of a row is its position, which is
    what the source relies on when it computes positions with [.iloc] and
    slices with [.loc]. *)
Record compsegs_row : Type := {
  I : Z;
  J : Z;
  K : Z;
  STARTMD : Q;
  ENDMD : Q
}.

(** A static-property entry as it reaches a float cast: a value the cast
    accepts, a text it rejects, or the missing marker NaN. *)
Inductive cell : Type :=
| Numeric (q : Q)
| NonNumeric (s : string)
| NaN.

(** One record of the COMPDAT table (all wells in one frame). *)
Record compdat_row : Type := {
  dWELL : string;
  dI : Z;
  dJ : Z;
  dK : Z;
  dCF : cell;
  dKH : cell
}.

(** The per-well collections: [(well, content)] in file order. *)
Definition collection (A : Type) : Type := list (string * list A).

(** [for c in table: if c.well == well: ...; break]: the first content
    of the well, if any. *)
Fixpoint content_of {A : Type} (table : collection A) (well : string)
    : option (list A) :=
  match table with
  | [] => None
  | (w, content) :: rest =>
      if String.eqb w well then Some content else content_of rest well
  end.

End Schedule.

(** ** Packer detection *)

Module Packer.

Import Schedule.

(** A row of the packer frame (PACKERMD, PACKERTVD). *)
Definition packer_row : Type := (Q * Q)%type.

(** A row of the annulus zone frame (SEGMENT, MD, ANNULUS_ZONE). *)
Record zone_row : Type := {
  zSEGMENT : Z;
  zMD : Q;
  ANNULUS_ZONE : Z
}.

Definition depth_pair (r : welsegs_row) : packer_row :=
  (TUBINGMD r, TUBINGTVD r).

(** The body of [for i in range(1, welsegs.shape[0])], from row [i - 1]
    ([prev]) on: the packer entries appended and the zone of each row. *)
Fixpoint packer_loop (prev : welsegs_row) (rest : list welsegs_row)
    (zone : Z) : list packer_row * list Z :=
  match rest with
  | [] => ([], [])
  | cur :: rest' =>
      let crossing := negb (Z.eqb (TUBINGOUTLET cur) (TUBINGSEGMENT prev)) in
      let zone' := if crossing then (zone + 1)%Z else zone in
      let here := if crossing then [depth_pair prev; depth_pair cur] else [] in
      let final := match rest' with [] => [depth_pair cur] | _ => [] end in
      let (packers, zones) := packer_loop cur rest' zone' in
      (here ++ final ++ packers, zone' :: zones)
  end.

(** What [get_packer] hands back: a pair of frames, or nothing at all when
    the well has no WELSEGS content (the function falls off its end).
    A frame without rows stands for [pd.DataFrame()]; the frames built from
    WELSEGS rows always have a first row. *)
Definition get_packer (welsegs_table : collection welsegs_row)
    (well : string) (annulus_segment : list Z)
    : result (option (list packer_row * list zone_row)) :=
  if (1 <? length annulus_segment)%nat then
    match content_of welsegs_table well with
    | None => Ok None
    | Some welsegs =>
        let welsegs :=
          filter (fun r => isin annulus_segment (TUBINGSEGMENT r)) welsegs in
        match welsegs with
        | [] => Raise IndexError
        | first :: rest =>
            let (packers, zones) := packer_loop first rest 1 in
            let annulus_zone := 1%Z :: zones in
            Ok (Some (depth_pair first :: packers,
                      map (fun rz => {| zSEGMENT := TUBINGSEGMENT (fst rz);
                                        zMD := TUBINGMD (fst rz);
                                        ANNULUS_ZONE := snd rz |})
                          (combine welsegs annulus_zone)))
        end
    end
  else Ok (Some ([], [])).

(** [plot_trajectory], the branch [if df_packer.shape[0] > 0]: the
    [(start, end)] of the depth window shaded for each annulus zone. *)
Definition zone_windows (df_packer : list packer_row)
    : result (list (Q * Q)) :=
  if (0 <? length df_packer)%nat then
    let n_annulus_zones := (length df_packer / 2)%nat in
    traverse
      (fun ip =>
         first <- Py.index (map fst df_packer) (ip * 2) ;;
         last <- Py.index (map fst df_packer) (ip * 2 + 1) ;;
         Ok (first - (3 # 10), last))
      (seq 0 n_annulus_zones)
  else Ok [].

(** The entries of a list taken two by two. *)
Fixpoint pair_up {A : Type} (l : list A) : list (A * A) :=
  match l with
  | a :: b :: rest => (a, b) :: pair_up rest
  | _ => []
  end.

(** The depths of the first and of the last row of a zone in the zone
    frame: nothing for a zone without a row. *)
Definition zone_span (zones : list zone_row) (z : Z) : option (Q * Q) :=
  match filter (fun r => Z.eqb (ANNULUS_ZONE r) z) zones with
  | [] => None
  | r :: rs => Some (zMD r, zMD (last rs r))
  end.

(** Number of zone-boundary crossings among consecutive rows. *)
Fixpoint crossings (prev : welsegs_row) (rest : list welsegs_row) : nat :=
  match rest with
  | [] => 0
  | cur :: rest' =>
      (if Z.eqb (TUBINGOUTLET cur) (TUBINGSEGMENT prev) then 0 else 1)
      + crossings cur rest'
  end.

End Packer.

(** ** Day resolution *)

Module Days.

(** [np.argsort(a)]: a permutation of the positions of [a] along which the
    values do not decrease.  numpy does not fix where its default sort puts
    positions of equal value, so the order among ties is left to the
    instance. *)
Class ArgSort : Type := {
  argsort : list Q -> list nat;
  argsort_perm : forall a, Permutation (argsort a) (seq 0 (length a));
  argsort_sorted :
    forall a, StronglySorted Qle (map (fun i => nth i a 0) (argsort a))
}.

(** The line printed when a requested day has no exact match. *)
Inductive warning : Type :=
| NoExactDay (day : Q).

Section GetDayIndex.

Context `{ArgSort}.

Variable eclipse_days : list Q.

(** [idx = np.argsort(abs(eclipse_days - day)); idx[0]]. *)
Definition closest (day : Q) : result nat :=
  let dif := map (fun d => Qabs (d - day)) eclipse_days in
  Py.index (argsort dif) 0.

(** [get_day_index(list_of_days)]: the warnings printed and the indices. *)
Fixpoint get_day_index (list_of_days : list Q)
    : list warning * result (list nat) :=
  match list_of_days with
  | [] => ([], Ok [])
  | day :: rest =>
      match argwhere (fun d => Qeq_bool d day) eclipse_days with
      | i :: _ =>
          let (out, r) := get_day_index rest in
          (out, idx <- r ;; Ok (i :: idx))
      | [] =>
          match closest day with
          | Raise e => ([NoExactDay day], Raise e)
          | Ok i =>
              let (out, r) := get_day_index rest in
              (NoExactDay day :: out, idx <- r ;; Ok (i :: idx))
          end
      end
  end.

End GetDayIndex.

(** Insertion of a position into a list of positions ordered by value,
    after every position of equal value: the stable order, which is the
    one numpy's sort produces on arrays of at most 16 elements. *)
Fixpoint insert_by (a : list Q) (i : nat) (sorted : list nat) : list nat :=
  match sorted with
  | [] => [i]
  | j :: rest =>
      if Qle_bool (nth j a 0) (nth i a 0)
      then j :: insert_by a i rest
      else i :: j :: rest
  end.

Definition stable_argsort (a : list Q) : list nat :=
  fold_left (fun sorted i => insert_by a i sorted) (seq 0 (length a)) [].

(** What the resolver owes for one requested day: a position of the
    available days that is the first exact match when there is one, and
    otherwise one of minimal absolute difference. *)
Definition resolves (eclipse_days : list Q) (day : Q) (k : nat) : Prop :=
  (k < length eclipse_days)%nat /\
  ((exists j, (j < length eclipse_days)%nat /\ nth j eclipse_days 0 == day) ->
   nth k eclipse_days 0 == day /\
   forall j, (j < k)%nat -> ~ nth j eclipse_days 0 == day) /\
  ((forall j, (j < length eclipse_days)%nat ->
      ~ nth j eclipse_days 0 == day) ->
   forall j, (j < length eclipse_days)%nat ->
     Qabs (nth k eclipse_days 0 - day) <= Qabs (nth j eclipse_days 0 - day)).

(** Whether a requested day occurs among the available days. *)
Definition occurs (eclipse_days : list Q) (day : Q) : bool :=
  existsb (fun d => Qeq_bool d day) eclipse_days.

End Days.

(** ** Depth-to-cell merge: [get_md] *)

Module Merge.

Local Open Scope string_scope.

(** The [section] argument of [get_md]. *)
Inductive layer : Type := tubing | device | annulus.

(** A row of the frame [get_md] returns. *)
Record segment_row : Type := {
  WELL : string;
  Segment : Z;
  MD : Q;
  DIAMETER : Q;
  STARTMD : Q;
  ENDMD : Q;
  I : Z;
  J : Z;
  K : Z;
  CF : Schedule.cell;
  KH : Schedule.cell
}.

(** *** Lateral selection *)

(** The loop variables of the walk over COMPSEGS; [zrow] is unbound until
    its first assignment. *)
Record scan : Type := {
  i_lateral : Z;
  a_row : nat;
  zrow : option nat
}.

Definition no_row : Schedule.compsegs_row :=
  {| Schedule.I := 0; Schedule.J := 0; Schedule.K := 0;
     Schedule.STARTMD := 0; Schedule.ENDMD := 0 |}.

(** [compsegs[col].iloc[idx]], read only at positions the guard
    [idx < shape[0] - 3] keeps in range. *)
Definition iloc (compsegs : list Schedule.compsegs_row) (idx : nat)
    : Schedule.compsegs_row :=
  nth idx compsegs no_row.

(** The test on the start depths of the three cells after [idx]. *)
Definition reversal (compsegs : list Schedule.compsegs_row) (idx : nat)
    : bool :=
  let end_md_branch := Schedule.ENDMD (iloc compsegs idx) in
  let start_1 := Schedule.STARTMD (iloc compsegs (idx + 1)) in
  let start_2 := Schedule.STARTMD (iloc compsegs (idx + 2)) in
  let start_3 := Schedule.STARTMD (iloc compsegs (idx + 3)) in
  Qltb start_1 end_md_branch && Qltb start_2 end_md_branch
  && Qltb start_3 end_md_branch.

(** [for idx in range(compsegs.shape[0])] with its two [break]s, over the
    positions still to visit. *)
Fixpoint lateral_loop (compsegs : list Schedule.compsegs_row) (lateral : Z)
    (idxs : list nat) (st : scan) : scan :=
  match idxs with
  | [] => st
  | idx :: rest =>
      if (Z.of_nat idx <? Z.of_nat (length compsegs) - 3)%Z then
        if reversal compsegs idx then
          let n := (i_lateral st + 1)%Z in
          if (n =? lateral)%Z
          then {| i_lateral := n; a_row := a_row st; zrow := Some idx |}
          else lateral_loop compsegs lateral rest
                 {| i_lateral := n; a_row := idx + 1; zrow := Some idx |}
        else lateral_loop compsegs lateral rest st
      else
        let n := (i_lateral st + 1)%Z in
        let st' := {| i_lateral := n; a_row := a_row st;
                      zrow := Some (length compsegs - 1)%nat |} in
        if (n =? lateral)%Z then st'
        else lateral_loop compsegs lateral rest st'
  end.

Definition lateral_scan (compsegs : list Schedule.compsegs_row)
    (lateral : Z) : scan :=
  lateral_loop compsegs lateral (seq 0 (length compsegs))
    {| i_lateral := 0; a_row := 0; zrow := None |}.

(** [compsegs.loc[a_row : zrow + 1, :]] after the walk. *)
Definition select_lateral (compsegs : list Schedule.compsegs_row)
    (lateral : Z) : result (list Schedule.compsegs_row) :=
  let st := lateral_scan compsegs lateral in
  match zrow st with
  | None => Raise (UnboundLocalError "zrow")
  | Some z => Ok (loc_slice compsegs (a_row st) (z + 1))
  end.

(** The positions at which the walk detects the end of a lateral: those
    with three rows after them whose start depths are all below the end
    depth of the row. *)
Definition boundary (compsegs : list Schedule.compsegs_row) (idx : nat)
    : bool :=
  (Z.of_nat idx <? Z.of_nat (length compsegs) - 3)%Z && reversal compsegs idx.

Definition boundaries (compsegs : list Schedule.compsegs_row) : list nat :=
  filter (boundary compsegs) (seq 0 (length compsegs)).

(** *** Containment of a depth in the completion intervals *)

(** [start_md <= imd <= end_md] for one interval. *)
Definition inside (imd : Q) (c : Schedule.compsegs_row) : Prop :=
  Schedule.STARTMD c <= imd /\ imd <= Schedule.ENDMD c.

Definition contains (imd : Q) (c : Schedule.compsegs_row) : bool :=
  Qle_bool (Schedule.STARTMD c) imd && Qle_bool imd (Schedule.ENDMD c).

Definition not_in_grid (segment : Z) : string :=
  "Error : Segment " ++ str segment ++ " is not found inside grid cells".

(** One turn of [for i, imd in enumerate(measured_depth)]: the interval
    bounds and the cell of the first interval that contains [imd]. *)
Definition locate (compsegs : list Schedule.compsegs_row) (segment : Z)
    (imd : Q) : result Schedule.compsegs_row :=
  match argwhere (contains imd) compsegs with
  | idx :: _ => Py.index compsegs idx
  | [] => Raise (ValueError (not_in_grid segment))
  end.

Definition interval_of (l : layer) : Q :=
  match l with
  | tubing => 0
  | device => 1 # 10
  | annulus => 1 # 10
  end.

(** *** The left join with COMPDAT *)

Definition is_float (c : Schedule.cell) : bool :=
  match c with
  | Schedule.NonNumeric _ => false
  | _ => true
  end.

(** [col.astype(np.float64)]: raises as soon as one entry is rejected. *)
Definition astype_float64 (col : list Schedule.cell)
    : result (list Schedule.cell) :=
  if forallb is_float col then Ok col
  else Raise (ValueError "could not convert string to float").

Definition same_cell (i j k : Z) (d : Schedule.compdat_row) : bool :=
  Z.eqb (Schedule.dI d) i && Z.eqb (Schedule.dJ d) j
  && Z.eqb (Schedule.dK d) k.

(** [pd.merge(welsegs, compdat, how="left", on I, J, K)] for one left
    row: one row per matching COMPDAT record, or one row of NaN. *)
Definition join_row (compdat : list Schedule.compdat_row) (well : string)
    (w : Schedule.welsegs_row) (c : Schedule.compsegs_row)
    : list segment_row :=
  let mk cf kh :=
    {| WELL := well;
       Segment := Schedule.TUBINGSEGMENT w;
       MD := Schedule.TUBINGMD w;
       DIAMETER := Schedule.TUBINGID w;
       STARTMD := Schedule.STARTMD c;
       ENDMD := Schedule.ENDMD c;
       I := Schedule.I c; J := Schedule.J c; K := Schedule.K c;
       CF := cf; KH := kh |} in
  match filter (same_cell (Schedule.I c) (Schedule.J c) (Schedule.K c))
          compdat with
  | [] => [mk Schedule.NaN Schedule.NaN]
  | matches =>
      map (fun d => mk (Schedule.dCF d) (Schedule.dKH d)) matches
  end.

Section GetMd.

Variable welsegs_table : Schedule.collection Schedule.welsegs_row.
Variable compsegs_table : Schedule.collection Schedule.compsegs_row.
Variable compdat_table : list Schedule.compdat_row.

(** [get_md(well, segment, lateral, section)].  A well without WELSEGS or
    COMPSEGS content leaves the local [welsegs] or [compsegs] unbound.  The
    two [try: compdat[...].astype(np.float64)] blocks change no entry of
    the model: a [Numeric] cell already stands for an entry the cast
    accepts, and a column the cast rejects is kept as it is. *)
Definition get_md (well : string) (segment : list Z) (lateral : Z)
    (section : layer) : result (list segment_row) :=
  welsegs <- match Schedule.content_of welsegs_table well with
             | Some content => Ok content
             | None => Raise (UnboundLocalError "welsegs")
             end ;;
  let welsegs :=
    filter (fun r => isin segment (Schedule.TUBINGSEGMENT r)) welsegs in
  compsegs <- match Schedule.content_of compsegs_table well with
              | Some content => select_lateral content lateral
              | None => Raise (UnboundLocalError "compsegs")
              end ;;
  located <- traverse
               (fun w =>
                  c <- locate compsegs (Schedule.TUBINGSEGMENT w)
                         (Schedule.TUBINGMD w - interval_of section) ;;
                  Ok (w, c))
               welsegs ;;
  let compdat :=
    filter (fun d => String.eqb (Schedule.dWELL d) well) compdat_table in
  Ok (flat_map (fun wc => join_row compdat well (fst wc) (snd wc)) located).

End GetMd.

End Merge.

(** ** The per-segment table: [get_data] *)

Module Assemble.

Local Open Scope string_scope.

(** The SECTION label of a row. *)
Inductive section : Type := Device | Tubing | Annulus | Reservoir.

(** The summary keywords of [list_keywords] and the two ratio columns. *)
Inductive column : Type := SPR | SPRD | SOFR | SWFR | SGFRF | SWCT | SGOR.

Definition list_keywords : list column := [SPR; SPRD; SOFR; SWFR; SGFRF].

Definition name (c : column) : string :=
  match c with
  | SPR => "SPR" | SPRD => "SPRD" | SOFR => "SOFR" | SWFR => "SWFR"
  | SGFRF => "SGFRF" | SWCT => "SWCT" | SGOR => "SGOR"
  end.

Definition column_eqb (a b : column) : bool :=
  match a, b with
  | SPR, SPR | SPRD, SPRD | SOFR, SOFR | SWFR, SWFR
  | SGFRF, SGFRF | SWCT, SWCT | SGOR, SGOR => true
  | _, _ => false
  end.

Definition section_eqb (a b : section) : bool :=
  match a, b with
  | Device, Device | Tubing, Tubing | Annulus, Annulus
  | Reservoir, Reservoir => true
  | _, _ => false
  end.

(** A report date, as a time stamp. *)
Definition date : Type := Z.

(** A row of [data_frame] / [df_all]: the eleven header columns, then the
    keyword and ratio columns in the order they were assigned. *)
Record row : Type := {
  WELL : string;
  SECTION : section;
  DATE : date;
  SEGMENT : Z;
  MD : Q;
  STARTMD : Q;
  ENDMD : Q;
  CF : Schedule.cell;
  KH : Schedule.cell;
  THICKNESS : Q;
  DIAMETER : Q;
  values : list (column * Q)
}.

Definition frame : Type := list row.

Fixpoint lookup (c : column) (vs : list (column * Q)) : option Q :=
  match vs with
  | [] => None
  | (c', v) :: rest => if column_eqb c c' then Some v else lookup c rest
  end.

Fixpoint assign (c : column) (v : Q) (vs : list (column * Q))
    : list (column * Q) :=
  match vs with
  | [] => [(c, v)]
  | (c', v') :: rest =>
      if column_eqb c c' then (c, v) :: rest else (c', v') :: assign c v rest
  end.

Definition with_values (r : row) (vs : list (column * Q)) : row :=
  {| WELL := WELL r; SECTION := SECTION r; DATE := DATE r;
     SEGMENT := SEGMENT r; MD := MD r; STARTMD := STARTMD r;
     ENDMD := ENDMD r; CF := CF r; KH := KH r; THICKNESS := THICKNESS r;
     DIAMETER := DIAMETER r; values := vs |}.

Definition with_static (r : row) (cf kh : Schedule.cell) : row :=
  {| WELL := WELL r; SECTION := SECTION r; DATE := DATE r;
     SEGMENT := SEGMENT r; MD := MD r; STARTMD := STARTMD r;
     ENDMD := ENDMD r; CF := cf; KH := kh; THICKNESS := THICKNESS r;
     DIAMETER := DIAMETER r; values := values r |}.

(** [frame[c].values]: KeyError when the column is not there. *)
Definition column_values (c : column) (df : frame) : result (list Q) :=
  traverse (fun r => match lookup c (values r) with
                     | Some v => Ok v
                     | None => Raise (KeyError (name c))
                     end) df.

(** [frame[c] = value]: the lengths must agree. *)
Definition set_column (c : column) (value : list Q) (df : frame)
    : result frame :=
  if (length value =? length df)%nat
  then Ok (map (fun rv => with_values (fst rv)
                            (assign c (snd rv) (values (fst rv))))
             (combine df value))
  else Raise (ValueError "Length of values does not match length of index").

(** [frame[c] = 0.0]: a scalar fills the column. *)
Definition fill_column (c : column) (v : Q) (df : frame) : frame :=
  map (fun r => with_values r (assign c v (values r))) df.

(** [df_all[df_all["DATE"] == d]] then [[... ["SECTION"] == s]]. *)
Definition related (df_all : frame) (d : date) (s : section) : frame :=
  filter (fun r => section_eqb (SECTION r) s)
    (filter (fun r => Z.eqb (DATE r) d) df_all).

(** *** Header columns *)

(** [np.column_stack] of the eleven header arrays, then [pd.DataFrame]:
    [np_well], [np_section], [np_date] have [n] entries, [np_segment] its
    own, the rest come from the rows of [get_md]. *)
Definition stack (well : string) (s : section) (d : date) (n : nat)
    (np_segment : list Z) (welsegs : list Merge.segment_row) : result frame :=
  if ((n =? length np_segment) && (n =? length welsegs))%nat
  then Ok (map (fun sw =>
                  let w := snd sw in
                  {| WELL := well; SECTION := s; DATE := d;
                     SEGMENT := fst sw;
                     MD := Merge.MD w;
                     STARTMD := Merge.STARTMD w;
                     ENDMD := Merge.ENDMD w;
                     CF := Merge.CF w;
                     KH := Merge.KH w;
                     THICKNESS := Merge.ENDMD w - Merge.STARTMD w;
                     DIAMETER := Merge.DIAMETER w;
                     values := [] |})
             (combine np_segment welsegs))
  else Raise (ValueError "all the input array dimensions must match").

(** *** Ratio columns *)

(** The first [try] block: KeyError on a missing rate column is swallowed
    and SWCT is not assigned. *)
Definition add_swct (df : frame) : frame :=
  map (fun r => match lookup SWFR (values r), lookup SOFR (values r) with
                | Some w, Some o =>
                    with_values r (assign SWCT (Ratio.swct w o) (values r))
                | _, _ => r
                end) df.

(** The second [try] block, for SGOR. *)
Definition add_sgor (df : frame) : frame :=
  map (fun r => match lookup SGFRF (values r), lookup SOFR (values r) with
                | Some g, Some o =>
                    with_values r (assign SGOR (Ratio.sgor g o) (values r))
                | _, _ => r
                end) df.

(** *** Derived rates *)

(** [for isq in range(len(rate_inflow) - 1, -1, -1)] on the array [value],
    with [count] positions still to fill. *)
Fixpoint cumulate (rate_inflow value : list Q) (count : nat)
    : result (list Q) :=
  match count with
  | O => Ok value
  | S isq =>
      v <- (if (isq =? length rate_inflow - 1)%nat
            then Py.index rate_inflow isq
            else next <- Py.index value (isq + 1) ;;
                 inflow <- Py.index rate_inflow isq ;;
                 Ok (next + inflow)%Q) ;;
      value' <- Py.store value isq v ;;
      cumulate rate_inflow value' isq
  end.

(** The tubing SGFRF array: [value = np.zeros(n)], then the loop. *)
Definition tubing_rate (n : nat) (rate_inflow : list Q) : result (list Q) :=
  cumulate rate_inflow (repeat 0%Q n) (length rate_inflow).

(** [rate_inflow - np.insert(rate_inflow[1:], len(rate_inflow[1:]), 0.0)]. *)
Definition inflow_difference (rate_inflow : list Q) : list Q :=
  let rate_upstream := (tl rate_inflow ++ [0%Q])%list in
  map (fun p => (fst p - snd p)%Q) (combine rate_inflow rate_upstream).

(** *** Static property casts *)

Definition sentinel : Schedule.cell := Schedule.Numeric (1 # 10000000000).

(** [try: df_all["CF"] = df_all["CF"].astype(np.float64)]
    [except Exception: df_all["CF"] = 1.0e-10], and the same for KH. *)
Definition cast_static (df_all : frame) : frame :=
  let df_all :=
    match Merge.astype_float64 (map CF df_all) with
    | Ok _ => df_all
    | Raise _ => map (fun r => with_static r sentinel (KH r)) df_all
    end in
  match Merge.astype_float64 (map KH df_all) with
  | Ok _ => df_all
  | Raise _ => map (fun r => with_static r (CF r) sentinel) df_all
  end.

(** *** The four sections *)

(** The line printed for a keyword without a vector in the well. *)
Inductive warning : Type :=
| VectorNotFound (keyword : column) (well : string).

Section GetData.

Variable welsegs_table : Schedule.collection Schedule.welsegs_row.
Variable compsegs_table : Schedule.collection Schedule.compsegs_row.
Variable compdat_table : list Schedule.compdat_row.

(** [self.eclipse.numpy_vector(keyword + ":" + well + ":" + str(seg))]:
    the time series of a segment, or the exception of a missing key. *)
Variable numpy_vector : column -> string -> Z -> result (list Q).

Variable eclipse_dates : list date.

(** The reservoir rate of the branch taken when an annulus layer is set
    up (zone matching with [merge_asof]); it is given the device rows and
    the annulus rows of the date, the zone frame and the reservoir frame,
    and is not modelled further. *)
Variable annulus_inflow :
  column -> frame -> frame -> list Packer.zone_row -> frame
  -> result (list Q).

Variable well : string.
Variable lateral : Z.
Variable tubing_segment device_segment annulus_segment : list Z.
Variable my_days_idx : list nat.
Variable df_annulus_zone : list Packer.zone_row.

Definition get_md : string -> list Z -> Z -> Merge.layer
    -> result (list Merge.segment_row) :=
  Merge.get_md welsegs_table compsegs_table compdat_table.

Definition found (keyword : column) : bool :=
  is_ok (numpy_vector keyword well 1).

Definition kw_valid : list column := filter found list_keywords.

(** [value[i] = numpy_vector(...)[idx]] for every segment. *)
Definition series (keyword : column) (np_segment : list Z) (idx : nat)
    : result (list Q) :=
  traverse (fun seg => prof <- numpy_vector keyword well seg ;;
                       Py.index prof idx) np_segment.

(** Reading the local variable [df_all]. *)
Definition bound (df_all : option frame) : result frame :=
  match df_all with
  | Some df => Ok df
  | None => Raise (UnboundLocalError "df_all")
  end.

Definition n_device : nat := length device_segment.
Definition n_tubing : nat := length tubing_segment.
Definition n_annulus : nat := length annulus_segment.

(** One turn of a section that reads every keyword from the summary. *)
Definition raw_frame (s : section) (l : Merge.layer) (np_segment : list Z)
    (idx : nat) : result frame :=
  d <- Py.index eclipse_dates idx ;;
  welsegs <- get_md well np_segment lateral l ;;
  data_frame <- stack well s d (length np_segment) np_segment welsegs ;;
  data_frame <- for_each kw_valid
                  (fun df keyword =>
                     value <- series keyword np_segment idx ;;
                     set_column keyword value df)
                  data_frame ;;
  Ok (add_sgor (add_swct data_frame)).

Fixpoint enumerate_from {A : Type} (i : nat) (xs : list A)
    : list (nat * A) :=
  match xs with
  | [] => []
  | x :: xs' => (i, x) :: enumerate_from (S i) xs'
  end.

(** The device section: the only place that first assigns [df_all]. *)
Definition device_section : result (option frame) :=
  if (1 <? n_device)%nat then
    for_each (enumerate_from 0 my_days_idx)
      (fun df_all ix =>
         data_frame <- raw_frame Device Merge.device device_segment
                         (snd ix) ;;
         if (fst ix =? 0)%nat then Ok (Some data_frame)
         else all <- bound df_all ;; Ok (Some (all ++ data_frame)%list))
      None
  else Ok None.

(** One keyword of a tubing frame. *)
Definition tubing_column (df_all : option frame) (d : date) (idx : nat)
    (df : frame) (keyword : column) : result frame :=
  if negb (column_eqb keyword SGFRF) then
    value <- series keyword tubing_segment idx ;;
    set_column keyword value df
  else
    all <- bound df_all ;;
    rate_inflow <- column_values keyword (related all d Device) ;;
    value <- tubing_rate (length tubing_segment) rate_inflow ;;
    set_column keyword value df.

Definition tubing_frame (df_all : option frame) (idx : nat)
    : result frame :=
  d <- Py.index eclipse_dates idx ;;
  welsegs <- get_md well tubing_segment lateral Merge.tubing ;;
  data_frame <- stack well Tubing d n_tubing tubing_segment welsegs ;;
  data_frame <- for_each kw_valid (tubing_column df_all d idx) data_frame ;;
  Ok (add_sgor (add_swct data_frame)).

Definition tubing_section (df_all : option frame) : result (option frame) :=
  for_each my_days_idx
    (fun df_all idx =>
       data_frame <- tubing_frame df_all idx ;;
       all <- bound df_all ;;
       Ok (Some (all ++ data_frame)%list))
    df_all.

Definition annulus_section (df_all : option frame)
    : result (option frame) :=
  if (1 <? n_annulus)%nat then
    for_each my_days_idx
      (fun df_all idx =>
         data_frame <- raw_frame Annulus Merge.annulus annulus_segment idx ;;
         all <- bound df_all ;;
         Ok (Some (all ++ data_frame)%list))
      df_all
  else Ok df_all.

(** One keyword of a reservoir frame. *)
Definition reservoir_column (df_all : frame) (d : date) (df : frame)
    (keyword : column) : result frame :=
  match keyword with
  | SPR | SPRD => Ok (fill_column keyword 0 df)
  | SOFR | SWFR | SGFRF =>
      if (n_annulus =? 1)%nat then
        rate_inflow <- column_values keyword (related df_all d Tubing) ;;
        set_column keyword (inflow_difference rate_inflow) df
      else
        match df_annulus_zone with
        | [] => Raise (KeyError "MD")
        | _ =>
            value <- annulus_inflow keyword (related df_all d Device)
                       (related df_all d Annulus) df_annulus_zone df ;;
            set_column keyword value df
        end
  | _ => Ok df
  end.

Definition reservoir_frame (df_all : frame) (idx : nat) : result frame :=
  d <- Py.index eclipse_dates idx ;;
  welsegs <- get_md well tubing_segment lateral Merge.tubing ;;
  data_frame <- stack well Reservoir d n_device tubing_segment welsegs ;;
  data_frame <- for_each kw_valid (reservoir_column df_all d) data_frame ;;
  Ok (add_sgor (add_swct data_frame)).

Definition reservoir_section (df_all : frame) : result frame :=
  for_each my_days_idx
    (fun df_all idx =>
       data_frame <- reservoir_frame df_all idx ;;
       Ok (df_all ++ data_frame)%list)
    df_all.

(** [get_data(well, lateral)]: the warnings printed and [self.df_output]
    (without the velocity columns, which are computed from it row by
    row). *)
Definition get_data : list warning * result frame :=
  (map (fun keyword => VectorNotFound keyword well)
     (filter (fun keyword => negb (found keyword)) list_keywords),
   df_all <- device_section ;;
   df_all <- tubing_section df_all ;;
   df_all <- annulus_section df_all ;;
   df_all <- bound df_all ;;
   df_all <- reservoir_section (cast_static df_all) ;;
   Ok (cast_static df_all)).

End GetData.

End Assemble.

(** ** The layout of the per-segment table *)

Module Layout.

(** The columns that say what a row of [df_output] is about. *)
Definition key (r : Assemble.row)
    : string * Assemble.section * Assemble.date * Z :=
  (Assemble.WELL r, Assemble.SECTION r, Assemble.DATE r, Assemble.SEGMENT r).

(** The keys of the frames of one section: for each date in turn, one row
    per segment of the selection. *)
Definition block (well : string) (s : Assemble.section) (segments : list Z)
    (dates : list Assemble.date)
    : list (string * Assemble.section * Assemble.date * Z) :=
  flat_map (fun d => map (fun seg => (well, s, d, seg)) segments) dates.

(** The row is a row of the section [s] built from a row that [get_md]
    returns for the segments in the layer [l]: it has the depth and the
    interval of that row, and its CF and KH. *)
Definition merged
    (welsegs_table : Schedule.collection Schedule.welsegs_row)
    (compsegs_table : Schedule.collection Schedule.compsegs_row)
    (compdat_table : list Schedule.compdat_row)
    (well : string) (lateral : Z)
    (s : Assemble.section) (l : Merge.layer) (segments : list Z)
    (r : Assemble.row) : Prop :=
  Assemble.SECTION r = s /\
  exists rows w,
    Merge.get_md welsegs_table compsegs_table compdat_table well segments
      lateral l = Ok rows /\
    In w rows /\
    Assemble.MD r = Merge.MD w /\
    Assemble.STARTMD r = Merge.STARTMD w /\
    Assemble.ENDMD r = Merge.ENDMD w /\
    Assemble.CF r = Merge.CF w /\ Assemble.KH r = Merge.KH w.

End Layout.

(** ** One well of the main loop *)

Module Driver.

(** The methods the main loop calls for a well, in call order. *)
Inductive stage : Type :=
| InfoPerWell
| DayIndex
| Trajectory
| FindPacker
| GetData.

Section RunWell.

Context `{Days.ArgSort}.

Variable py_int : string -> option Z.
Variable py_float : string -> option Q.
Variable information : list Info.information_row.
Variable eclipse_days : list Q.
Variable eclipse_dates : list Assemble.date.
Variable welsegs_table : Schedule.collection Schedule.welsegs_row.
Variable compsegs_table : Schedule.collection Schedule.compsegs_row.
Variable compdat_table : list Schedule.compdat_row.
Variable numpy_vector : Assemble.column -> string -> Z -> result (list Q).
Variable annulus_inflow :
  Assemble.column -> Assemble.frame -> Assemble.frame
  -> list Packer.zone_row -> Assemble.frame -> result (list Q).

(** The calls from [get_info_per_well] to [get_data] for one well and
    lateral: the methods entered and [self.df_output].  [get_trajectory]
    only filters and sorts WELSEGS rows for the plots and is entered
    without being evaluated here; unpacking the [None] that [get_packer]
    returns for a well without WELSEGS content is a TypeError. *)
Definition run_well (well : string) (lateral : Z)
    : list stage * result Assemble.frame :=
  match snd (Info.get_info_per_well py_int py_float information
               well lateral) with
  | Raise e => ([InfoPerWell], Raise e)
  | Ok info =>
      match snd (Days.get_day_index eclipse_days (Info.my_days info)) with
      | Raise e => ([InfoPerWell; DayIndex], Raise e)
      | Ok my_days_idx =>
          match Packer.get_packer welsegs_table well
                  (Info.annulus_segment info) with
          | Raise e =>
              ([InfoPerWell; DayIndex; Trajectory; FindPacker], Raise e)
          | Ok None =>
              ([InfoPerWell; DayIndex; Trajectory; FindPacker],
               Raise TypeError)
          | Ok (Some (_, df_annulus_zone)) =>
              ([InfoPerWell; DayIndex; Trajectory; FindPacker; GetData],
               snd (Assemble.get_data welsegs_table compsegs_table
                      compdat_table numpy_vector eclipse_dates
                      annulus_inflow well lateral
                      (Info.tubing_segment info) (Info.device_segment info)
                      (Info.annulus_segment info) my_days_idx
                      df_annulus_zone))
          end
      end
  end.

End RunWell.

(** What the two readers at the head of a pass of [main] load for a data
    file: [read_data_file] the summary with its days and dates,
    [read_well_file] the three schedule tables. *)
Record case : Type := {
  eclipse_days : list Q;
  eclipse_dates : list Assemble.date;
  numpy_vector : Assemble.column -> string -> Z -> result (list Q);
  welsegs_table : Schedule.collection Schedule.welsegs_row;
  compsegs_table : Schedule.collection Schedule.compsegs_row;
  compdat_table : list Schedule.compdat_row
}.

(** The calls of [main], in call order: the two readers for the data file
    [ifi], then the methods entered for the line [iw] of INFORMATION. *)
Inductive call : Type :=
| ReadDataFile (ifi : nat)
| ReadWellFile (ifi : nat)
| Method (iw ifi : nat) (s : stage).

Section MainLoop.

Context `{Days.ArgSort}.

Variable py_int : string -> option Z.
Variable py_float : string -> option Q.
Variable information : list Info.information_row.
Variable annulus_inflow :
  Assemble.column -> Assemble.frame -> Assemble.frame
  -> list Packer.zone_row -> Assemble.frame -> result (list Q).

(** [self.data_file] and [self.well_file], as what they hold. *)
Variable cases : list case.

(** One turn of [for ifi in range(self.n_file)] for the line [iw]: the
    calls made and [self.df_output].  The two files are taken as
    readable; the plotting calls that follow [get_data] are left out. *)
Definition pass (iw : nat) (row : Info.information_row) (ifi : nat)
    (c : case) : list call * result Assemble.frame :=
  let (stages, df_output) :=
    run_well py_int py_float information (eclipse_days c) (eclipse_dates c)
      (welsegs_table c) (compsegs_table c) (compdat_table c)
      (numpy_vector c) annulus_inflow (Info.WELL row) (Info.LATERAL row) in
  (ReadDataFile ifi :: ReadWellFile ifi :: map (Method iw ifi) stages,
   df_output).

(** The passes of the two loops, in the order they are made. *)
Definition passes : list (nat * Info.information_row * (nat * case)) :=
  flat_map
    (fun line => map (fun file => (fst line, snd line, file))
                   (Assemble.enumerate_from 0 cases))
    (Assemble.enumerate_from 0 information).

(** The passes are made until one ends in an exception. *)
Fixpoint run_passes (todo : list (nat * Info.information_row * (nat * case)))
    : list call * result (list Assemble.frame) :=
  match todo with
  | [] => ([], Ok [])
  | (iw, row, (ifi, c)) :: rest =>
      let (calls, df_output) := pass iw row ifi c in
      match df_output with
      | Raise e => (calls, Raise e)
      | Ok df =>
          let (later, r) := run_passes rest in
          ((calls ++ later)%list, tables <- r ;; Ok (df :: tables))
      end
  end.

(** The calls of [main] and the tables of its passes. *)
Definition main_calls : list call * result (list Assemble.frame) :=
  run_passes passes.

End MainLoop.

Section ExportTable.

(** The body of the loops of [main] for well [iw] and data file [ifi],
    apart from the lines on [df_export]: the exception it ends in, or
    [self.df_output]. *)
Variable df_output : nat -> nat -> result Assemble.frame.

Definition bound_export (df_export : option Assemble.frame)
    : result Assemble.frame :=
  match df_export with
  | Some df => Ok df
  | None => Raise (UnboundLocalError "df_export")
  end.

(** [for ifi in range(self.n_file)] for the well [iw]. *)
Definition export_files (n_file : nat) (df_export : option Assemble.frame)
    (iw : nat) : result (option Assemble.frame) :=
  for_each (seq 0 n_file)
    (fun df_export ifi =>
       out <- df_output iw ifi ;;
       if (iw =? 0)%nat then Ok (Some out)
       else all <- bound_export df_export ;; Ok (Some (all ++ out)%list))
    df_export.

(** [main()]: the table written to [self.output_file], if one is written. *)
Definition main (n_well n_file : nat) (output_file : string)
    : result (option Assemble.frame) :=
  df_export <- for_each (seq 0 n_well) (export_files n_file) None ;;
  if negb (String.eqb output_file EmptyString)
  then df <- bound_export df_export ;; Ok (Some df)
  else Ok None.

End ExportTable.

End Driver.

(** ** A small well used to run the model *)

Module Example.

Local Open Scope string_scope.

(** Decimal digits only: enough of [int] and of the float cast for the
    INFORMATION lines below. *)
Fixpoint digits (s : string) (acc : Z) : option Z :=
  match s with
  | EmptyString => Some acc
  | String c s' =>
      let n := nat_of_ascii c in
      if ((48 <=? n) && (n <=? 57))%nat
      then digits s' (10 * acc + Z.of_nat (n - 48))%Z
      else None
  end.

Definition py_int (s : string) : option Z :=
  match s with
  | EmptyString => None
  | _ => digits s 0
  end.

Definition py_float (s : string) : option Q :=
  option_map inject_Z (py_int s).

Definition welseg (seg outlet : Z) (md : Q) : Schedule.welsegs_row :=
  {| Schedule.TUBINGSEGMENT := seg; Schedule.TUBINGOUTLET := outlet;
     Schedule.TUBINGMD := md; Schedule.TUBINGTVD := 900;
     Schedule.TUBINGID := 15 # 100 |}.

Definition compseg (k : Z) (start_md end_md : Q) : Schedule.compsegs_row :=
  {| Schedule.I := 10; Schedule.J := 10; Schedule.K := k;
     Schedule.STARTMD := start_md; Schedule.ENDMD := end_md |}.

Definition compdat (k : Z) (cf kh : Schedule.cell) : Schedule.compdat_row :=
  {| Schedule.dWELL := "A-1"; Schedule.dI := 10; Schedule.dJ := 10;
     Schedule.dK := k; Schedule.dCF := cf; Schedule.dKH := kh |}.

(** Tubing segments 2-5, device segments 6-9 (each 0.1 past its tubing
    node), annulus segments 10-12 in two compartments. *)
Definition welsegs_table : Schedule.collection Schedule.welsegs_row :=
  [("A-1",
    [welseg 2 1 1005; welseg 3 2 1015; welseg 4 3 1025; welseg 5 4 1035;
     welseg 6 2 (10051 # 10); welseg 7 3 (10151 # 10);
     welseg 8 4 (10251 # 10); welseg 9 5 (10351 # 10);
     welseg 10 6 (10052 # 10); welseg 11 10 (10152 # 10);
     welseg 12 8 (10252 # 10)])].

Definition compsegs_table : Schedule.collection Schedule.compsegs_row :=
  [("A-1",
    [compseg 1 1000 1010; compseg 2 1010 1020; compseg 3 1020 1030;
     compseg 4 1030 1040])].

Definition compdat_table : list Schedule.compdat_row :=
  [compdat 1 (Schedule.Numeric 5) (Schedule.Numeric 100);
   compdat 2 (Schedule.Numeric 6) (Schedule.Numeric 200);
   compdat 3 (Schedule.Numeric 7) (Schedule.Numeric 300);
   compdat 4 (Schedule.Numeric 8) (Schedule.Numeric 400)].

Definition eclipse_days : list Q := [0; 10; 20; 30].
Definition eclipse_dates : list Assemble.date := [100; 110; 120; 130]%Z.

(** Device gas inflows 3, 0, 7, 0 on segments 6-9; every series is
    constant in time. *)
Definition level (keyword : Assemble.column) (seg : Z) : Q :=
  match keyword with
  | Assemble.SGFRF =>
      if (seg =? 6)%Z then 3 else if (seg =? 8)%Z then 7 else 0
  | Assemble.SOFR => inject_Z seg
  | Assemble.SWFR => 1
  | _ => 200 - inject_Z seg
  end.

Definition numpy_vector (keyword : Assemble.column) (well : string)
    (seg : Z) : result (list Q) :=
  if String.eqb well "A-1" && (1 <=? seg)%Z && (seg <=? 12)%Z
  then Ok (repeat (level keyword seg) 4)
  else Raise (KeyError (Assemble.name keyword)).

(** A stand-in for the annulus branch of the reservoir rates. *)
Definition annulus_inflow (keyword : Assemble.column)
    (df_device df_annulus : Assemble.frame)
    (zones : list Packer.zone_row) (data_frame : Assemble.frame)
    : result (list Q) :=
  Ok (repeat 0%Q (length data_frame)).

Definition info_line (tubing device annulus days : string)
    : Info.information_row :=
  {| Info.WELL := "A-1"; Info.LATERAL := 1;
     Info.TUBINGSEGMENT := tubing; Info.DEVICESEGMENT := device;
     Info.ANNULUSSEGMENT := annulus; Info.DAYS := days |}.

(** COMPSEGS of a well with two laterals: the first has a blank stretch
    between 1020 and 1030, the second starts at 1020. *)
Definition two_laterals : list Schedule.compsegs_row :=
  [compseg 1 1000 1010; compseg 2 1010 1020; compseg 3 1030 1040;
   compseg 4 1040 1050;
   compseg 11 1020 1030; compseg 12 1030 1040; compseg 13 1040 1050;
   compseg 14 1050 1060].

(** The table [get_md] returns for the device segments of the well. *)
Definition no_segment_row : Merge.segment_row :=
  {| Merge.WELL := ""; Merge.Segment := 0; Merge.MD := 0;
     Merge.DIAMETER := 0; Merge.STARTMD := 0; Merge.ENDMD := 0;
     Merge.I := 0; Merge.J := 0; Merge.K := 0;
     Merge.CF := Schedule.NaN; Merge.KH := Schedule.NaN |}.

Definition device_merge : list Merge.segment_row :=
  Eval vm_compute in
    match Merge.get_md welsegs_table compsegs_table compdat_table "A-1"
            [6; 7; 8; 9]%Z 1 Merge.device with
    | Ok rows => rows
    | Raise _ => []
    end.

(** The table [get_data] builds for the well at report step 1, without
    an annulus layer. *)
Definition df_output : Assemble.frame :=
  Eval vm_compute in
    match snd (Assemble.get_data welsegs_table compsegs_table compdat_table
                 numpy_vector eclipse_dates annulus_inflow "A-1" 1
                 [2; 3; 4; 5]%Z [6; 7; 8; 9]%Z [0%Z] [1%nat] []) with
    | Ok df => df
    | Raise _ => []
    end.

(** The summary and the schedule of the example well as a data file. *)
Definition case_a : Driver.case :=
  {| Driver.eclipse_days := eclipse_days;
     Driver.eclipse_dates := eclipse_dates;
     Driver.numpy_vector := numpy_vector;
     Driver.welsegs_table := welsegs_table;
     Driver.compsegs_table := compsegs_table;
     Driver.compdat_table := compdat_table |}.

(** A line of INFORMATION for the second lateral of the well. *)
Definition second_line (tubing device annulus days : string)
    : Info.information_row :=
  {| Info.WELL := "A-1"; Info.LATERAL := 2;
     Info.TUBINGSEGMENT := tubing; Info.DEVICESEGMENT := device;
     Info.ANNULUSSEGMENT := annulus; Info.DAYS := days |}.

(** An input file for two cases, as [readlines] gives it. *)
Definition line (s : string) : string :=
  (s ++ String Input.newline EmptyString)%string.

Definition read_clean_input : list string :=
  map line
    ["DATAFILE"; "'CASE_A'"; "'CASE_B'"; "/";
     "WELLFILE"; "'a.sch'"; "'b.sch'"; "/";
     "OUTPUTFILE"; "'out.csv'"; "/";
     "INFORMATION"; "A-1 1 2-5 6-9 1* 10"; "/"]%string.

(** Rows carrying only what the rate derivations read. *)
Definition plain_row (s : Assemble.section) (seg : Z)
    (vs : list (Assemble.column * Q)) : Assemble.row :=
  {| Assemble.WELL := "A-1"; Assemble.SECTION := s; Assemble.DATE := 110%Z;
     Assemble.SEGMENT := seg; Assemble.MD := 0; Assemble.STARTMD := 0;
     Assemble.ENDMD := 0; Assemble.CF := Schedule.Numeric 1;
     Assemble.KH := Schedule.Numeric 1; Assemble.THICKNESS := 0;
     Assemble.DIAMETER := 0; Assemble.values := vs |}.

Definition device_rows : Assemble.frame :=
  [plain_row Assemble.Device 6 [(Assemble.SGFRF, 3)];
   plain_row Assemble.Device 7 [(Assemble.SGFRF, 0)];
   plain_row Assemble.Device 8 [(Assemble.SGFRF, 7)];
   plain_row Assemble.Device 9 [(Assemble.SGFRF, 0)]].

Definition tubing_rows : Assemble.frame :=
  [plain_row Assemble.Tubing 2 [(Assemble.SGFRF, 10)];
   plain_row Assemble.Tubing 3 [(Assemble.SGFRF, 7)];
   plain_row Assemble.Tubing 4 [(Assemble.SGFRF, 7)];
   plain_row Assemble.Tubing 5 [(Assemble.SGFRF, 0)]].

Definition blank_rows (s : Assemble.section) : Assemble.frame :=
  map (fun seg => plain_row s seg []) [2; 3; 4; 5]%Z.

End Example.

(** * Properties *)

(** ** Results, arrays *)

Section PyFacts.

Context {A : Type}.

Lemma index_in_range (a : list A) (i : nat) (d : A) :
  (i < length a)%nat -> Py.index a i = Ok (nth i a d).
Proof.
  intros Hi. unfold Py.index.
  rewrite (nth_error_nth' a d Hi). reflexivity.
Qed.

Lemma index_out_of_range (a : list A) (i : nat) :
  (length a <= i)%nat -> Py.index a i = Raise IndexError.
Proof.
  intros Hi. unfold Py.index.
  apply nth_error_None in Hi. rewrite Hi. reflexivity.
Qed.

Lemma store_in_range (a : list A) (i : nat) (v : A) :
  (i < length a)%nat ->
  exists a', Py.store a i v = Ok a' /\ length a' = length a /\
    (forall d, nth i a' d = v) /\
    (forall k d, k <> i -> nth k a' d = nth k a d).
Proof.
  revert i. induction a as [|x a IH]; intros i Hi; simpl in Hi; [lia|].
  destruct i as [|i].
  - exists (v :: a). repeat split; auto.
    intros [|k] d Hk; [congruence | reflexivity].
  - destruct (IH i) as (a' & Hs & Hl & Hi' & Hk); [lia|].
    exists (x :: a'). simpl. rewrite Hs. simpl.
    repeat split; auto.
    intros [|k] d Hne; [reflexivity|]. simpl. apply Hk. congruence.
Qed.

Lemma store_out_of_range (a : list A) (i : nat) (v : A) :
  (length a <= i)%nat -> Py.store a i v = Raise IndexError.
Proof.
  revert i. induction a as [|x a IH]; intros i Hi; [reflexivity|].
  destruct i as [|i]; simpl in Hi; [lia|].
  simpl. rewrite IH by lia. reflexivity.
Qed.

End PyFacts.

Lemma traverse_length {A B : Type} (f : A -> result B) (xs : list A)
    (ys : list B) :
  Py.traverse f xs = Ok ys -> length ys = length xs.
Proof.
  revert ys. induction xs as [|x xs IH]; intros ys; simpl.
  - intros [= <-]. reflexivity.
  - destruct (f x) as [y|e]; simpl; [|discriminate].
    destruct (Py.traverse f xs) as [ys'|e]; simpl; [|discriminate].
    intros [= <-]. simpl. f_equal. apply IH. reflexivity.
Qed.

(** ** Columns of a row *)

Section ColumnFacts.

Import Assemble.

Lemma column_eqb_eq (a b : column) : column_eqb a b = true <-> a = b.
Proof.
  split; [|intros ->; destruct b; reflexivity].
  destruct a, b; simpl; congruence.
Qed.

Lemma column_eqb_refl (a : column) : column_eqb a a = true.
Proof. apply column_eqb_eq. reflexivity. Qed.

Lemma column_eqb_neq (a b : column) : a <> b -> column_eqb a b = false.
Proof.
  intros Hne. destruct (column_eqb a b) eqn:E; [|reflexivity].
  apply column_eqb_eq in E. contradiction.
Qed.

Lemma lookup_assign_same (c : column) (v : Q) (vs : list (column * Q)) :
  lookup c (assign c v vs) = Some v.
Proof.
  induction vs as [|[c' v'] vs IH]; simpl.
  - rewrite column_eqb_refl. reflexivity.
  - destruct (column_eqb c c') eqn:E; simpl.
    + rewrite column_eqb_refl. reflexivity.
    + rewrite E. exact IH.
Qed.

Lemma lookup_assign_other (c c' : column) (v : Q) (vs : list (column * Q)) :
  c' <> c -> lookup c' (assign c v vs) = lookup c' vs.
Proof.
  intros Hne. induction vs as [|[c0 v0] vs IH]; simpl.
  - rewrite (column_eqb_neq c' c Hne). reflexivity.
  - destruct (column_eqb c c0) eqn:E; simpl.
    + apply column_eqb_eq in E. subst c0.
      rewrite (column_eqb_neq c' c Hne). reflexivity.
    + destruct (column_eqb c' c0); auto.
Qed.

End ColumnFacts.

(** ** Water cut and gas-oil ratio *)

Section RatioFacts.

Import Assemble.

Lemma add_swct_row (df : frame) (r : row) :
  In r (add_swct df) ->
  forall w o,
    lookup SWFR (values r) = Some w -> lookup SOFR (values r) = Some o ->
    lookup SWCT (values r) = Some (Ratio.swct w o).
Proof.
  unfold add_swct. rewrite in_map_iff. intros (r0 & <- & _) w o.
  destruct (lookup SWFR (values r0)) as [w0|] eqn:Ew;
    [destruct (lookup SOFR (values r0)) as [o0|] eqn:Eo|].
  - simpl. rewrite !lookup_assign_other by discriminate.
    rewrite Ew, Eo. intros [= <-] [= <-]. apply lookup_assign_same.
  - rewrite Eo. discriminate.
  - rewrite Ew. discriminate.
Qed.

Lemma add_sgor_row (df : frame) (r : row) :
  In r (add_sgor df) ->
  forall g o,
    lookup SGFRF (values r) = Some g -> lookup SOFR (values r) = Some o ->
    lookup SGOR (values r) = Some (Ratio.sgor g o).
Proof.
  unfold add_sgor. rewrite in_map_iff. intros (r0 & <- & _) g o.
  destruct (lookup SGFRF (values r0)) as [g0|] eqn:Eg;
    [destruct (lookup SOFR (values r0)) as [o0|] eqn:Eo|].
  - simpl. rewrite !lookup_assign_other by discriminate.
    rewrite Eg, Eo. intros [= <-] [= <-]. apply lookup_assign_same.
  - rewrite Eo. discriminate.
  - rewrite Eg. discriminate.
Qed.

Lemma add_sgor_keeps (df : frame) (r : row) :
  In r (add_sgor df) ->
  exists r0, In r0 df /\ forall c, c <> SGOR ->
    lookup c (values r) = lookup c (values r0).
Proof.
  unfold add_sgor. rewrite in_map_iff. intros (r0 & <- & Hin).
  exists r0. split; [exact Hin|]. intros c Hc.
  destruct (lookup SGFRF (values r0)); [|reflexivity].
  destruct (lookup SOFR (values r0)); [|reflexivity].
  simpl. apply lookup_assign_other. exact Hc.
Qed.

(** C7, as the claim states it, fails: with a water rate of 0.06 and an oil
    rate of 0.06 both rates are below the threshold 0.1, yet their sum is not,
    and the water cut is 0.06 / 0.12001, not 0. *)
Lemma water_cut_both_below_threshold_not_zero :
  Qabs (6 # 100) < Ratio.min_rate /\ Qabs (6 # 100) < Ratio.min_rate /\
  Ratio.swct (6 # 100) (6 # 100) == 6000 # 12001 /\
  ~ Ratio.swct (6 # 100) (6 # 100) == 0.
Proof.
  repeat split; try reflexivity.
  intros E. vm_compute in E. discriminate.
Qed.

(** C7, amended: the water cut is 0 when the SUM of the absolute water and
    oil rates is below 0.1 and |water| / (|water| + |oil| + 1e-5) otherwise;
    rates 0.05 and 0.02 give 0; the gas-oil ratio is
    |gas| / (|oil| + 1e-5); and these are the SWCT and SGOR entries of every
    row of a frame that has the rate columns. *)
Theorem water_cut_and_gas_oil_ratio (w o g : Q) :
  (Qabs w + Qabs o < 1 # 10 -> Ratio.swct w o = 0) /\
  (1 # 10 <= Qabs w + Qabs o ->
   Ratio.swct w o = Qabs w / (Qabs w + Qabs o + (1 # 100000))) /\
  Ratio.swct (5 # 100) (2 # 100) = 0 /\
  Ratio.sgor g o = Qabs g / (Qabs o + (1 # 100000)) /\
  (forall df r,
     In r (add_sgor (add_swct df)) ->
     lookup SWFR (values r) = Some w -> lookup SOFR (values r) = Some o ->
     lookup SWCT (values r) = Some (Ratio.swct w o) /\
     (lookup SGFRF (values r) = Some g ->
      lookup SGOR (values r) = Some (Ratio.sgor g o))).
Proof.
  unfold Ratio.swct, Ratio.sgor, Ratio.min_rate, Ratio.eps.
  repeat apply conj; try reflexivity.
  - intros Hlt. destruct (Qlt_le_dec _ _) as [_|Hle]; [reflexivity|].
    exfalso. exact (Qlt_not_le _ _ Hlt Hle).
  - intros Hle. destruct (Qlt_le_dec _ _) as [Hlt|_]; [|reflexivity].
    exfalso. exact (Qlt_not_le _ _ Hlt Hle).
  - intros df r Hin Hw Ho.
    destruct (add_sgor_keeps _ _ Hin) as (r0 & Hin0 & Hsame).
    split.
    + rewrite (Hsame SWCT) by discriminate.
      rewrite (Hsame SWFR) in Hw by discriminate.
      rewrite (Hsame SOFR) in Ho by discriminate.
      exact (add_swct_row _ _ Hin0 _ _ Hw Ho).
    + intros Hg. exact (add_sgor_row _ _ Hin _ _ Hg Ho).
Qed.

End RatioFacts.

(** ** Derived rates *)

Section RateFacts.

Import Assemble.

Lemma total_skipn (a : list Q) (k : nat) :
  (k < length a)%nat ->
  total (skipn k a) = nth k a 0 + total (skipn (S k) a).
Proof.
  revert k. induction a as [|x a IH]; intros k Hk; simpl in Hk; [lia|].
  destruct k as [|k]; [reflexivity|].
  change (skipn (S k) (x :: a)) with (skipn k a).
  change (skipn (S (S k)) (x :: a)) with (skipn (S k) a).
  simpl nth. apply IH. lia.
Qed.

Lemma total_skipn_all (a : list Q) (k : nat) :
  (length a <= k)%nat -> total (skipn k a) = 0.
Proof. intros Hk. rewrite skipn_all2 by exact Hk. reflexivity. Qed.

(** The loop invariant: every position from [count] on holds the sum of
    the inflows from that position to the last. *)
Lemma cumulate_sums (rate_inflow : list Q) (count : nat) :
  forall value,
    (count <= length rate_inflow)%nat ->
    (length rate_inflow <= length value)%nat ->
    (forall k, (count <= k < length rate_inflow)%nat ->
               nth k value 0 == total (skipn k rate_inflow)) ->
    exists value',
      cumulate rate_inflow value count = Ok value' /\
      length value' = length value /\
      (forall k, (k < length rate_inflow)%nat ->
                 nth k value' 0 == total (skipn k rate_inflow)) /\
      (forall k, (length rate_inflow <= k)%nat ->
                 nth k value' 0 = nth k value 0).
Proof.
  induction count as [|isq IH]; intros value Hc Hlen Hinv.
  - exists value. repeat split; auto. intros k Hk. apply Hinv. lia.
  - simpl.
    assert (Hv : exists v,
      (if (isq =? length rate_inflow - 1)%nat
       then Py.index rate_inflow isq
       else next <- Py.index value (isq + 1) ;;
            inflow <- Py.index rate_inflow isq ;; Ok (next + inflow)) = Ok v
      /\ v == total (skipn isq rate_inflow)).
    { destruct (Nat.eqb_spec isq (length rate_inflow - 1)) as [E|E].
      - exists (nth isq rate_inflow 0). split.
        + apply index_in_range. lia.
        + rewrite total_skipn by lia.
          rewrite total_skipn_all by lia. ring.
      - exists (nth (isq + 1) value 0 + nth isq rate_inflow 0). split.
        + rewrite (index_in_range value (isq + 1) 0) by lia. simpl.
          rewrite (index_in_range rate_inflow isq 0) by lia. reflexivity.
        + rewrite (total_skipn rate_inflow isq) by lia.
          rewrite (Hinv (isq + 1)%nat) by lia.
          rewrite Nat.add_1_r. ring. }
    destruct Hv as (v & -> & Hv). simpl.
    destruct (store_in_range value isq v) as (value1 & -> & Hl1 & Hset & Hkeep);
      [lia|]. simpl.
    destruct (IH value1) as (value' & Hrun & Hl' & Hsum & Hrest);
      [lia | lia | |].
    + intros k Hk. destruct (Nat.eq_dec k isq) as [->|Hne].
      * rewrite Hset. exact Hv.
      * rewrite Hkeep by exact Hne. apply Hinv. lia.
    + exists value'. repeat split; auto.
      * lia.
      * intros k Hk. rewrite Hrest by exact Hk. apply Hkeep. lia.
Qed.

Lemma inflow_difference_length (rate_inflow : list Q) :
  length (inflow_difference rate_inflow) = length rate_inflow.
Proof.
  unfold inflow_difference.
  rewrite length_map, length_combine, length_app.
  destruct rate_inflow; cbn [tl length]; lia.
Qed.

Lemma upstream_nth (rate_inflow : list Q) (k : nat) :
  nth k (tl rate_inflow ++ [0]) 0 = nth (S k) rate_inflow 0.
Proof.
  destruct rate_inflow as [|x a]; [destruct k as [|[|k]]; reflexivity|].
  simpl tl. change (nth (S k) (x :: a) 0) with (nth k a 0).
  destruct (Nat.lt_ge_cases k (length a)) as [Hk|Hk].
  - apply app_nth1. exact Hk.
  - rewrite app_nth2 by exact Hk. rewrite (nth_overflow a) by exact Hk.
    destruct (k - length a)%nat as [|[|j]]; reflexivity.
Qed.

Lemma inflow_difference_nth (rate_inflow : list Q) (k : nat) :
  (k < length rate_inflow)%nat ->
  nth k (inflow_difference rate_inflow) 0
  = nth k rate_inflow 0 - nth (S k) rate_inflow 0.
Proof.
  intros Hk. unfold inflow_difference.
  rewrite <- upstream_nth.
  set (up := (tl rate_inflow ++ [0])%list).
  assert (Hup : (k < length up)%nat).
  { unfold up. rewrite length_app.
    destruct rate_inflow; cbn [tl length] in *; lia. }
  clearbody up. revert k up Hk Hup.
  induction rate_inflow as [|x a IH]; intros k up Hk Hup; simpl in Hk; [lia|].
  destruct up as [|u up]; simpl in Hup; [lia|].
  destruct k as [|k]; [reflexivity|].
  simpl. apply IH; lia.
Qed.

End RateFacts.

(** ** Columns of a frame *)

Section FrameFacts.

Import Assemble.

Lemma set_column_ok (c : column) (value : list Q) (df : frame) :
  length value = length df ->
  exists df',
    set_column c value df = Ok df' /\ length df' = length df /\
    column_values c df' = Ok value.
Proof.
  intros Hlen. unfold set_column.
  rewrite (proj2 (Nat.eqb_eq _ _) Hlen).
  eexists. split; [reflexivity|]. split.
  - rewrite length_map, length_combine. lia.
  - revert value Hlen. induction df as [|r df IH]; intros value Hlen.
    + destruct value; [reflexivity | discriminate].
    + destruct value as [|v value]; [discriminate|].
      unfold column_values in *.
      cbn [combine map Py.traverse fst snd values with_values].
      rewrite lookup_assign_same.
      cbn [Py.bind]. rewrite IH by (simpl in Hlen; lia).
      reflexivity.
Qed.

Lemma set_column_mismatch (c : column) (value : list Q) (df : frame) :
  length value <> length df ->
  exists msg, set_column c value df = Raise (ValueError msg).
Proof.
  intros Hlen. unfold set_column.
  rewrite (proj2 (Nat.eqb_neq _ _) Hlen). eexists. reflexivity.
Qed.

End FrameFacts.

(** ** Tubing gas rate *)

Section TubingRate.

Import Assemble.

Variable numpy_vector : column -> string -> Z -> result (list Q).
Variable well : string.
Variable tubing_segment : list Z.

(** For a timestep whose device rows are one batch as long as the tubing
    selection, the SGFRF column of the tubing frame holds, at every
    position k, the sum of the device SGFRF inflows at the positions from
    k to the last one; the last (deepest) tubing value is the last device
    inflow alone. *)
Theorem tubing_gas_rate_is_reverse_cumulative_sum
    (df_all : frame) (d : date) (idx : nat) (data_frame : frame)
    (rate_inflow : list Q) :
  column_values SGFRF (related df_all d Device) = Ok rate_inflow ->
  length rate_inflow = length tubing_segment ->
  length data_frame = length tubing_segment ->
  exists df' value,
    tubing_column numpy_vector well tubing_segment (Some df_all) d idx
      data_frame SGFRF = Ok df' /\
    column_values SGFRF df' = Ok value /\
    length value = length rate_inflow /\
    (forall k, (k < length rate_inflow)%nat ->
       nth k value 0 == total (skipn k rate_inflow)) /\
    nth (length rate_inflow - 1) value 0
    == nth (length rate_inflow - 1) rate_inflow 0.
Proof.
  intros Hcol Hrate Hframe.
  unfold tubing_column. simpl. rewrite Hcol. simpl.
  unfold tubing_rate.
  destruct (cumulate_sums rate_inflow (length rate_inflow)
              (repeat 0 (length tubing_segment)))
    as (value & Hrun & Hlen & Hsum & _).
  - lia.
  - rewrite repeat_length. lia.
  - intros k Hk. lia.
  - rewrite Hrun. simpl. rewrite repeat_length in Hlen.
    destruct (set_column_ok SGFRF value data_frame) as (df' & Hset & _ & Hval);
      [lia|].
    exists df', value. repeat split; auto; [lia|].
    destruct rate_inflow as [|x a].
    + destruct value; [reflexivity | simpl in *; lia].
    + rewrite Hsum by (simpl; lia).
      rewrite total_skipn by (simpl; lia).
      rewrite total_skipn_all by (simpl; lia). ring.
Qed.

End TubingRate.

(** On the example well the device inflows 3, 0, 7, 0 give the tubing
    rates 10, 7, 7, 0. *)
Lemma tubing_gas_rate_example :
  exists df' value,
    Assemble.tubing_column Example.numpy_vector "A-1" [2; 3; 4; 5]%Z
      (Some Example.device_rows) 110%Z 1
      (Example.blank_rows Assemble.Tubing) Assemble.SGFRF = Ok df' /\
    Assemble.column_values Assemble.SGFRF df' = Ok value /\
    length value = 4%nat /\
    (forall k, (k < 4)%nat ->
       nth k value 0 == total (skipn k [3; 0; 7; 0])) /\
    nth 3 value 0 == nth 3 [3; 0; 7; 0] 0.
Proof.
  apply (tubing_gas_rate_is_reverse_cumulative_sum
           Example.numpy_vector "A-1"%string [2; 3; 4; 5]%Z
           Example.device_rows 110%Z 1 (Example.blank_rows Assemble.Tubing)
           [3; 0; 7; 0]); reflexivity.
Defined.

(** ** The tubing frame of a timestep *)

Section TubingFrame.

Import Assemble.

Lemma for_each_app {A S : Type} (xs ys : list A)
    (body : S -> A -> result S) (s : S) :
  Py.for_each (xs ++ ys) body s
  = Py.bind (Py.for_each xs body s) (Py.for_each ys body).
Proof.
  revert s. induction xs as [|x xs IH]; intros s; simpl.
  - reflexivity.
  - destruct (body s x); simpl; [apply IH | reflexivity].
Qed.

Lemma tubing_rate_overflow (n : nat) (rate_inflow : list Q) :
  (n < length rate_inflow)%nat ->
  tubing_rate n rate_inflow = Raise IndexError.
Proof.
  intros Hn. unfold tubing_rate.
  destruct (length rate_inflow) as [|isq] eqn:El; [lia|].
  cbn [cumulate]. rewrite El.
  replace (isq =? S isq - 1)%nat with true
    by (symmetry; apply Nat.eqb_eq; lia).
  rewrite (index_in_range rate_inflow isq 0) by lia. cbn [Py.bind].
  rewrite store_out_of_range by (rewrite repeat_length; lia).
  reflexivity.
Qed.

Lemma column_values_add_swct (c : column) (df : frame) :
  c <> SWCT -> column_values c (add_swct df) = column_values c df.
Proof.
  intros Hc. unfold column_values, add_swct.
  induction df as [|r df IH]; [reflexivity|].
  cbn [map Py.traverse]. rewrite IH.
  destruct (lookup SWFR (values r)); [|reflexivity].
  destruct (lookup SOFR (values r)); [|reflexivity].
  cbn [values with_values]. rewrite lookup_assign_other by exact Hc.
  reflexivity.
Qed.

Lemma column_values_add_sgor (c : column) (df : frame) :
  c <> SGOR -> column_values c (add_sgor df) = column_values c df.
Proof.
  intros Hc. unfold column_values, add_sgor.
  induction df as [|r df IH]; [reflexivity|].
  cbn [map Py.traverse]. rewrite IH.
  destruct (lookup SGFRF (values r)); [|reflexivity].
  destruct (lookup SOFR (values r)); [|reflexivity].
  cbn [values with_values]. rewrite lookup_assign_other by exact Hc.
  reflexivity.
Qed.

Variable welsegs_table : Schedule.collection Schedule.welsegs_row.
Variable compsegs_table : Schedule.collection Schedule.compsegs_row.
Variable compdat_table : list Schedule.compdat_row.
Variable numpy_vector : column -> string -> Z -> result (list Q).
Variable eclipse_dates : list date.
Variable well : string.
Variable lateral : Z.
Variable tubing_segment : list Z.

(** Whenever a tubing frame is built for a timestep and SGFRF is a valid
    keyword, its SGFRF column holds at every position the sum of the
    SGFRF values of the device rows of that date from the position on. *)
Lemma tubing_frame_gas_rate (df_all : frame) (idx : nat) (df : frame) :
  tubing_frame welsegs_table compsegs_table compdat_table numpy_vector
    eclipse_dates well lateral tubing_segment (Some df_all) idx = Ok df ->
  found numpy_vector well SGFRF = true ->
  exists d rate_inflow value,
    Py.index eclipse_dates idx = Ok d /\
    column_values SGFRF (related df_all d Device) = Ok rate_inflow /\
    column_values SGFRF df = Ok value /\
    length value = length tubing_segment /\
    forall k, (k < length tubing_segment)%nat ->
      nth k value 0 == total (skipn k rate_inflow).
Proof.
  intros Hrun Hfound. unfold tubing_frame in Hrun.
  destruct (Py.index eclipse_dates idx) as [d|e]; [|discriminate].
  cbn [Py.bind] in Hrun.
  destruct (get_md _ _ _ _ _ _ _) as [welsegs|e]; [|discriminate].
  cbn [Py.bind] in Hrun.
  destruct (stack _ _ _ _ _ _) as [df0|e]; [|discriminate].
  cbn [Py.bind] in Hrun.
  assert (Hkw : kw_valid numpy_vector well
                = (filter (found numpy_vector well) [SPR; SPRD; SOFR; SWFR]
                   ++ [SGFRF])%list).
  { unfold kw_valid, list_keywords.
    change [SPR; SPRD; SOFR; SWFR; SGFRF]
      with ([SPR; SPRD; SOFR; SWFR] ++ [SGFRF])%list.
    rewrite filter_app. cbn [filter]. rewrite Hfound. reflexivity. }
  rewrite Hkw, for_each_app in Hrun.
  destruct (Py.for_each (filter _ _) _ df0) as [df1|e]; [|discriminate].
  cbn [Py.bind Py.for_each] in Hrun.
  unfold tubing_column at 1 in Hrun. cbn [column_eqb negb bound] in Hrun.
  cbn [Py.bind] in Hrun.
  destruct (column_values SGFRF (related df_all d Device))
    as [rate_inflow|e] eqn:Ecol; [|discriminate].
  cbn [Py.bind] in Hrun.
  destruct (Nat.lt_ge_cases (length tubing_segment) (length rate_inflow))
    as [Hlong|Hshort].
  { rewrite tubing_rate_overflow in Hrun by exact Hlong. discriminate. }
  destruct (cumulate_sums rate_inflow (length rate_inflow)
              (repeat 0 (length tubing_segment)))
    as (value & Hcum & Hlen & Hsum & Hrest); try lia.
  { rewrite repeat_length. exact Hshort. }
  fold (tubing_rate (length tubing_segment) rate_inflow) in Hcum.
  rewrite Hcum in Hrun. cbn [Py.bind] in Hrun.
  rewrite repeat_length in Hlen.
  destruct (Nat.eq_dec (length value) (length df1)) as [Hdf|Hdf].
  - destruct (set_column_ok SGFRF value df1 Hdf) as (df2 & Hset & _ & Hval).
    rewrite Hset in Hrun. cbn [Py.bind] in Hrun. injection Hrun as <-.
    exists d, rate_inflow, value.
    split; [reflexivity|]. split; [exact Ecol|]. split; [|split; [exact Hlen|]].
    + rewrite column_values_add_sgor, column_values_add_swct by discriminate.
      exact Hval.
    + intros k Hk.
      destruct (Nat.lt_ge_cases k (length rate_inflow)) as [Hin|Hout].
      * apply Hsum. exact Hin.
      * rewrite Hrest by exact Hout.
        rewrite total_skipn_all by exact Hout.
        rewrite nth_repeat. reflexivity.
  - destruct (set_column_mismatch SGFRF value df1 Hdf) as (msg & Hset).
    rewrite Hset in Hrun. discriminate.
Qed.

End TubingFrame.

(** Two requested days that resolve to the same report step double the
    device rows of its date, and the loop over them runs past the end of
    the tubing array. *)
Lemma repeated_day_index_raises :
  snd (Assemble.get_data Example.welsegs_table Example.compsegs_table
         Example.compdat_table Example.numpy_vector Example.eclipse_dates
         Example.annulus_inflow "A-1" 1 [2; 3; 4; 5]%Z [6; 7; 8; 9]%Z [0%Z]
         [1%nat; 1%nat] []) = Raise IndexError.
Proof. vm_compute. reflexivity. Qed.

(** With more device rows of the date than tubing segments, the first
    turn of the loop over the device inflows writes past the end of the
    tubing array. *)
Lemma tubing_gas_rate_overflow
    (numpy_vector : Assemble.column -> string -> Z -> result (list Q))
    (well : string) (tubing_segment : list Z) (df_all : Assemble.frame)
    (d : Assemble.date) (idx : nat) (data_frame : Assemble.frame)
    (rate_inflow : list Q) :
  Assemble.column_values Assemble.SGFRF
    (Assemble.related df_all d Assemble.Device) = Ok rate_inflow ->
  (length tubing_segment < length rate_inflow)%nat ->
  Assemble.tubing_column numpy_vector well tubing_segment (Some df_all) d idx
    data_frame Assemble.SGFRF = Raise IndexError.
Proof.
  intros Hcol Hlong. unfold Assemble.tubing_column.
  cbn [Assemble.column_eqb negb Assemble.bound Py.bind].
  rewrite Hcol. cbn [Py.bind].
  rewrite tubing_rate_overflow by exact Hlong. reflexivity.
Qed.

(** ** Positions of a condition *)

Section ArgwhereFacts.

Context {A : Type}.
Variable p : A -> bool.

Lemma argwhere_from_head (a : list A) (i k : nat) (rest : list nat) (d : A) :
  argwhere_from p a i = k :: rest ->
  (i <= k)%nat /\ (k - i < length a)%nat /\ p (nth (k - i) a d) = true /\
  forall j, (j < k - i)%nat -> p (nth j a d) = false.
Proof.
  revert i. induction a as [|x a IH]; intros i; simpl; [discriminate|].
  destruct (p x) eqn:Ex.
  - intros [= <- _]. rewrite Nat.sub_diag. repeat split; auto; lia.
  - intros Hrest. destruct (IH _ Hrest) as (Hle & Hlt & Hp & Hbefore).
    replace (k - i)%nat with (S (k - S i)) by lia.
    repeat split; try lia; [exact Hp|].
    intros [|j] Hj; [exact Ex|]. apply Hbefore. lia.
Qed.

Lemma argwhere_from_nil (a : list A) (i : nat) :
  argwhere_from p a i = [] <-> forallb (fun x => negb (p x)) a = true.
Proof.
  revert i. induction a as [|x a IH]; intros i; simpl; [tauto|].
  destruct (p x); simpl; [split; discriminate | apply IH].
Qed.

Lemma argwhere_head (a : list A) (k : nat) (rest : list nat) (d : A) :
  argwhere p a = k :: rest ->
  (k < length a)%nat /\ p (nth k a d) = true /\
  forall j, (j < k)%nat -> p (nth j a d) = false.
Proof.
  intros Hw. destruct (argwhere_from_head a 0 k rest d Hw) as (_ & H1 & H2 & H3).
  rewrite Nat.sub_0_r in *. auto.
Qed.

Lemma argwhere_nil (a : list A) :
  argwhere p a = [] <-> forallb (fun x => negb (p x)) a = true.
Proof. apply argwhere_from_nil. Qed.

End ArgwhereFacts.

(** ** The stable argsort *)

Section StableArgsort.

Import Days.

Variable a : list Q.

Let key (i : nat) : Q := nth i a 0.

Lemma insert_by_perm (i : nat) (sorted : list nat) :
  Permutation (insert_by a i sorted) (i :: sorted).
Proof.
  induction sorted as [|j rest IH]; simpl; [reflexivity|].
  destruct (Qle_bool (nth j a 0) (nth i a 0)); [|reflexivity].
  rewrite IH. apply perm_swap.
Qed.

Lemma insert_all_perm (l acc : list nat) :
  Permutation (fold_left (fun sorted i => insert_by a i sorted) l acc)
    (l ++ acc).
Proof.
  revert acc. induction l as [|x l IH]; intros acc; simpl; [reflexivity|].
  rewrite IH, insert_by_perm. symmetry. apply Permutation_middle.
Qed.

Lemma insert_by_sorted (i : nat) (sorted : list nat) :
  StronglySorted Qle (map key sorted) ->
  StronglySorted Qle (map key (insert_by a i sorted)).
Proof.
  induction sorted as [|j rest IH]; simpl; intros Hs.
  - repeat constructor.
  - inversion Hs as [|x l Hrest Hall]; subst.
    fold (key j). fold (key i).
    destruct (Qle_bool (key j) (key i)) eqn:E; simpl.
    + constructor; [apply IH; exact Hrest|].
      apply (Permutation_Forall
               (Permutation_sym (Permutation_map key (insert_by_perm i rest)))).
      simpl. constructor; [apply Qle_bool_iff; exact E | exact Hall].
    + assert (Hlt : key i <= key j).
      { apply Qlt_le_weak, Qnot_le_lt. intros Hle.
        apply Qle_bool_iff in Hle. congruence. }
      constructor; [exact Hs|].
      constructor; [exact Hlt|].
      eapply Forall_impl; [|exact Hall].
      intros q Hq. eapply Qle_trans; eassumption.
Qed.

Lemma insert_all_sorted (l acc : list nat) :
  StronglySorted Qle (map key acc) ->
  StronglySorted Qle
    (map key (fold_left (fun sorted i => insert_by a i sorted) l acc)).
Proof.
  revert acc. induction l as [|x l IH]; intros acc Hs; simpl; [exact Hs|].
  apply IH, insert_by_sorted, Hs.
Qed.

Lemma stable_argsort_perm :
  Permutation (stable_argsort a) (seq 0 (length a)).
Proof.
  unfold stable_argsort. rewrite insert_all_perm, app_nil_r. reflexivity.
Qed.

Lemma stable_argsort_sorted :
  StronglySorted Qle (map (fun i => nth i a 0) (stable_argsort a)).
Proof. apply (insert_all_sorted _ []). constructor. Qed.

End StableArgsort.

(** numpy's argsort on the short arrays of report days. *)
#[export] Instance numpy_small_sort : Days.ArgSort :=
  {| Days.argsort := Days.stable_argsort;
     Days.argsort_perm := stable_argsort_perm;
     Days.argsort_sorted := stable_argsort_sorted |}.

(** ** The tubing gas rate of a report step requested twice *)

(** C3 at the requested days 10 and 15 of a summary with the report days
    0, 10, 20, 30 (DAYS 10-15): both days resolve to report step 1, so the
    date of that step has two batches of device rows, the loop that
    accumulates the tubing gas rate runs past the end of the tubing array,
    [get_data] ends in IndexError and the timestep gets no tubing gas rate
    at all.  The loop does so whenever the device rows of a date outnumber
    the tubing segments.  With the days 10 and 20, which resolve to two
    report steps, the tubing gas rates of each timestep are 10, 7, 7, 0,
    the reverse cumulative sums of the device inflows 3, 0, 7, 0. *)
Theorem tubing_gas_rate_fails_on_repeated_report_step :
  snd (Info.get_info_per_well Example.py_int Example.py_float
         [Example.info_line "2-5" "6-9" "1*" "10-15"] "A-1" 1)
  = Ok {| Info.tubing_segment := [2; 3; 4; 5]%Z;
          Info.device_segment := [6; 7; 8; 9]%Z;
          Info.annulus_segment := [0%Z];
          Info.my_days := [10; 15] |} /\
  Days.get_day_index Example.eclipse_days [10; 15]
  = ([Days.NoExactDay 15], Ok [1%nat; 1%nat]) /\
  Driver.run_well Example.py_int Example.py_float
    [Example.info_line "2-5" "6-9" "1*" "10-15"] Example.eclipse_days
    Example.eclipse_dates Example.welsegs_table Example.compsegs_table
    Example.compdat_table Example.numpy_vector Example.annulus_inflow
    "A-1" 1
  = ([Driver.InfoPerWell; Driver.DayIndex; Driver.Trajectory;
      Driver.FindPacker; Driver.GetData], Raise IndexError) /\
  (forall numpy_vector well tubing_segment df_all d idx data_frame
          rate_inflow,
     Assemble.column_values Assemble.SGFRF
       (Assemble.related df_all d Assemble.Device) = Ok rate_inflow ->
     (length tubing_segment < length rate_inflow)%nat ->
     Assemble.tubing_column numpy_vector well tubing_segment (Some df_all)
       d idx data_frame Assemble.SGFRF = Raise IndexError) /\
  (exists df,
     snd (Driver.run_well Example.py_int Example.py_float
            [Example.info_line "2-5" "6-9" "1*" "10-20"] Example.eclipse_days
            Example.eclipse_dates Example.welsegs_table
            Example.compsegs_table Example.compdat_table
            Example.numpy_vector Example.annulus_inflow "A-1" 1) = Ok df /\
     Assemble.column_values Assemble.SGFRF
       (Assemble.related df 110%Z Assemble.Device) = Ok [3; 0; 7; 0] /\
     Assemble.column_values Assemble.SGFRF
       (Assemble.related df 110%Z Assemble.Tubing) = Ok [10; 7; 7; 0] /\
     Assemble.column_values Assemble.SGFRF
       (Assemble.related df 120%Z Assemble.Device) = Ok [3; 0; 7; 0] /\
     Assemble.column_values Assemble.SGFRF
       (Assemble.related df 120%Z Assemble.Tubing) = Ok [10; 7; 7; 0]).
Proof.
  split; [reflexivity|]. split; [vm_compute; reflexivity|].
  split; [vm_compute; reflexivity|].
  split; [exact tubing_gas_rate_overflow|].
  eexists. split; [vm_compute; reflexivity|].
  repeat split; vm_compute; reflexivity.
Qed.

(** ** Day resolution *)

Section DayIndex.

Import Days.

Context `{ArgSort}.

Variable eclipse_days : list Q.

Lemma dif_nth (day : Q) (j : nat) :
  (j < length eclipse_days)%nat ->
  nth j (map (fun d => Qabs (d - day)) eclipse_days) 0
  = Qabs (nth j eclipse_days 0 - day).
Proof.
  intros Hj.
  rewrite (nth_indep _ 0 (Qabs (0 - day))) by (rewrite length_map; exact Hj).
  apply (map_nth (fun d => Qabs (d - day))).
Qed.

Lemma closest_is_nearest (day : Q) :
  eclipse_days <> [] ->
  exists k,
    closest eclipse_days day = Ok k /\ (k < length eclipse_days)%nat /\
    forall j, (j < length eclipse_days)%nat ->
      Qabs (nth k eclipse_days 0 - day) <= Qabs (nth j eclipse_days 0 - day).
Proof.
  intros Hne. unfold closest.
  set (dif := map (fun d => Qabs (d - day)) eclipse_days).
  assert (Hlen : length dif = length eclipse_days) by apply length_map.
  pose proof (argsort_perm dif) as Hperm.
  pose proof (argsort_sorted dif) as Hsorted.
  destruct (argsort dif) as [|k rest].
  - apply Permutation_nil in Hperm. apply (f_equal (@length nat)) in Hperm.
    rewrite length_seq, Hlen in Hperm.
    destruct eclipse_days; [congruence | discriminate].
  - assert (Hk : (k < length eclipse_days)%nat).
    { rewrite <- Hlen.
      assert (Hin : In k (seq 0 (length dif))).
      { eapply Permutation_in; [exact Hperm | left; reflexivity]. }
      apply in_seq in Hin. lia. }
    exists k. repeat split; auto.
    intros j Hj. rewrite <- !dif_nth by assumption. fold dif.
    assert (Hin : In j (k :: rest)).
    { eapply Permutation_in; [symmetry; exact Hperm|].
      apply in_seq. lia. }
    destruct Hin as [->|Hin]; [apply Qle_refl|].
    simpl in Hsorted. inversion Hsorted as [|x l _ Hall]; subst.
    rewrite Forall_forall in Hall. apply Hall.
    apply (in_map (fun i => nth i dif 0)). exact Hin.
Qed.

Lemma no_position_no_match (day : Q) :
  argwhere (fun d => Qeq_bool d day) eclipse_days = [] ->
  forall j, (j < length eclipse_days)%nat -> ~ nth j eclipse_days 0 == day.
Proof.
  intros Hw j Hj Heq. apply argwhere_nil in Hw.
  rewrite forallb_forall in Hw.
  specialize (Hw _ (nth_In eclipse_days 0 Hj)).
  apply Qeq_bool_iff in Heq. rewrite Heq in Hw. discriminate.
Qed.

Lemma occurs_argwhere (day : Q) :
  occurs eclipse_days day = false
  <-> argwhere (fun d => Qeq_bool d day) eclipse_days = [].
Proof.
  rewrite argwhere_nil. unfold occurs.
  induction eclipse_days as [|d l IH]; simpl; [tauto|].
  destruct (Qeq_bool d day); simpl; [split; discriminate | exact IH].
Qed.

(** One requested day: the position chosen and whether a line is printed. *)
Lemma resolve_one (day : Q) :
  eclipse_days <> [] ->
  exists k,
    resolves eclipse_days day k /\
    ((exists rest,
        argwhere (fun d => Qeq_bool d day) eclipse_days = k :: rest /\
        occurs eclipse_days day = true)
     \/ (argwhere (fun d => Qeq_bool d day) eclipse_days = [] /\
         occurs eclipse_days day = false /\
         closest eclipse_days day = Ok k)).
Proof.
  intros Hne.
  destruct (argwhere (fun d => Qeq_bool d day) eclipse_days) as [|k rest] eqn:Hw.
  - destruct (closest_is_nearest day Hne) as (k & Hc & Hk & Hmin).
    exists k. split.
    + split; [exact Hk|]. split; [|intros _; exact Hmin].
      intros (j & Hj & Heq).
      exfalso. exact (no_position_no_match day Hw j Hj Heq).
    + right. repeat split; auto. apply occurs_argwhere. exact Hw.
  - destruct (argwhere_head _ _ _ _ 0 Hw) as (Hk & Hp & Hbefore).
    exists k. split.
    + split; [exact Hk|]. split.
      * intros _. split; [apply Qeq_bool_iff; exact Hp|].
        intros j Hj Heq. apply Qeq_bool_iff in Heq.
        rewrite (Hbefore j Hj) in Heq. discriminate.
      * intros Hnone j Hj. exfalso. apply (Hnone k Hk).
        apply Qeq_bool_iff. exact Hp.
    + left. exists rest. split; [reflexivity|].
      destruct (occurs eclipse_days day) eqn:Eo; [reflexivity|].
      apply occurs_argwhere in Eo. congruence.
Qed.

Lemma get_day_index_resolves (list_of_days : list Q) :
  eclipse_days <> [] ->
  exists day_idx,
    snd (get_day_index eclipse_days list_of_days) = Ok day_idx /\
    Forall2 (resolves eclipse_days) list_of_days day_idx /\
    fst (get_day_index eclipse_days list_of_days)
    = map NoExactDay
        (filter (fun day => negb (occurs eclipse_days day)) list_of_days).
Proof.
  intros Hne. induction list_of_days as [|day rest IH].
  - exists []. repeat split. constructor.
  - destruct IH as (idx & Hrun & Hall & Hout).
    destruct (resolve_one day Hne) as (k & Hk & Hcase).
    exists (k :: idx). simpl.
    destruct (get_day_index eclipse_days rest) as [out r] eqn:Erest.
    simpl in Hrun, Hout. subst r.
    destruct Hcase as [(tail & -> & ->)|(-> & -> & ->)]; simpl.
    + repeat split; auto.
    + repeat split; auto. f_equal. exact Hout.
Qed.

End DayIndex.

(** C6: with a non-empty sequence of available days, the resolver returns
    one index per requested day, in order; the index is the first position
    of the day when it occurs among the available days, and otherwise one
    whose day has minimal absolute difference to it, with one warning per
    requested day that does not occur; available days 0, 10, 20, 30 and
    requested days 10, 15 give the indices 1, 1 and a warning for 15. *)
Theorem day_index_exact_or_nearest (sort : Days.ArgSort)
    (eclipse_days list_of_days : list Q) :
  eclipse_days <> [] ->
  (exists day_idx,
     snd (Days.get_day_index eclipse_days list_of_days) = Ok day_idx /\
     length day_idx = length list_of_days /\
     Forall2 (Days.resolves eclipse_days) list_of_days day_idx /\
     fst (Days.get_day_index eclipse_days list_of_days)
     = map Days.NoExactDay
         (filter (fun day => negb (Days.occurs eclipse_days day))
            list_of_days)) /\
  @Days.get_day_index numpy_small_sort [0; 10; 20; 30] [10; 15]
  = ([Days.NoExactDay 15], Ok [1%nat; 1%nat]).
Proof.
  intros Hne. split; [|reflexivity].
  destruct (get_day_index_resolves eclipse_days list_of_days Hne)
    as (idx & Hrun & Hall & Hout).
  exists idx. repeat split; auto.
  symmetry. exact (Forall2_length Hall).
Qed.

(** C6 on the report days 0, 10, 20, 30 with the requested days 10, 15. *)
Lemma day_index_example :
  (exists day_idx,
     snd (Days.get_day_index [0; 10; 20; 30] [10; 15]) = Ok day_idx /\
     length day_idx = 2%nat /\
     Forall2 (Days.resolves [0; 10; 20; 30]) [10; 15] day_idx /\
     fst (Days.get_day_index [0; 10; 20; 30] [10; 15])
     = [Days.NoExactDay 15]) /\
  @Days.get_day_index numpy_small_sort [0; 10; 20; 30] [10; 15]
  = ([Days.NoExactDay 15], Ok [1%nat; 1%nat]).
Proof.
  apply (day_index_exact_or_nearest numpy_small_sort [0; 10; 20; 30]
           [10; 15]).
  discriminate.
Defined.

(** ** Containment of a depth in the completion intervals *)

Section Containment.

Import Merge.

Lemma contains_inside (p : Q) (c : Schedule.compsegs_row) :
  contains p c = true <-> inside p c.
Proof.
  unfold contains, inside. rewrite andb_true_iff, !Qle_bool_iff. tauto.
Qed.

Lemma contains_outside (p : Q) (c : Schedule.compsegs_row) :
  contains p c = false <-> ~ inside p c.
Proof.
  rewrite <- contains_inside. destruct (contains p c); split; congruence.
Qed.

Lemma split_at {A : Type} (l : list A) (k : nat) (d : A) :
  (k < length l)%nat ->
  l = (firstn k l ++ nth k l d :: skipn (S k) l)%list.
Proof.
  revert k. induction l as [|x l IH]; intros k Hk; simpl in Hk; [lia|].
  destruct k as [|k]; [reflexivity|].
  simpl. f_equal. apply IH. lia.
Qed.

Lemma firstn_nth_in {A : Type} (l : list A) (k : nat) (d x : A) :
  In x (firstn k l) -> exists j, (j < k)%nat /\ (j < length l)%nat /\ nth j l d = x.
Proof.
  revert k. induction l as [|y l IH]; intros k Hin.
  - rewrite firstn_nil in Hin. contradiction.
  - destruct k as [|k]; [contradiction|]. simpl in Hin.
    destruct Hin as [->|Hin].
    + exists 0%nat. simpl. repeat split; lia.
    + destruct (IH k Hin) as (j & Hj & Hl & Hn).
      exists (S j). simpl. repeat split; auto; lia.
Qed.

(** The step of the merge for one depth. *)
Lemma locate_first (compsegs : list Schedule.compsegs_row) (segment : Z)
    (p : Q) :
  match locate compsegs segment p with
  | Ok c =>
      exists pre post,
        compsegs = (pre ++ c :: post)%list /\ inside p c /\
        Forall (fun x => ~ inside p x) pre
  | Raise e =>
      e = ValueError (not_in_grid segment) /\
      Forall (fun x => ~ inside p x) compsegs
  end.
Proof.
  unfold locate.
  destruct (argwhere (contains p) compsegs) as [|k rest] eqn:Hw.
  - split; [reflexivity|]. apply argwhere_nil in Hw.
    rewrite forallb_forall in Hw. apply Forall_forall. intros x Hx.
    apply contains_outside. specialize (Hw x Hx).
    destruct (contains p x); [discriminate | reflexivity].
  - destruct (argwhere_head _ _ _ _ no_row Hw) as (Hk & Hp & Hbefore).
    rewrite (index_in_range compsegs k no_row Hk).
    exists (firstn k compsegs), (skipn (S k) compsegs).
    split; [apply split_at; exact Hk|].
    split; [apply contains_inside; exact Hp|].
    apply Forall_forall. intros x Hx.
    destruct (firstn_nth_in _ _ no_row _ Hx) as (j & Hj & _ & <-).
    apply contains_outside, Hbefore, Hj.
Qed.

Lemma join_row_copies (compdat : list Schedule.compdat_row) (well : string)
    (w : Schedule.welsegs_row) (c : Schedule.compsegs_row) (r : segment_row) :
  In r (join_row compdat well w c) ->
  Segment r = Schedule.TUBINGSEGMENT w /\
  STARTMD r = Schedule.STARTMD c /\ ENDMD r = Schedule.ENDMD c /\
  I r = Schedule.I c /\ J r = Schedule.J c /\ K r = Schedule.K c.
Proof.
  unfold join_row.
  destruct (filter _ compdat) as [|m ms].
  - intros [<-|[]]. repeat split.
  - rewrite in_map_iff. intros (d & <- & _). repeat split.
Qed.

(** A left join keeps every left row: a located segment always gets a
    row. *)
Lemma join_row_keeps_left (compdat : list Schedule.compdat_row)
    (well : string) (w : Schedule.welsegs_row) (c : Schedule.compsegs_row) :
  exists r, In r (join_row compdat well w c).
Proof.
  unfold join_row.
  destruct (filter _ compdat) as [|m ms]; eexists; left; reflexivity.
Qed.

Lemma traverse_raises {A B : Type} (f : A -> result B) (pre : list A)
    (x : A) (post : list A) (e : exn) :
  Forall (fun y => is_ok (f y) = true) pre -> f x = Raise e ->
  Py.traverse f (pre ++ x :: post) = Raise e.
Proof.
  intros Hpre Hx. induction Hpre as [|y pre Hy _ IH]; simpl.
  - rewrite Hx. reflexivity.
  - destruct (f y); [|discriminate]. simpl. rewrite IH. reflexivity.
Qed.

End Containment.

(** ** The merge of a well *)

Section MergeWell.

Import Merge.

Variable welsegs_table : Schedule.collection Schedule.welsegs_row.
Variable compsegs_table : Schedule.collection Schedule.compsegs_row.
Variable compdat_table : list Schedule.compdat_row.

Lemma get_md_first_outside (well : string) (segment : list Z) (lateral : Z)
    (section : layer) (ws : list Schedule.welsegs_row)
    (cs branch : list Schedule.compsegs_row)
    (pre : list Schedule.welsegs_row) (w : Schedule.welsegs_row)
    (post : list Schedule.welsegs_row) :
  Schedule.content_of welsegs_table well = Some ws ->
  Schedule.content_of compsegs_table well = Some cs ->
  select_lateral cs lateral = Ok branch ->
  filter (fun r => isin segment (Schedule.TUBINGSEGMENT r)) ws
  = (pre ++ w :: post)%list ->
  Forall (fun x => exists c, inside (Schedule.TUBINGMD x - interval_of section) c
                             /\ In c branch) pre ->
  Forall (fun c => ~ inside (Schedule.TUBINGMD w - interval_of section) c)
    branch ->
  get_md welsegs_table compsegs_table compdat_table well segment lateral
    section
  = Raise (ValueError (not_in_grid (Schedule.TUBINGSEGMENT w))).
Proof.
  intros Hws Hcs Hsel Hrows Hpre Hout.
  unfold get_md. rewrite Hws, Hcs. simpl. rewrite Hsel. simpl.
  rewrite Hrows.
  rewrite (traverse_raises _ pre w post
             (ValueError (not_in_grid (Schedule.TUBINGSEGMENT w)))).
  - reflexivity.
  - eapply Forall_impl; [|exact Hpre].
    intros x (c & Hin & Hc). simpl.
    pose proof (locate_first branch (Schedule.TUBINGSEGMENT x)
                  (Schedule.TUBINGMD x - interval_of section)) as Hloc.
    destruct (locate branch _ _) as [c'|e]; [reflexivity|].
    destruct Hloc as (_ & Hall). rewrite Forall_forall in Hall.
    exfalso. exact (Hall c Hc Hin).
  - pose proof (locate_first branch (Schedule.TUBINGSEGMENT w)
                  (Schedule.TUBINGMD w - interval_of section)) as Hloc.
    destruct (locate branch _ _) as [c'|e].
    + destruct Hloc as (pre' & post' & -> & Hin & _).
      rewrite Forall_forall in Hout. exfalso.
      apply (Hout c'); [apply in_elt | exact Hin].
    + destruct Hloc as (-> & _). reflexivity.
Qed.

Lemma traverse_ok_in {A B : Type} (f : A -> result B) (xs : list A)
    (ys : list B) (y : B) :
  Py.traverse f xs = Ok ys -> In y ys -> exists x, In x xs /\ f x = Ok y.
Proof.
  revert ys. induction xs as [|x xs IH]; intros ys; simpl.
  - intros [= <-] [].
  - destruct (f x) as [y0|e] eqn:Ex; simpl; [|discriminate].
    destruct (Py.traverse f xs) as [ys'|e]; simpl; [|discriminate].
    intros [= <-] [<-|Hin].
    + exists x. split; [left; reflexivity | exact Ex].
    + destruct (IH ys' eq_refl Hin) as (x' & Hx' & Hf).
      exists x'. split; [right; exact Hx' | exact Hf].
Qed.

Lemma traverse_ok_all {A B : Type} (f : A -> result B) (xs : list A)
    (ys : list B) (x : A) :
  Py.traverse f xs = Ok ys -> In x xs -> exists y, In y ys /\ f x = Ok y.
Proof.
  revert ys. induction xs as [|x0 xs IH]; intros ys; simpl.
  - intros _ [].
  - destruct (f x0) as [y0|e] eqn:Ex; simpl; [|discriminate].
    destruct (Py.traverse f xs) as [ys'|e]; simpl; [|discriminate].
    intros [= <-] [<-|Hin].
    + exists y0. split; [left; reflexivity | exact Ex].
    + destruct (IH ys' eq_refl Hin) as (y & Hy & Hf).
      exists y. split; [right; exact Hy | exact Hf].
Qed.

(** Every row of the table [get_md] returns is a selected WELSEGS row
    carrying the bounds and the cell of the first interval of the lateral
    that contains its depth, and every selected WELSEGS row has such a row
    in the table. *)
Lemma get_md_rows (well : string) (segment : list Z) (lateral : Z)
    (section : layer) (rows : list segment_row) :
  get_md welsegs_table compsegs_table compdat_table well segment lateral
    section = Ok rows ->
  exists ws cs branch,
    Schedule.content_of welsegs_table well = Some ws /\
    Schedule.content_of compsegs_table well = Some cs /\
    select_lateral cs lateral = Ok branch /\
    (forall r, In r rows ->
       exists w pre c post,
         In w ws /\ isin segment (Schedule.TUBINGSEGMENT w) = true /\
         Segment r = Schedule.TUBINGSEGMENT w /\
         branch = (pre ++ c :: post)%list /\
         inside (Schedule.TUBINGMD w - interval_of section) c /\
         Forall (fun x => ~ inside (Schedule.TUBINGMD w - interval_of section)
                            x) pre /\
         STARTMD r = Schedule.STARTMD c /\ ENDMD r = Schedule.ENDMD c /\
         I r = Schedule.I c /\ J r = Schedule.J c /\ K r = Schedule.K c) /\
    (forall w,
       In w ws -> isin segment (Schedule.TUBINGSEGMENT w) = true ->
       exists pre c post r,
         branch = (pre ++ c :: post)%list /\
         inside (Schedule.TUBINGMD w - interval_of section) c /\
         Forall (fun x => ~ inside (Schedule.TUBINGMD w - interval_of section)
                            x) pre /\
         In r rows /\
         Segment r = Schedule.TUBINGSEGMENT w /\
         STARTMD r = Schedule.STARTMD c /\ ENDMD r = Schedule.ENDMD c /\
         I r = Schedule.I c /\ J r = Schedule.J c /\ K r = Schedule.K c).
Proof.
  unfold get_md.
  destruct (Schedule.content_of welsegs_table well) as [ws|]; [|discriminate].
  destruct (Schedule.content_of compsegs_table well) as [cs|]; [|discriminate].
  cbn [Py.bind].
  destruct (select_lateral cs lateral) as [branch|e] eqn:Esel; [|discriminate].
  cbn [Py.bind].
  destruct (Py.traverse _ _) as [located|e] eqn:Et; [|discriminate].
  cbn [Py.bind]. intros [= <-].
  exists ws, cs, branch. do 2 (split; [reflexivity|]). split; [exact Esel|].
  split.
  - intros r Hr. apply in_flat_map in Hr. destruct Hr as ((w & c) & Hwc & Hr).
    cbn [fst snd] in Hr.
    destruct (traverse_ok_in _ _ _ _ Et Hwc) as (w' & Hw' & Hloc).
    apply filter_In in Hw'. destruct Hw' as (Hin & Hsel).
    pose proof (locate_first branch (Schedule.TUBINGSEGMENT w')
                  (Schedule.TUBINGMD w' - interval_of section)) as Hfirst.
    destruct (locate branch _ _) as [c'|e]; [|discriminate].
    cbn [Py.bind] in Hloc. injection Hloc as <- <-.
    destruct Hfirst as (pre & post & Hsplit & Hinside & Hpre).
    destruct (join_row_copies _ _ _ _ _ Hr) as (Hs & H1 & H2 & H3 & H4 & H5).
    exists w', pre, c', post.
    exact (conj Hin (conj Hsel (conj Hs (conj Hsplit (conj Hinside
             (conj Hpre (conj H1 (conj H2 (conj H3 (conj H4 H5)))))))))).
  - intros w Hin Hsel.
    assert (Hw : In w (filter (fun r => isin segment (Schedule.TUBINGSEGMENT r))
                         ws)).
    { apply filter_In. split; assumption. }
    destruct (traverse_ok_all _ _ _ _ Et Hw) as ((w' & c) & Hwc & Hloc).
    pose proof (locate_first branch (Schedule.TUBINGSEGMENT w)
                  (Schedule.TUBINGMD w - interval_of section)) as Hfirst.
    destruct (locate branch _ _) as [c'|e]; [|discriminate].
    cbn [Py.bind] in Hloc. injection Hloc as <- <-.
    destruct Hfirst as (pre & post & Hsplit & Hinside & Hpre).
    destruct (join_row_keeps_left
                (filter (fun d => String.eqb (Schedule.dWELL d) well)
                   compdat_table) well w c') as (r & Hr).
    destruct (join_row_copies _ _ _ _ _ Hr) as (Hs & H1 & H2 & H3 & H4 & H5).
    exists pre, c', post, r.
    split; [exact Hsplit|]. split; [exact Hinside|]. split; [exact Hpre|].
    split.
    { apply in_flat_map. exists (w, c'). split; [exact Hwc | exact Hr]. }
    exact (conj Hs (conj H1 (conj H2 (conj H3 (conj H4 H5))))).
Qed.

End MergeWell.

(** An exception of the tubing merge leaves [get_data] without a table. *)
Lemma merge_error_aborts_get_data
    (welsegs_table : Schedule.collection Schedule.welsegs_row)
    (compsegs_table : Schedule.collection Schedule.compsegs_row)
    (compdat_table : list Schedule.compdat_row)
    (numpy_vector : Assemble.column -> string -> Z -> result (list Q))
    (eclipse_dates : list Assemble.date)
    (annulus_inflow :
       Assemble.column -> Assemble.frame -> Assemble.frame
       -> list Packer.zone_row -> Assemble.frame -> result (list Q))
    (well : string) (lateral : Z)
    (tubing_segment device_segment annulus_segment : list Z)
    (my_days_idx : list nat) (df_annulus_zone : list Packer.zone_row)
    (e : exn) :
  Merge.get_md welsegs_table compsegs_table compdat_table well
    tubing_segment lateral Merge.tubing = Raise e ->
  exists e',
    snd (Assemble.get_data welsegs_table compsegs_table compdat_table
           numpy_vector eclipse_dates annulus_inflow well lateral
           tubing_segment device_segment annulus_segment my_days_idx
           df_annulus_zone) = Raise e'.
Proof.
  intros Hmd. unfold Assemble.get_data. cbn [snd].
  destruct my_days_idx as [|idx rest].
  - unfold Assemble.device_section, Assemble.tubing_section,
      Assemble.annulus_section.
    destruct (1 <? _)%nat; destruct (1 <? _)%nat; simpl;
      eexists; reflexivity.
  - destruct (Assemble.device_section _ _ _ _ _ _ _ _ _)
      as [df_all|e0]; [|eexists; reflexivity].
    cbn [Py.bind]. unfold Assemble.tubing_section. cbn [Py.for_each].
    unfold Assemble.tubing_frame at 1.
    destruct (Py.index eclipse_dates idx) as [d|e1];
      [|eexists; reflexivity].
    cbn [Py.bind]. unfold Assemble.get_md. rewrite Hmd.
    eexists; reflexivity.
Qed.


(** C2 on the example well: depths inside an interval take its bounds and
    cell; with the last interval removed, segment 5 at depth 1035 is in no
    interval and the merge stops with the error that names it. *)
Lemma segment_merge_example :
  Merge.locate
    [Example.compseg 1 1000 1010; Example.compseg 2 1010 1020] 3 1010
  = Ok (Example.compseg 1 1000 1010) /\
  Merge.get_md Example.welsegs_table
    [("A-1"%string,
      [Example.compseg 1 1000 1010; Example.compseg 2 1010 1020;
       Example.compseg 3 1020 1030])]
    Example.compdat_table "A-1" [2; 3; 4; 5]%Z 1 Merge.tubing
  = Raise (ValueError "Error : Segment 5 is not found inside grid cells").
Proof. split; reflexivity. Qed.

(** ** The accumulator [df_all] *)

Section Accumulator.

Import Assemble.

Variable welsegs_table : Schedule.collection Schedule.welsegs_row.
Variable compsegs_table : Schedule.collection Schedule.compsegs_row.
Variable compdat_table : list Schedule.compdat_row.
Variable numpy_vector : column -> string -> Z -> result (list Q).
Variable eclipse_dates : list date.
Variable annulus_inflow :
  column -> frame -> frame -> list Packer.zone_row -> frame
  -> result (list Q).
Variable well : string.
Variable lateral : Z.
Variable tubing_segment device_segment annulus_segment : list Z.
Variable my_days_idx : list nat.
Variable df_annulus_zone : list Packer.zone_row.

Let run : result frame :=
  snd (get_data welsegs_table compsegs_table compdat_table numpy_vector
         eclipse_dates annulus_inflow well lateral tubing_segment
         device_segment annulus_segment my_days_idx df_annulus_zone).

Let tubing_turn (idx : nat) : result frame :=
  tubing_frame welsegs_table compsegs_table compdat_table numpy_vector
    eclipse_dates well lateral tubing_segment None idx.

Lemma device_section_skipped :
  (length device_segment <= 1)%nat ->
  device_section welsegs_table compsegs_table compdat_table numpy_vector
    eclipse_dates well lateral device_segment my_days_idx = Ok None.
Proof.
  intros Hn. unfold device_section, n_device.
  destruct (Nat.ltb_spec 1 (length device_segment)); [lia | reflexivity].
Qed.

(** C10: with a device selection of at most one segment the device section
    is skipped and leaves [df_all] unassigned, and [get_data] always ends
    in an exception and returns no table: the unbound [df_all], read when
    the first tubing frame is appended (or, without any timestep, at the
    first cast), unless building that first tubing frame has raised
    before. *)
Theorem trivial_device_layer_always_fails :
  (length device_segment <= 1)%nat ->
  device_section welsegs_table compsegs_table compdat_table numpy_vector
    eclipse_dates well lateral device_segment my_days_idx = Ok None /\
  (exists e, run = Raise e) /\
  (run = Raise (UnboundLocalError "df_all") \/
   exists idx rest e,
     my_days_idx = idx :: rest /\ tubing_turn idx = Raise e /\ run = Raise e).
Proof.
  intros Hn. pose proof (device_section_skipped Hn) as Hdev.
  split; [exact Hdev|].
  assert (Hrun : run = Raise (UnboundLocalError "df_all") \/
                 exists idx rest e,
                   my_days_idx = idx :: rest /\ tubing_turn idx = Raise e /\
                   run = Raise e).
  { unfold run, get_data. cbn [snd]. rewrite Hdev. cbn [Py.bind].
    destruct my_days_idx as [|idx rest] eqn:Edays.
    - left. unfold tubing_section, annulus_section. cbn [Py.for_each Py.bind].
      destruct (1 <? _)%nat; reflexivity.
    - unfold tubing_section. cbn [Py.for_each].
      destruct (tubing_frame welsegs_table compsegs_table compdat_table
                  numpy_vector eclipse_dates well lateral tubing_segment
                  None idx) as [df|e] eqn:Eturn.
      + left. reflexivity.
      + right. exists idx, rest, e. repeat split. exact Eturn. }
  split; [|exact Hrun].
  destruct Hrun as [->|(idx & rest & e & _ & _ & ->)]; eexists; reflexivity.
Qed.

End Accumulator.

(** C10 on the example well with the device column left at "1*". *)
Lemma trivial_device_layer_example :
  Assemble.device_section Example.welsegs_table Example.compsegs_table
    Example.compdat_table Example.numpy_vector Example.eclipse_dates
    "A-1" 1 [0%Z] [1%nat] = Ok None /\
  (exists e,
     snd (Assemble.get_data Example.welsegs_table Example.compsegs_table
            Example.compdat_table Example.numpy_vector Example.eclipse_dates
            Example.annulus_inflow "A-1" 1 [2; 3; 4; 5]%Z [0%Z] [0%Z]
            [1%nat] []) = Raise e) /\
  (snd (Assemble.get_data Example.welsegs_table Example.compsegs_table
          Example.compdat_table Example.numpy_vector Example.eclipse_dates
          Example.annulus_inflow "A-1" 1 [2; 3; 4; 5]%Z [0%Z] [0%Z]
          [1%nat] []) = Raise (UnboundLocalError "df_all") \/
   exists idx rest e,
     [1%nat] = idx :: rest /\
     Assemble.tubing_frame Example.welsegs_table Example.compsegs_table
       Example.compdat_table Example.numpy_vector Example.eclipse_dates
       "A-1" 1 [2; 3; 4; 5]%Z None idx = Raise e /\
     snd (Assemble.get_data Example.welsegs_table Example.compsegs_table
            Example.compdat_table Example.numpy_vector Example.eclipse_dates
            Example.annulus_inflow "A-1" 1 [2; 3; 4; 5]%Z [0%Z] [0%Z]
            [1%nat] []) = Raise e).
Proof.
  apply (trivial_device_layer_always_fails Example.welsegs_table
           Example.compsegs_table Example.compdat_table Example.numpy_vector
           Example.eclipse_dates Example.annulus_inflow "A-1"%string 1%Z
           [2; 3; 4; 5]%Z [0%Z] [0%Z] [1%nat] []).
  simpl. lia.
Defined.

(** ** Reservoir inflow without an annulus layer *)

Section ReservoirRate.

Import Assemble.

Variable annulus_inflow :
  column -> frame -> frame -> list Packer.zone_row -> frame
  -> result (list Q).

(** With a one-element annulus selection (the branch [n_annulus == 1]) the
    reservoir rate of a rate keyword is the first difference of the tubing
    column of the date, the term after the last position being 0. *)
Lemma reservoir_inflow_first_difference (annulus_segment : list Z)
    (df_annulus_zone : list Packer.zone_row) (df_all : frame) (d : date)
    (data_frame : frame) (keyword : column) (rate_inflow : list Q) :
  length annulus_segment = 1%nat ->
  In keyword [SOFR; SWFR; SGFRF] ->
  column_values keyword (related df_all d Tubing) = Ok rate_inflow ->
  length rate_inflow = length data_frame ->
  exists df' value,
    reservoir_column annulus_inflow annulus_segment df_annulus_zone df_all d
      data_frame keyword = Ok df' /\
    column_values keyword df' = Ok value /\
    length value = length rate_inflow /\
    forall k, (k < length rate_inflow)%nat ->
      nth k value 0 = nth k rate_inflow 0 - nth (S k) rate_inflow 0.
Proof.
  intros Hann Hkw Hcol Hlen.
  destruct (set_column_ok keyword (inflow_difference rate_inflow) data_frame)
    as (df' & Hset & _ & Hval).
  { rewrite inflow_difference_length. exact Hlen. }
  exists df', (inflow_difference rate_inflow).
  assert (Hrun : reservoir_column annulus_inflow annulus_segment
                   df_annulus_zone df_all d data_frame keyword = Ok df').
  { unfold reservoir_column, n_annulus. rewrite Hann. cbn [Nat.eqb].
    rewrite Hcol. cbn [Py.bind].
    destruct Hkw as [<-|[<-|[<-|[]]]]; exact Hset. }
  repeat split; auto.
  - apply inflow_difference_length.
  - intros k Hk. apply inflow_difference_nth. exact Hk.
Qed.

Lemma reservoir_inflow_empty_selection (df_all : frame) (d : date)
    (data_frame : frame) (keyword : column) :
  In keyword [SOFR; SWFR; SGFRF] ->
  reservoir_column annulus_inflow [] [] df_all d data_frame keyword
  = Raise (KeyError "MD").
Proof. intros [<-|[<-|[<-|[]]]]; reflexivity. Qed.

End ReservoirRate.

(** The first-difference rule on the profile 10, 7, 7, 0. *)
Lemma reservoir_inflow_example :
  exists df' value,
    Assemble.reservoir_column Example.annulus_inflow [0%Z] []
      Example.tubing_rows 110%Z (Example.blank_rows Assemble.Reservoir)
      Assemble.SGFRF = Ok df' /\
    Assemble.column_values Assemble.SGFRF df' = Ok value /\
    length value = 4%nat /\
    forall k, (k < 4)%nat ->
      nth k value 0 = nth k [10; 7; 7; 0] 0 - nth (S k) [10; 7; 7; 0] 0.
Proof.
  apply (reservoir_inflow_first_difference Example.annulus_inflow [0%Z] []
           Example.tubing_rows 110%Z (Example.blank_rows Assemble.Reservoir)
           Assemble.SGFRF [10; 7; 7; 0]).
  - reflexivity.
  - right; right; left; reflexivity.
  - reflexivity.
  - reflexivity.
Defined.

(** C1 at an annulus selection without segments (ANNULUSSEGMENT 5-4): no
    annulus layer exists, yet the reservoir rates are not the first
    differences of the tubing profile: the branch taken is the one for an
    annulus layer, and it raises KeyError on the empty zone frame.  With the
    selection "1*" the same well gives the tubing rates 10, 7, 7, 0 and the
    reservoir inflows 3, 0, 7, 0. *)
Theorem reservoir_inflow_without_annulus_segments :
  Assemble.inflow_difference [10; 7; 7; 0] = [3; 0; 7; 0] /\
  snd (Info.get_info_per_well Example.py_int Example.py_float
         [Example.info_line "2-5" "6-9" "5-4" "10"] "A-1" 1)
  = Ok {| Info.tubing_segment := [2; 3; 4; 5]%Z;
          Info.device_segment := [6; 7; 8; 9]%Z;
          Info.annulus_segment := [];
          Info.my_days := [10] |} /\
  Driver.run_well Example.py_int Example.py_float
    [Example.info_line "2-5" "6-9" "5-4" "10"] Example.eclipse_days
    Example.eclipse_dates Example.welsegs_table Example.compsegs_table
    Example.compdat_table Example.numpy_vector Example.annulus_inflow
    "A-1" 1
  = ([Driver.InfoPerWell; Driver.DayIndex; Driver.Trajectory;
      Driver.FindPacker; Driver.GetData], Raise (KeyError "MD")) /\
  (exists df,
     snd (Driver.run_well Example.py_int Example.py_float
            [Example.info_line "2-5" "6-9" "1*" "10"] Example.eclipse_days
            Example.eclipse_dates Example.welsegs_table
            Example.compsegs_table Example.compdat_table
            Example.numpy_vector Example.annulus_inflow "A-1" 1) = Ok df /\
     Assemble.column_values Assemble.SGFRF
       (Assemble.related df 110%Z Assemble.Tubing) = Ok [10; 7; 7; 0] /\
     Assemble.column_values Assemble.SGFRF
       (Assemble.related df 110%Z Assemble.Reservoir) = Ok [3; 0; 7; 0]).
Proof.
  split; [reflexivity|]. split; [reflexivity|]. split; [vm_compute; reflexivity|].
  eexists. split; [vm_compute; reflexivity|].
  split; vm_compute; reflexivity.
Qed.

(** ** Packer table *)

Section PackerFacts.

Import Packer.

Lemma packer_loop_length (prev : Schedule.welsegs_row)
    (rest : list Schedule.welsegs_row) (zone : Z) :
  length (fst (packer_loop prev rest zone))
  = (2 * crossings prev rest + match rest with [] => 0 | _ => 1 end)%nat.
Proof.
  revert prev zone. induction rest as [|cur rest IH]; intros prev zone.
  - reflexivity.
  - cbn [packer_loop crossings].
    specialize (IH cur (if negb (Z.eqb (Schedule.TUBINGOUTLET cur)
                                   (Schedule.TUBINGSEGMENT prev))
                        then (zone + 1)%Z else zone)).
    destruct (packer_loop cur rest _) as [packers zones].
    cbn [fst] in *. rewrite !length_app, IH.
    destruct (Z.eqb _ _); destruct rest; simpl; lia.
Qed.

Lemma packer_loop_zones (prev : Schedule.welsegs_row)
    (rest : list Schedule.welsegs_row) (zone : Z) :
  length (snd (packer_loop prev rest zone)) = length rest.
Proof.
  revert prev zone. induction rest as [|cur rest IH]; intros prev zone.
  - reflexivity.
  - cbn [packer_loop].
    specialize (IH cur (if negb (Z.eqb (Schedule.TUBINGOUTLET cur)
                                   (Schedule.TUBINGSEGMENT prev))
                        then (zone + 1)%Z else zone)).
    destruct (packer_loop cur rest _) as [packers zones].
    cbn [snd] in *. simpl. rewrite IH. reflexivity.
Qed.

(** What [get_packer] returns for a well with WELSEGS content, by the
    number of its rows that fall in the annulus selection. *)
Lemma get_packer_cardinality
    (welsegs_table : Schedule.collection Schedule.welsegs_row)
    (well : string) (annulus_segment : list Z)
    (ws : list Schedule.welsegs_row) :
  Schedule.content_of welsegs_table well = Some ws ->
  if (1 <? length annulus_segment)%nat then
    match filter (fun r => isin annulus_segment (Schedule.TUBINGSEGMENT r))
            ws with
    | [] => get_packer welsegs_table well annulus_segment = Raise IndexError
    | first :: rest =>
        exists packers zones,
          get_packer welsegs_table well annulus_segment
          = Ok (Some (packers, zones)) /\
          length zones = S (length rest) /\
          length packers
          = match rest with
            | [] => 1%nat
            | _ => (2 * (1 + crossings first rest))%nat
            end
    end
  else get_packer welsegs_table well annulus_segment = Ok (Some ([], [])).
Proof.
  intros Hws. unfold get_packer. rewrite Hws.
  destruct (1 <? length annulus_segment)%nat; [|reflexivity].
  destruct (filter _ ws) as [|first rest]; [reflexivity|].
  pose proof (packer_loop_length first rest 1) as Hp.
  pose proof (packer_loop_zones first rest 1) as Hz.
  destruct (packer_loop first rest 1) as [packers zones].
  cbn [fst snd] in *.
  eexists _, _. split; [reflexivity|]. split.
  - rewrite length_map, length_combine. simpl. rewrite Hz. lia.
  - simpl. rewrite Hp. destruct rest; simpl; lia.
Qed.

End PackerFacts.

(** C5 at an annulus selection of two segments (12-13) of which the well
    has one in WELSEGS: the selection has two entries, so zone detection
    runs, and the packer table it returns has one row, an odd number: the
    closing depth of the last segment is appended inside a loop that does
    not run for a single row.  For a selection "1*" the two frames are
    empty, and with three rows in two compartments the table has four
    rows. *)
Theorem packer_table_of_single_annulus_row :
  Schedule.content_of Example.welsegs_table "A-1" <> None /\
  length [12; 13]%Z = 2%nat /\
  Packer.get_packer Example.welsegs_table "A-1" [12; 13]%Z
  = Ok (Some ([(10252 # 10, 900)],
              [{| Packer.zSEGMENT := 12; Packer.zMD := 10252 # 10;
                  Packer.ANNULUS_ZONE := 1 |}])) /\
  Packer.get_packer Example.welsegs_table "A-1" [0%Z] = Ok (Some ([], [])) /\
  Packer.get_packer Example.welsegs_table "A-1" [10; 11; 12]%Z
  = Ok (Some ([(10052 # 10, 900); (10152 # 10, 900); (10252 # 10, 900);
               (10252 # 10, 900)],
              [{| Packer.zSEGMENT := 10; Packer.zMD := 10052 # 10;
                  Packer.ANNULUS_ZONE := 1 |};
               {| Packer.zSEGMENT := 11; Packer.zMD := 10152 # 10;
                  Packer.ANNULUS_ZONE := 1 |};
               {| Packer.zSEGMENT := 12; Packer.zMD := 10252 # 10;
                  Packer.ANNULUS_ZONE := 2 |}])).
Proof. repeat split; try reflexivity. discriminate. Qed.

(** ** Device and tubing counts *)

Section Cardinality.

Import Info.

Local Open Scope string_scope.

Variable py_int : string -> option Z.
Variable py_float : string -> option Q.

Lemma split_two_not_default (s a b : string) :
  split "-" s = [a; b] -> String.eqb s "1*" = false.
Proof.
  intros Hs. destruct (String.eqb_spec s "1*") as [->|]; [|reflexivity].
  discriminate Hs.
Qed.

Lemma arange_length (start stop : Z) :
  length (arange start stop) = Z.to_nat (stop - start).
Proof. unfold arange. rewrite length_map, length_seq. reflexivity. Qed.

Lemma interval_two (a b : string) (x y : Z) :
  py_int a = Some x -> py_int b = Some y ->
  interval py_int [a; b] = Ok (arange x (y + 1)).
Proof.
  intros Ha Hb. unfold interval, int. simpl. rewrite Ha, Hb. reflexivity.
Qed.

Lemma interval_error (content : list string) (e : exn) :
  interval py_int content = Raise e ->
  e = ValueError "invalid literal for int()".
Proof.
  unfold interval, int.
  destruct (py_int (nth 0 content "")); simpl; [|congruence].
  destruct (py_int (nth 1 content "")); simpl; congruence.
Qed.

Lemma read_annulus_error (content : string) (e : exn) :
  read_annulus py_int content = Raise e ->
  e = ValueError "invalid literal for int()" \/ e = ValueError annulus_error.
Proof.
  unfold read_annulus. destruct (String.eqb content "1*"); [discriminate|].
  destruct (length (split "-" content) =? 2)%nat.
  - intros He. left. exact (interval_error _ _ He).
  - intros [= <-]. right. reflexivity.
Qed.

Lemma float64_traverse_error (l : list string) (e : exn) :
  Py.traverse (float64 py_float) l = Raise e ->
  e = ValueError "could not convert string to float".
Proof.
  induction l as [|s l IH]; simpl; [discriminate|].
  unfold float64 at 1. destruct (py_float s); simpl; [|congruence].
  destruct (Py.traverse (float64 py_float) l); simpl; [discriminate|].
  intros [= <-]. apply IH. reflexivity.
Qed.

Lemma read_days_error (content : string) (e : exn) :
  snd (read_days py_float content) = Raise e ->
  e = ValueError "could not convert string to float".
Proof.
  unfold read_days. destruct (String.eqb content "1*"); [discriminate|].
  apply float64_traverse_error.
Qed.

Context `{Days.ArgSort}.

Variable information : list information_row.
Variable eclipse_days : list Q.
Variable eclipse_dates : list Assemble.date.
Variable welsegs_table : Schedule.collection Schedule.welsegs_row.
Variable compsegs_table : Schedule.collection Schedule.compsegs_row.
Variable compdat_table : list Schedule.compdat_row.
Variable numpy_vector : Assemble.column -> string -> Z -> result (list Q).
Variable annulus_inflow :
  Assemble.column -> Assemble.frame -> Assemble.frame
  -> list Packer.zone_row -> Assemble.frame -> result (list Q).

(** When the tubing and the device columns of the well are both intervals
    "a-b" and the two intervals do not hold the same number of segments,
    [get_info_per_well] raises the ValueError on unequal numbers of device
    and tubing segments, and the well is left after that call: no day is
    resolved, no packer searched, no data collected; when the two numbers
    are equal that error is not raised. *)
Theorem unequal_device_and_tubing_counts_fatal (well : string) (lateral : Z)
    (row : information_row) (others : list information_row)
    (t1 t2 d1 d2 : string) (ts te ds de : Z) :
  filter (fun r => Z.eqb (LATERAL r) lateral)
    (filter (fun r => String.eqb (WELL r) well) information)
  = row :: others ->
  split "-" (TUBINGSEGMENT row) = [t1; t2] ->
  split "-" (DEVICESEGMENT row) = [d1; d2] ->
  py_int t1 = Some ts -> py_int t2 = Some te ->
  py_int d1 = Some ds -> py_int d2 = Some de ->
  (length (arange ts (te + 1)) <> length (arange ds (de + 1)) ->
   snd (get_info_per_well py_int py_float information well lateral)
   = Raise (ValueError
              "Error : the number of device segments are not the same with the number of tubing segments.")
   /\
   Driver.run_well py_int py_float information eclipse_days eclipse_dates
     welsegs_table compsegs_table compdat_table numpy_vector annulus_inflow
     well lateral
   = ([Driver.InfoPerWell],
      Raise (ValueError
               "Error : the number of device segments are not the same with the number of tubing segments.")))
  /\
  (length (arange ts (te + 1)) = length (arange ds (de + 1)) ->
   snd (get_info_per_well py_int py_float information well lateral)
   <> Raise (ValueError
               "Error : the number of device segments are not the same with the number of tubing segments.")).
Proof.
  intros Hrow Ht Hd Ht1 Ht2 Hd1 Hd2.
  assert (Hinfo :
    snd (get_info_per_well py_int py_float information well lateral)
    = match read_device py_int (arange ts (te + 1)) (DEVICESEGMENT row) with
      | Raise e => Raise e
      | Ok device =>
          match read_annulus py_int (ANNULUSSEGMENT row) with
          | Raise e => Raise e
          | Ok annulus =>
              days <- snd (read_days py_float (DAYS row)) ;;
              Ok {| tubing_segment := arange ts (te + 1);
                    device_segment := device;
                    annulus_segment := annulus;
                    my_days := days |}
          end
      end).
  { unfold get_info_per_well. rewrite Hrow.
    unfold read_tubing. rewrite (split_two_not_default _ _ _ Ht), Ht.
    cbn [length Nat.eqb negb]. rewrite (interval_two _ _ _ _ Ht1 Ht2).
    destruct (read_device _ _ _); [|reflexivity].
    destruct (read_annulus _ _); [|reflexivity].
    destruct (read_days _ _). reflexivity. }
  assert (Hdev : read_device py_int (arange ts (te + 1)) (DEVICESEGMENT row)
                 = if negb (length (arange ts (te + 1))
                            =? length (arange ds (de + 1)))%nat
                   then Raise (ValueError unequal_error)
                   else Ok (arange ds (de + 1))).
  { unfold read_device. rewrite (split_two_not_default _ _ _ Hd), Hd.
    cbn [length Nat.eqb]. rewrite (interval_two _ _ _ _ Hd1 Hd2).
    reflexivity. }
  rewrite Hdev in Hinfo. split.
  - intros Hne. apply Nat.eqb_neq in Hne. rewrite Hne in Hinfo.
    cbn [negb] in Hinfo. split; [exact Hinfo|].
    unfold Driver.run_well. rewrite Hinfo. reflexivity.
  - intros Heq. apply Nat.eqb_eq in Heq. rewrite Heq in Hinfo.
    cbn [negb] in Hinfo. rewrite Hinfo.
    destruct (read_annulus _ _) as [annulus|e] eqn:Ea.
    + destruct (snd (read_days py_float (DAYS row))) as [days|e] eqn:Ed.
      * discriminate.
      * apply read_days_error in Ed. subst e. discriminate.
    + apply read_annulus_error in Ea. destruct Ea as [->| ->]; discriminate.
Qed.

End Cardinality.


(** The example well with the tubing interval 2-5 (four segments) and the
    device interval 6-8 (three segments). *)
Lemma unequal_device_and_tubing_counts_example :
  (length (arange 2 (5 + 1)) <> length (arange 6 (8 + 1)) ->
   snd (Info.get_info_per_well Example.py_int Example.py_float
          [Example.info_line "2-5" "6-8" "1*" "10"] "A-1" 1)
   = Raise (ValueError
              "Error : the number of device segments are not the same with the number of tubing segments.")
   /\
   Driver.run_well Example.py_int Example.py_float
     [Example.info_line "2-5" "6-8" "1*" "10"] Example.eclipse_days
     Example.eclipse_dates Example.welsegs_table Example.compsegs_table
     Example.compdat_table Example.numpy_vector Example.annulus_inflow
     "A-1" 1
   = ([Driver.InfoPerWell],
      Raise (ValueError
               "Error : the number of device segments are not the same with the number of tubing segments.")))
  /\
  (length (arange 2 (5 + 1)) = length (arange 6 (8 + 1)) ->
   snd (Info.get_info_per_well Example.py_int Example.py_float
          [Example.info_line "2-5" "6-8" "1*" "10"] "A-1" 1)
   <> Raise (ValueError
               "Error : the number of device segments are not the same with the number of tubing segments.")).
Proof.
  apply (unequal_device_and_tubing_counts_fatal Example.py_int
           Example.py_float [Example.info_line "2-5" "6-8" "1*" "10"]
           Example.eclipse_days Example.eclipse_dates Example.welsegs_table
           Example.compsegs_table Example.compdat_table Example.numpy_vector
           Example.annulus_inflow "A-1"%string 1%Z
           (Example.info_line "2-5" "6-8" "1*" "10") []
           "2"%string "5"%string "6"%string "8"%string 2%Z 5%Z 6%Z 8%Z);
    reflexivity.
Defined.



(** ** Static properties *)

Section StaticFacts.

Import Assemble.

Lemma astype_float64_ok (col : list Schedule.cell) :
  Forall (fun c => Merge.is_float c = true) col ->
  Merge.astype_float64 col = Ok col.
Proof.
  intros Hall. unfold Merge.astype_float64.
  rewrite (proj2 (forallb_forall _ _)); [reflexivity|].
  apply Forall_forall. exact Hall.
Qed.

Lemma astype_float64_raises (col : list Schedule.cell) :
  Exists (fun c => Merge.is_float c = false) col ->
  exists e, Merge.astype_float64 col = Raise e.
Proof.
  intros Hex. unfold Merge.astype_float64.
  destruct (forallb Merge.is_float col) eqn:E; [|eexists; reflexivity].
  rewrite forallb_forall in E. apply Exists_exists in Hex.
  destruct Hex as (c & Hin & Hc). rewrite (E c Hin) in Hc. discriminate.
Qed.

Lemma cast_static_CF (df : frame) :
  (Exists (fun r => Merge.is_float (CF r) = false) df ->
   Forall (fun r => CF r = sentinel) (cast_static df)) /\
  (Forall (fun r => Merge.is_float (CF r) = true) df ->
   map CF (cast_static df) = map CF df).
Proof.
  unfold cast_static. split.
  - intros Hex.
    destruct (astype_float64_raises (map CF df)) as (e & ->).
    { apply Exists_exists in Hex. destruct Hex as (r & Hin & Hr).
      apply Exists_exists. exists (CF r). split; [|exact Hr].
      apply in_map. exact Hin. }
    destruct (Merge.astype_float64 (map KH _));
      apply Forall_forall; intros r Hr;
      repeat (apply in_map_iff in Hr; destruct Hr as (? & <- & Hr));
      reflexivity.
  - intros Hall. rewrite (astype_float64_ok (map CF df)).
    + destruct (Merge.astype_float64 (map KH df)); [reflexivity|].
      rewrite map_map. reflexivity.
    + apply Forall_forall. intros c Hc. apply in_map_iff in Hc.
      destruct Hc as (r & <- & Hr). rewrite Forall_forall in Hall. auto.
Qed.

Lemma cast_static_KH (df : frame) :
  (Exists (fun r => Merge.is_float (KH r) = false) df ->
   Forall (fun r => KH r = sentinel) (cast_static df)) /\
  (Forall (fun r => Merge.is_float (KH r) = true) df ->
   map KH (cast_static df) = map KH df).
Proof.
  unfold cast_static.
  set (df1 := match Merge.astype_float64 (map CF df) with
              | Ok _ => df
              | Raise _ => map (fun r => with_static r sentinel (KH r)) df
              end).
  assert (Hkh : map KH df1 = map KH df).
  { unfold df1. destruct (Merge.astype_float64 (map CF df)); [reflexivity|].
    rewrite map_map. reflexivity. }
  split.
  - intros Hex.
    destruct (astype_float64_raises (map KH df1)) as (e & ->).
    { rewrite Hkh. apply Exists_exists in Hex.
      destruct Hex as (r & Hin & Hr).
      apply Exists_exists. exists (KH r). split; [|exact Hr].
      apply in_map. exact Hin. }
    apply Forall_forall. intros r Hr. apply in_map_iff in Hr.
    destruct Hr as (? & <- & _). reflexivity.
  - intros Hall. rewrite astype_float64_ok; [exact Hkh|].
    rewrite Hkh. apply Forall_forall. intros c Hc. apply in_map_iff in Hc.
    destruct Hc as (r & <- & Hr). rewrite Forall_forall in Hall. auto.
Qed.

Lemma join_row_static (compdat : list Schedule.compdat_row) (well : string)
    (w : Schedule.welsegs_row) (c : Schedule.compsegs_row)
    (r : Merge.segment_row) :
  In r (Merge.join_row compdat well w c) ->
  (Forall (fun d => Merge.same_cell (Schedule.I c) (Schedule.J c)
                      (Schedule.K c) d = false) compdat ->
   Merge.CF r = Schedule.NaN /\ Merge.KH r = Schedule.NaN) /\
  (Exists (fun d => Merge.same_cell (Schedule.I c) (Schedule.J c)
                      (Schedule.K c) d = true) compdat ->
   exists d, In d compdat /\
     Merge.same_cell (Schedule.I c) (Schedule.J c) (Schedule.K c) d = true /\
     Merge.CF r = Schedule.dCF d /\ Merge.KH r = Schedule.dKH d).
Proof.
  unfold Merge.join_row.
  destruct (filter _ compdat) as [|m ms] eqn:Ef.
  - intros [<-|[]]. split; [split; reflexivity|].
    intros Hex. apply Exists_exists in Hex. destruct Hex as (d & Hin & Hd).
    assert (Hf : In d (filter (Merge.same_cell (Schedule.I c) (Schedule.J c)
                                 (Schedule.K c)) compdat)).
    { apply filter_In. split; assumption. }
    rewrite Ef in Hf. contradiction.
  - intros Hr. apply in_map_iff in Hr. destruct Hr as (d & <- & Hd).
    rewrite <- Ef in Hd. apply filter_In in Hd. destruct Hd as (Hin & Hd).
    split.
    + intros Hall. rewrite Forall_forall in Hall.
      rewrite (Hall d Hin) in Hd. discriminate.
    + intros _. exists d. repeat split; assumption.
Qed.

End StaticFacts.

(** C9, as the claim states it, fails twice on the example well.  Without a
    COMPDAT record for the cell of tubing segment 5, the CF of that row in
    the table is NaN, not 1e-10.  With the text "1*" as the CF of the cell
    of segment 3, every row of the table has CF 1e-10, also the rows whose
    source value is the number 5, 7 or 8. *)
Lemma static_property_default_counterexample :
  (exists df,
     snd (Assemble.get_data Example.welsegs_table Example.compsegs_table
            (firstn 3 Example.compdat_table) Example.numpy_vector
            Example.eclipse_dates Example.annulus_inflow "A-1" 1
            [2; 3; 4; 5]%Z [6; 7; 8; 9]%Z [0%Z] [1%nat] []) = Ok df /\
     map Assemble.CF (Assemble.related df 110%Z Assemble.Tubing)
     = [Schedule.Numeric 5; Schedule.Numeric 6; Schedule.Numeric 7;
        Schedule.NaN]) /\
  Schedule.NaN <> Assemble.sentinel /\
  (exists df,
     snd (Assemble.get_data Example.welsegs_table Example.compsegs_table
            [Example.compdat 1 (Schedule.Numeric 5) (Schedule.Numeric 100);
             Example.compdat 2 (Schedule.NonNumeric "1*")
               (Schedule.Numeric 200);
             Example.compdat 3 (Schedule.Numeric 7) (Schedule.Numeric 300);
             Example.compdat 4 (Schedule.Numeric 8) (Schedule.Numeric 400)]
            Example.numpy_vector Example.eclipse_dates
            Example.annulus_inflow "A-1" 1
            [2; 3; 4; 5]%Z [6; 7; 8; 9]%Z [0%Z] [1%nat] []) = Ok df /\
     map Assemble.CF (Assemble.related df 110%Z Assemble.Tubing)
     = [Assemble.sentinel; Assemble.sentinel; Assemble.sentinel;
        Assemble.sentinel] /\
     map Assemble.KH (Assemble.related df 110%Z Assemble.Tubing)
     = [Schedule.Numeric 100; Schedule.Numeric 200; Schedule.Numeric 300;
        Schedule.Numeric 400]) /\
  Schedule.Numeric 5 <> Assemble.sentinel.
Proof.
  split; [eexists; split; vm_compute; reflexivity|].
  split; [discriminate|].
  split; [eexists; split; [|split]; vm_compute; reflexivity|].
  discriminate.
Qed.

(** ** Lateral selection *)

Section LateralFacts.

Import Merge.

Variable compsegs : list Schedule.compsegs_row.
Variable lateral : Z.

Lemma boundary_true (s : nat) :
  (Z.of_nat s < Z.of_nat (length compsegs) - 3)%Z ->
  reversal compsegs s = true -> boundary compsegs s = true.
Proof.
  intros Hs Hr. unfold boundary. rewrite Hr.
  rewrite (proj2 (Z.ltb_lt _ _) Hs). reflexivity.
Qed.

Lemma boundary_false_reversal (s : nat) :
  reversal compsegs s = false -> boundary compsegs s = false.
Proof. intros Hr. unfold boundary. rewrite Hr. apply andb_false_r. Qed.

Lemma boundary_false_tail (s : nat) :
  (Z.of_nat (length compsegs) - 3 <= Z.of_nat s)%Z ->
  boundary compsegs s = false.
Proof.
  intros Hs. unfold boundary.
  rewrite (proj2 (Z.ltb_ge _ _) Hs). reflexivity.
Qed.

Lemma no_boundary_in_tail (k s : nat) :
  (Z.of_nat (length compsegs) - 3 <= Z.of_nat s)%Z ->
  filter (boundary compsegs) (seq s k) = [].
Proof.
  revert s. induction k as [|k IH]; intros s Hs; [reflexivity|].
  cbn [seq filter]. rewrite boundary_false_tail by exact Hs.
  apply IH. lia.
Qed.

(** The walk from position [s] on, when the lateral asked for ends at the
    [m]-th boundary still ahead. *)
Lemma lateral_loop_inner (k : nat) :
  forall (s : nat) (st : scan) (m : nat),
    (s + k = length compsegs)%nat -> (1 <= m)%nat ->
    lateral = (i_lateral st + Z.of_nat m)%Z ->
    (m <= length (filter (boundary compsegs) (seq s k)))%nat ->
    lateral_loop compsegs lateral (seq s k) st
    = {| i_lateral := lateral;
         a_row := if (m =? 1)%nat then a_row st
                  else (nth (m - 2)
                          (filter (boundary compsegs) (seq s k)) 0 + 1)%nat;
         zrow := Some (nth (m - 1)
                         (filter (boundary compsegs) (seq s k)) 0%nat) |}.
Proof.
  induction k as [|k IH]; intros s st m Hn Hm Hlat Hlen;
    [simpl in Hlen; lia|].
  cbn [seq filter lateral_loop] in *.
  destruct (Z.ltb_spec (Z.of_nat s) (Z.of_nat (length compsegs) - 3))
    as [Hs|Hs].
  - destruct (reversal compsegs s) eqn:Er.
    + rewrite (boundary_true s Hs Er) in *. cbn [length] in Hlen.
      destruct (Z.eqb_spec (i_lateral st + 1) lateral) as [E|E].
      * assert (m = 1)%nat by lia. subst m. rewrite E. reflexivity.
      * rewrite (IH (S s) _ (m - 1)%nat); cbn [i_lateral a_row]; try lia.
        destruct m as [|[|[|m]]]; try lia; try reflexivity.
        simpl. rewrite Nat.sub_0_r. reflexivity.
    + rewrite (boundary_false_reversal s Er) in *. apply IH; auto. lia.
  - rewrite boundary_false_tail in Hlen by exact Hs.
    rewrite no_boundary_in_tail in Hlen by lia. simpl in Hlen. lia.
Qed.

(** The walk from position [s] on, when the lateral asked for is the one
    after the last boundary still ahead. *)
Lemma lateral_loop_last (k : nat) :
  forall (s : nat) (st : scan) (m : nat),
    (s + k = length compsegs)%nat -> (1 <= k)%nat ->
    m = S (length (filter (boundary compsegs) (seq s k))) ->
    lateral = (i_lateral st + Z.of_nat m)%Z ->
    lateral_loop compsegs lateral (seq s k) st
    = {| i_lateral := lateral;
         a_row := if (m =? 1)%nat then a_row st
                  else (nth (m - 2)
                          (filter (boundary compsegs) (seq s k)) 0 + 1)%nat;
         zrow := Some (length compsegs - 1)%nat |}.
Proof.
  induction k as [|k IH]; intros s st m Hn Hk Hm Hlat; [lia|].
  cbn [seq filter lateral_loop] in *.
  destruct (Z.ltb_spec (Z.of_nat s) (Z.of_nat (length compsegs) - 3))
    as [Hs|Hs].
  - destruct (reversal compsegs s) eqn:Er.
    + rewrite (boundary_true s Hs Er) in *. cbn [length] in Hm.
      destruct (Z.eqb_spec (i_lateral st + 1) lateral) as [E|E]; [lia|].
      rewrite (IH (S s) _ (m - 1)%nat); cbn [i_lateral a_row]; try lia.
      destruct m as [|[|[|m]]]; try lia; try reflexivity.
      simpl. rewrite Nat.sub_0_r. reflexivity.
    + rewrite (boundary_false_reversal s Er) in *. apply IH; auto; lia.
  - rewrite boundary_false_tail in Hm |- * by exact Hs.
    rewrite no_boundary_in_tail in Hm |- * by lia. simpl in Hm. subst m.
    replace (i_lateral st + 1 =? lateral)%Z with true
      by (symmetry; apply Z.eqb_eq; lia).
    simpl. f_equal. lia.
Qed.

End LateralFacts.

Section LateralSelection.

Import Merge.

Variable compsegs : list Schedule.compsegs_row.

Lemma filter_seq_increasing (p : nat -> bool) (k s : nat) :
  StronglySorted lt (filter p (seq s k)).
Proof.
  revert s. induction k as [|k IH]; intros s; [constructor|].
  cbn [seq filter]. destruct (p s); [|apply IH].
  constructor; [apply IH|].
  apply Forall_forall. intros x Hx. apply filter_In in Hx.
  destruct Hx as (Hx & _). apply in_seq in Hx. lia.
Qed.

Lemma sorted_nth_lt (l : list nat) :
  StronglySorted lt l ->
  forall i j, (i < j < length l)%nat -> (nth i l 0 < nth j l 0)%nat.
Proof.
  induction 1 as [|x l Hs IH Hall]; intros i j Hij; simpl in Hij; [lia|].
  destruct j as [|j]; [lia|]. destruct i as [|i].
  - simpl. rewrite Forall_forall in Hall. apply Hall, nth_In. lia.
  - simpl. apply IH. lia.
Qed.

Lemma firstn_succ_nth {A : Type} (l : list A) (k : nat) (d : A) :
  (k < length l)%nat -> firstn (S k) l = (firstn k l ++ [nth k l d])%list.
Proof.
  revert k. induction l as [|x l IH]; intros k Hk; simpl in Hk; [lia|].
  destruct k as [|k]; [reflexivity|].
  cbn [firstn nth app]. f_equal. apply IH. lia.
Qed.

Lemma boundary_position (i : nat) :
  (i < length (boundaries compsegs))%nat ->
  (nth i (boundaries compsegs) 0 + 3 < length compsegs)%nat.
Proof.
  intros Hi. pose proof (nth_In (boundaries compsegs) 0%nat Hi) as Hin.
  unfold boundaries in Hin at 2. apply filter_In in Hin.
  destruct Hin as (_ & Hb). unfold boundary in Hb.
  apply andb_true_iff in Hb. destruct Hb as (Hb & _).
  apply Z.ltb_lt in Hb. lia.
Qed.

(** A lateral that ends at a detected boundary [b] and starts at [a] is
    returned as the rows [a] to [b] followed by row [b + 1], the first row
    of the lateral after it. *)
Lemma select_lateral_inner (m : nat) :
  (1 <= m <= length (boundaries compsegs))%nat ->
  let b := nth (m - 1) (boundaries compsegs) 0%nat in
  let a := if (m =? 1)%nat then 0%nat
           else (nth (m - 2) (boundaries compsegs) 0 + 1)%nat in
  (a <= b)%nat /\ (b + 1 < length compsegs)%nat /\
  select_lateral compsegs (Z.of_nat m)
  = Ok (firstn (b + 1 - a) (skipn a compsegs)
        ++ [nth (b + 1) compsegs no_row])%list.
Proof.
  intros Hm b a.
  assert (Hb : (b + 3 < length compsegs)%nat).
  { apply boundary_position. lia. }
  assert (Hab : (a <= b)%nat).
  { unfold a, b. destruct (Nat.eqb_spec m 1) as [->|Hne]; [lia|].
    pose proof (sorted_nth_lt _
                  (filter_seq_increasing (boundary compsegs)
                     (length compsegs) 0) (m - 2) (m - 1)) as Hlt.
    fold (boundaries compsegs) in Hlt. lia. }
  split; [exact Hab|]. split; [lia|].
  unfold select_lateral, lateral_scan.
  rewrite (lateral_loop_inner compsegs (Z.of_nat m) (length compsegs) 0
             {| i_lateral := 0; a_row := 0; zrow := None |} m);
    try (simpl; lia); [|exact (proj2 Hm)].
  cbn [zrow a_row]. fold (boundaries compsegs). fold b. fold a.
  f_equal. unfold loc_slice.
  replace (S (b + 1) - a)%nat with (S (b + 1 - a)) by lia.
  rewrite (firstn_succ_nth _ _ no_row) by (rewrite length_skipn; lia).
  rewrite nth_skipn. do 3 f_equal. lia.
Qed.

(** The lateral after the last detected boundary is returned as the rows
    from its start to the end of the table. *)
Lemma select_lateral_last :
  compsegs <> [] ->
  let m := S (length (boundaries compsegs)) in
  let a := if (m =? 1)%nat then 0%nat
           else (nth (m - 2) (boundaries compsegs) 0 + 1)%nat in
  select_lateral compsegs (Z.of_nat m) = Ok (skipn a compsegs).
Proof.
  intros Hne m a.
  assert (Hlen : (1 <= length compsegs)%nat).
  { destruct compsegs; [congruence | simpl; lia]. }
  unfold select_lateral, lateral_scan.
  rewrite (lateral_loop_last compsegs (Z.of_nat m) (length compsegs) 0
             {| i_lateral := 0; a_row := 0; zrow := None |} m);
    try (simpl; lia); [|reflexivity].
  cbn [zrow a_row]. fold (boundaries compsegs). fold a.
  f_equal. unfold loc_slice. apply firstn_all2.
  rewrite length_skipn. lia.
Qed.

End LateralSelection.

(** C4 on a table with two laterals (rows 0-3 and rows 4-7; the walk finds
    the boundary at row 3): for lateral 1 the rows returned are rows 0 to 4,
    one row more than the lateral, the added row being the first row of
    lateral 2; a depth of 1025, which no interval of lateral 1 contains, is
    then merged with that cell of lateral 2 instead of being reported as
    outside the grid.  Lateral 2, the last one, is returned as rows 4-7. *)
Theorem lateral_selection_includes_next_row :
  Merge.boundaries Example.two_laterals = [3%nat] /\
  Merge.lateral_scan Example.two_laterals 1
  = {| Merge.i_lateral := 1; Merge.a_row := 0; Merge.zrow := Some 3%nat |} /\
  Merge.select_lateral Example.two_laterals 1
  = Ok (firstn 4 Example.two_laterals ++ [Example.compseg 11 1020 1030]) /\
  nth_error Example.two_laterals 4 = Some (Example.compseg 11 1020 1030) /\
  Merge.select_lateral Example.two_laterals 2
  = Ok (skipn 4 Example.two_laterals) /\
  Merge.locate (firstn 4 Example.two_laterals) 3 1025
  = Raise (ValueError "Error : Segment 3 is not found inside grid cells") /\
  (exists branch,
     Merge.select_lateral Example.two_laterals 1 = Ok branch /\
     Merge.locate branch 3 1025 = Ok (Example.compseg 11 1020 1030)).
Proof.
  repeat split; try reflexivity.
  eexists. split; reflexivity.
Qed.

(** * Further properties *)

(** ** Bounds of the ratios *)

Section RatioBounds.

Import Assemble.

Lemma swct_range (w o : Q) : 0 <= Ratio.swct w o /\ Ratio.swct w o <= 1.
Proof.
  unfold Ratio.swct, Ratio.min_rate, Ratio.eps.
  pose proof (Qabs_nonneg w) as Hw. pose proof (Qabs_nonneg o) as Ho.
  destruct (Qlt_le_dec _ _) as [_|_]; [split; lra|].
  assert (Hd : 0 < Qabs w + Qabs o + (1 # 100000)) by lra.
  split.
  - apply Qle_shift_div_l; [exact Hd | lra].
  - apply Qle_shift_div_r; [exact Hd | lra].
Qed.

Lemma sgor_nonneg (g o : Q) : 0 <= Ratio.sgor g o.
Proof.
  unfold Ratio.sgor, Ratio.eps.
  pose proof (Qabs_nonneg g) as Hg. pose proof (Qabs_nonneg o) as Ho.
  apply Qle_shift_div_l; lra.
Qed.

(** X1: the water cut a frame gets is a fraction: every SWCT entry
    assigned by the ratio step lies between 0 and 1, both included,
    whatever the signs of the two rates, and every SGOR entry is
    non-negative.  (The quotient of a non-negative number by a number that
    is not smaller is at most 1, and a quotient of non-negative numbers is
    not negative, also when each operation rounds.) *)
Theorem ratio_columns_in_range (df : frame) (r : row) :
  In r (add_sgor (add_swct df)) ->
  (forall w o,
     lookup SWFR (values r) = Some w -> lookup SOFR (values r) = Some o ->
     exists v, lookup SWCT (values r) = Some v /\ 0 <= v /\ v <= 1) /\
  (forall g o,
     lookup SGFRF (values r) = Some g -> lookup SOFR (values r) = Some o ->
     exists v, lookup SGOR (values r) = Some v /\ 0 <= v).
Proof.
  intros Hin. split.
  - intros w o Hw Ho.
    destruct (add_sgor_keeps _ _ Hin) as (r0 & Hin0 & Hsame).
    exists (Ratio.swct w o). split; [|apply swct_range].
    rewrite (Hsame SWCT) by discriminate.
    rewrite (Hsame SWFR) in Hw by discriminate.
    rewrite (Hsame SOFR) in Ho by discriminate.
    exact (add_swct_row _ _ Hin0 _ _ Hw Ho).
  - intros g o Hg Ho. exists (Ratio.sgor g o).
    split; [exact (add_sgor_row _ _ Hin _ _ Hg Ho) | apply sgor_nonneg].
Qed.

End RatioBounds.

(** X1 on the device rows of the example well. *)
Lemma ratio_columns_in_range_example :
  (forall w o,
     Assemble.lookup Assemble.SWFR [(Assemble.SOFR, 6); (Assemble.SWFR, 1);
                                    (Assemble.SWCT, Ratio.swct 1 6)]
     = Some w ->
     Assemble.lookup Assemble.SOFR [(Assemble.SOFR, 6); (Assemble.SWFR, 1);
                                    (Assemble.SWCT, Ratio.swct 1 6)]
     = Some o ->
     exists v,
       Assemble.lookup Assemble.SWCT
         [(Assemble.SOFR, 6); (Assemble.SWFR, 1);
          (Assemble.SWCT, Ratio.swct 1 6)] = Some v /\ 0 <= v /\ v <= 1) /\
  (forall g o,
     Assemble.lookup Assemble.SGFRF [(Assemble.SOFR, 6); (Assemble.SWFR, 1);
                                     (Assemble.SWCT, Ratio.swct 1 6)]
     = Some g ->
     Assemble.lookup Assemble.SOFR [(Assemble.SOFR, 6); (Assemble.SWFR, 1);
                                    (Assemble.SWCT, Ratio.swct 1 6)]
     = Some o ->
     exists v,
       Assemble.lookup Assemble.SGOR
         [(Assemble.SOFR, 6); (Assemble.SWFR, 1);
          (Assemble.SWCT, Ratio.swct 1 6)] = Some v /\ 0 <= v).
Proof.
  apply (ratio_columns_in_range
           [Example.plain_row Assemble.Device 6
              [(Assemble.SOFR, 6); (Assemble.SWFR, 1)]]
           (Assemble.with_values
              (Example.plain_row Assemble.Device 6
                 [(Assemble.SOFR, 6); (Assemble.SWFR, 1)])
              [(Assemble.SOFR, 6); (Assemble.SWFR, 1);
               (Assemble.SWCT, Ratio.swct 1 6)])).
  left. reflexivity.
Defined.

(** ** Annulus zones *)

Section ZoneFacts.

Import Packer.

Let d0 : Schedule.welsegs_row :=
  {| Schedule.TUBINGSEGMENT := 0; Schedule.TUBINGOUTLET := 0;
     Schedule.TUBINGMD := 0; Schedule.TUBINGTVD := 0;
     Schedule.TUBINGID := 0 |}.

Lemma packer_loop_steps (rest : list Schedule.welsegs_row) :
  forall (prev : Schedule.welsegs_row) (zone : Z) (i : nat),
    (i < length rest)%nat ->
    nth (S i) (zone :: snd (packer_loop prev rest zone)) 0%Z
    = if Z.eqb (Schedule.TUBINGOUTLET (nth (S i) (prev :: rest) d0))
           (Schedule.TUBINGSEGMENT (nth i (prev :: rest) d0))
      then nth i (zone :: snd (packer_loop prev rest zone)) 0%Z
      else (nth i (zone :: snd (packer_loop prev rest zone)) 0 + 1)%Z.
Proof.
  induction rest as [|cur rest IH]; intros prev zone i Hi; simpl in Hi; [lia|].
  cbn [packer_loop].
  set (zone' := if negb (Z.eqb (Schedule.TUBINGOUTLET cur)
                           (Schedule.TUBINGSEGMENT prev))
                then (zone + 1)%Z else zone).
  specialize (IH cur zone').
  destruct (packer_loop cur rest zone') as [packers zones] eqn:El.
  cbn [snd] in *.
  destruct i as [|i].
  - cbn [nth]. unfold zone'. destruct (Z.eqb _ _); reflexivity.
  - change (nth (S (S i)) (zone :: zone' :: zones) 0%Z)
      with (nth (S i) (zone' :: zones) 0%Z).
    change (nth (S i) (zone :: zone' :: zones) 0%Z)
      with (nth i (zone' :: zones) 0%Z).
    change (nth (S (S i)) (prev :: cur :: rest) d0)
      with (nth (S i) (cur :: rest) d0).
    change (nth (S i) (prev :: cur :: rest) d0)
      with (nth i (cur :: rest) d0).
    apply IH. lia.
Qed.

Lemma packer_loop_last_zone (rest : list Schedule.welsegs_row) :
  forall (prev : Schedule.welsegs_row) (zone : Z),
    last (zone :: snd (packer_loop prev rest zone)) 0%Z
    = (zone + Z.of_nat (crossings prev rest))%Z.
Proof.
  induction rest as [|cur rest IH]; intros prev zone.
  - simpl. lia.
  - cbn [packer_loop crossings].
    set (zone' := if negb (Z.eqb (Schedule.TUBINGOUTLET cur)
                             (Schedule.TUBINGSEGMENT prev))
                  then (zone + 1)%Z else zone).
    specialize (IH cur zone').
    destruct (packer_loop cur rest zone') as [packers zones] eqn:El.
    cbn [snd] in *.
    change (last (zone :: zone' :: zones) 0%Z)
      with (last (zone' :: zones) 0%Z).
    rewrite IH. unfold zone'. destruct (Z.eqb _ _); simpl negb; cbv iota; lia.
Qed.

Lemma zone_columns (welsegs : list Schedule.welsegs_row) (zones : list Z) :
  length zones = length welsegs ->
  let frame :=
    map (fun rz => {| zSEGMENT := Schedule.TUBINGSEGMENT (fst rz);
                      zMD := Schedule.TUBINGMD (fst rz);
                      ANNULUS_ZONE := snd rz |})
      (combine welsegs zones) in
  map zSEGMENT frame = map Schedule.TUBINGSEGMENT welsegs /\
  map zMD frame = map Schedule.TUBINGMD welsegs /\
  map ANNULUS_ZONE frame = zones.
Proof.
  revert zones. induction welsegs as [|w ws IH]; intros zones Hlen;
    destruct zones as [|z zs]; try discriminate; [repeat split|].
  simpl in Hlen. destruct (IH zs) as (H1 & H2 & H3); [lia|].
  cbn zeta in *. simpl. rewrite H1, H2, H3. repeat split.
Qed.

(** X4: the zone frame of [get_packer] has one row per WELSEGS row of the
    annulus selection, in WELSEGS order, with that row's segment number
    and depth; the zone number is 1 on the first row, and on every later
    row it is the number of the row before when the outlet of the row is
    the segment of the row before, and that number plus 1 otherwise; so it
    never decreases, and on the last row it is 1 plus the number of
    crossings. *)
Theorem annulus_zones_count_crossings
    (welsegs_table : Schedule.collection Schedule.welsegs_row)
    (well : string) (annulus_segment : list Z)
    (ws : list Schedule.welsegs_row) (first : Schedule.welsegs_row)
    (rest : list Schedule.welsegs_row) :
  Schedule.content_of welsegs_table well = Some ws ->
  (1 < length annulus_segment)%nat ->
  filter (fun r => isin annulus_segment (Schedule.TUBINGSEGMENT r)) ws
  = first :: rest ->
  exists packers zones,
    get_packer welsegs_table well annulus_segment
    = Ok (Some (packers, zones)) /\
    map zSEGMENT zones = map Schedule.TUBINGSEGMENT (first :: rest) /\
    map zMD zones = map Schedule.TUBINGMD (first :: rest) /\
    nth 0 (map ANNULUS_ZONE zones) 0%Z = 1%Z /\
    (forall i, (i < length rest)%nat ->
       nth (S i) (map ANNULUS_ZONE zones) 0%Z
       = if Z.eqb (Schedule.TUBINGOUTLET (nth (S i) (first :: rest) first))
              (Schedule.TUBINGSEGMENT (nth i (first :: rest) first))
         then nth i (map ANNULUS_ZONE zones) 0%Z
         else (nth i (map ANNULUS_ZONE zones) 0 + 1)%Z) /\
    last (map ANNULUS_ZONE zones) 0%Z
    = (1 + Z.of_nat (crossings first rest))%Z.
Proof.
  intros Hws Hsel Hrows. unfold get_packer.
  rewrite (proj2 (Nat.ltb_lt _ _) Hsel), Hws, Hrows.
  pose proof (packer_loop_steps rest first 1) as Hsteps.
  pose proof (packer_loop_last_zone rest first 1) as Hlast.
  pose proof (packer_loop_zones first rest 1) as Hlen.
  destruct (packer_loop first rest 1) as [packers zones].
  cbn [snd] in *.
  destruct (zone_columns (first :: rest) (1%Z :: zones)) as (H1 & H2 & H3);
    [simpl; lia|].
  cbn zeta in H1, H2, H3.
  eexists _, _. split; [reflexivity|].
  rewrite H1, H2, H3. repeat split; auto.
  intros i Hi. rewrite (Hsteps i Hi).
  rewrite (nth_indep (first :: rest) d0 first) by (simpl; lia).
  rewrite (nth_indep (first :: rest) d0 first) by (simpl; lia).
  reflexivity.
Qed.

End ZoneFacts.

(** X4 on the annulus segments 10-12 of the example well: zones 1, 1, 2. *)
Lemma annulus_zones_example :
  exists packers zones,
    Packer.get_packer Example.welsegs_table "A-1" [10; 11; 12]%Z
    = Ok (Some (packers, zones)) /\
    map Packer.zSEGMENT zones = [10; 11; 12]%Z /\
    map Packer.zMD zones = [10052 # 10; 10152 # 10; 10252 # 10] /\
    nth 0 (map Packer.ANNULUS_ZONE zones) 0%Z = 1%Z /\
    (forall i, (i < 2)%nat ->
       nth (S i) (map Packer.ANNULUS_ZONE zones) 0%Z
       = if Z.eqb
              (Schedule.TUBINGOUTLET
                 (nth (S i)
                    [Example.welseg 10 6 (10052 # 10);
                     Example.welseg 11 10 (10152 # 10);
                     Example.welseg 12 8 (10252 # 10)]
                    (Example.welseg 10 6 (10052 # 10))))
              (Schedule.TUBINGSEGMENT
                 (nth i
                    [Example.welseg 10 6 (10052 # 10);
                     Example.welseg 11 10 (10152 # 10);
                     Example.welseg 12 8 (10252 # 10)]
                    (Example.welseg 10 6 (10052 # 10))))
         then nth i (map Packer.ANNULUS_ZONE zones) 0%Z
         else (nth i (map Packer.ANNULUS_ZONE zones) 0 + 1)%Z) /\
    last (map Packer.ANNULUS_ZONE zones) 0%Z = 2%Z.
Proof.
  apply (annulus_zones_count_crossings Example.welsegs_table "A-1"%string
           [10; 11; 12]%Z (snd (hd ("A-1"%string, []) Example.welsegs_table))
           (Example.welseg 10 6 (10052 # 10))
           [Example.welseg 11 10 (10152 # 10);
            Example.welseg 12 8 (10252 # 10)]).
  - reflexivity.
  - simpl. lia.
  - reflexivity.
Defined.

(** ** Day resolution without report days *)

(** X5: when the summary holds no report day, the first requested day has
    its warning printed and the resolver then raises IndexError, because
    the nearest-day fallback indexes an empty array; the days after it are
    not looked at. *)
Theorem day_index_without_report_days (sort : Days.ArgSort) (day : Q)
    (rest : list Q) :
  Days.get_day_index [] (day :: rest)
  = ([Days.NoExactDay day], Raise IndexError).
Proof.
  cbn [Days.get_day_index argwhere argwhere_from]. unfold Days.closest.
  cbn [map]. pose proof (Days.argsort_perm []) as Hperm.
  apply Permutation_sym, Permutation_nil in Hperm. rewrite Hperm.
  reflexivity.
Qed.

(** ** Lateral numbers without a lateral *)

Section LateralOutOfRange.

Import Merge.

Variable compsegs : list Schedule.compsegs_row.
Variable lateral : Z.

(** Where the lateral after the boundaries [bs] starts. *)
Let start_after (bs : list nat) (a : nat) : nat :=
  match bs with
  | [] => a
  | _ => (last bs 0 + 1)%nat
  end.

(** In the last three rows every turn closes at the last row and leaves
    the start of the lateral alone. *)
Lemma lateral_loop_tail (k : nat) :
  forall (s : nat) (st : scan),
    (1 <= k)%nat ->
    (Z.of_nat (length compsegs) - 3 <= Z.of_nat s)%Z ->
    let st' := lateral_loop compsegs lateral (seq s k) st in
    a_row st' = a_row st /\ zrow st' = Some (length compsegs - 1)%nat.
Proof.
  induction k as [|k IH]; intros s st Hk Hs; [lia|].
  cbn [seq lateral_loop].
  rewrite (proj2 (Z.ltb_ge _ _) Hs).
  destruct (Z.eqb _ _); [split; reflexivity|].
  destruct k as [|k]; [split; reflexivity|].
  destruct (IH (S s) {| i_lateral := i_lateral st + 1; a_row := a_row st;
                        zrow := Some (length compsegs - 1)%nat |})
    as (Ha & Hz); [lia | lia |].
  split; [exact Ha | exact Hz].
Qed.

(** The walk when the lateral number is met at none of the boundaries
    still ahead. *)
Lemma lateral_loop_unmatched (k : nat) :
  forall (s : nat) (st : scan),
    (s + k = length compsegs)%nat -> (1 <= k)%nat ->
    ((lateral <= i_lateral st)%Z \/
     (i_lateral st
      + Z.of_nat (length (filter (boundary compsegs) (seq s k)))
      < lateral)%Z) ->
    let st' := lateral_loop compsegs lateral (seq s k) st in
    a_row st' = start_after (filter (boundary compsegs) (seq s k)) (a_row st)
    /\ zrow st' = Some (length compsegs - 1)%nat.
Proof.
  induction k as [|k IH]; intros s st Hn Hk Hlat; [lia|].
  destruct (Z.lt_ge_cases (Z.of_nat s) (Z.of_nat (length compsegs) - 3))
    as [Hs|Hs].
  - cbn [seq filter lateral_loop] in *.
    rewrite (proj2 (Z.ltb_lt _ _) Hs).
    destruct (reversal compsegs s) eqn:Er.
    + rewrite (boundary_true compsegs s Hs Er) in *. cbn [length] in Hlat.
      destruct (Z.eqb_spec (i_lateral st + 1) lateral) as [E|E]; [lia|].
      destruct (IH (S s) {| i_lateral := i_lateral st + 1; a_row := s + 1;
                            zrow := Some s |}) as (Ha & Hz);
        [lia | lia | cbn [i_lateral]; lia |].
      split; [|exact Hz]. rewrite Ha. cbn [a_row]. unfold start_after.
      destruct (filter (boundary compsegs) (seq (S s) k)); reflexivity.
    + rewrite (boundary_false_reversal compsegs s Er) in *.
      apply IH; auto; lia.
  - rewrite (no_boundary_in_tail compsegs (S k) s) by lia.
    apply lateral_loop_tail; lia.
Qed.

(** X6: [get_md] never reports an unknown lateral.  On a table with at
    least one row, every lateral number that is zero, negative or above
    the number of detected boundaries selects the same rows: those of the
    last lateral, from the row after the last boundary (or the first row,
    without a boundary) to the end of the table. *)
Theorem lateral_out_of_range_selects_last :
  compsegs <> [] ->
  (lateral <= 0)%Z \/ (Z.of_nat (length (boundaries compsegs)) < lateral)%Z ->
  select_lateral compsegs lateral
  = Ok (skipn (match boundaries compsegs with
               | [] => 0%nat
               | _ => (last (boundaries compsegs) 0 + 1)%nat
               end) compsegs).
Proof.
  intros Hne Hlat.
  assert (Hlen : (1 <= length compsegs)%nat).
  { destruct compsegs; [congruence | simpl; lia]. }
  unfold select_lateral, lateral_scan.
  destruct (lateral_loop_unmatched (length compsegs) 0
              {| i_lateral := 0; a_row := 0; zrow := None |})
    as (Ha & Hz); [lia | lia | unfold boundaries in Hlat; cbn [i_lateral]; lia |].
  cbn zeta in Ha, Hz. rewrite Hz. f_equal.
  rewrite Ha. cbn [a_row]. fold (boundaries compsegs).
  change (start_after (boundaries compsegs) 0)
    with (match boundaries compsegs with
          | [] => 0%nat
          | _ => (last (boundaries compsegs) 0 + 1)%nat
          end).
  set (a := match boundaries compsegs with
            | [] => 0%nat
            | _ => (last (boundaries compsegs) 0 + 1)%nat
            end).
  unfold loc_slice. apply firstn_all2. rewrite length_skipn. lia.
Qed.

End LateralOutOfRange.

(** X6 on the table with two laterals: lateral 7 gives the rows of
    lateral 2. *)
Lemma lateral_out_of_range_example :
  Merge.select_lateral Example.two_laterals 7
  = Ok (skipn (match Merge.boundaries Example.two_laterals with
               | [] => 0%nat
               | _ => (last (Merge.boundaries Example.two_laterals) 0 + 1)%nat
               end) Example.two_laterals).
Proof.
  apply (lateral_out_of_range_selects_last Example.two_laterals 7).
  - discriminate.
  - right. vm_compute. reflexivity.
Defined.

(** ** Intervals after the first match *)

Section LocateAppend.

Import Merge.

Lemma argwhere_from_app {A : Type} (p : A -> bool) (a b : list A) (i : nat) :
  argwhere_from p (a ++ b) i
  = (argwhere_from p a i ++ argwhere_from p b (i + length a))%list.
Proof.
  revert i. induction a as [|x a IH]; intros i; simpl.
  - rewrite Nat.add_0_r. reflexivity.
  - rewrite IH. replace (S i + length a)%nat with (i + S (length a))%nat by lia.
    destruct (p x); reflexivity.
Qed.

(** X7: a depth that the intervals of a table contain is located in the
    same interval when further rows are appended to the table: the rows
    after the first match are never looked at, so the row that the lateral
    selection adds after a lateral only decides depths that the lateral
    itself does not contain. *)
Theorem locate_ignores_rows_after_match
    (branch extra : list Schedule.compsegs_row) (segment : Z) (p : Q)
    (c : Schedule.compsegs_row) :
  locate branch segment p = Ok c ->
  locate (branch ++ extra) segment p = Ok c.
Proof.
  unfold locate, argwhere. rewrite argwhere_from_app.
  destruct (argwhere_from (contains p) branch 0) as [|k rest] eqn:Hw;
    [discriminate|].
  cbn [app]. unfold Py.index.
  destruct (argwhere_head _ _ _ _ no_row Hw) as (Hk & _ & _).
  rewrite nth_error_app1 by exact Hk. auto.
Qed.

End LocateAppend.

(** X7 on the first lateral of the example table and the row added to it. *)
Lemma locate_ignores_rows_after_match_example :
  Merge.locate
    (firstn 4 Example.two_laterals ++ [Example.compseg 11 1020 1030]) 3 1035
  = Ok (Example.compseg 3 1030 1040).
Proof.
  apply (locate_ignores_rows_after_match (firstn 4 Example.two_laterals)
           [Example.compseg 11 1020 1030] 3 1035
           (Example.compseg 3 1030 1040)).
  reflexivity.
Defined.

(** ** Rows of the merge *)

Section MergeRows.

Import Merge.

Variable welsegs_table : Schedule.collection Schedule.welsegs_row.
Variable compsegs_table : Schedule.collection Schedule.compsegs_row.
Variable compdat_table : list Schedule.compdat_row.

Lemma join_row_depth (compdat : list Schedule.compdat_row) (well : string)
    (w : Schedule.welsegs_row) (c : Schedule.compsegs_row) (r : segment_row) :
  In r (join_row compdat well w c) ->
  WELL r = well /\ MD r = Schedule.TUBINGMD w /\
  DIAMETER r = Schedule.TUBINGID w.
Proof.
  unfold join_row.
  destruct (filter _ compdat) as [|m ms].
  - intros [<-|[]]. repeat split.
  - rewrite in_map_iff. intros (d & <- & _). repeat split.
Qed.

Lemma located_pairs (f : Schedule.welsegs_row -> result Schedule.compsegs_row)
    (xs : list Schedule.welsegs_row)
    (ys : list (Schedule.welsegs_row * Schedule.compsegs_row)) :
  Py.traverse (fun w => c <- f w ;; Ok (w, c)) xs = Ok ys ->
  map fst ys = xs /\ forall w c, In (w, c) ys -> f w = Ok c.
Proof.
  revert ys. induction xs as [|x xs IH]; intros ys; simpl.
  - intros [= <-]. split; [reflexivity | intros w c []].
  - destruct (f x) as [c0|e] eqn:Ex; simpl; [|discriminate].
    destruct (Py.traverse _ xs) as [ys'|e]; simpl; [|discriminate].
    intros [= <-]. destruct (IH ys' eq_refl) as (Hfst & Hin).
    split; [simpl; rewrite Hfst; reflexivity|].
    intros w c [[= <- <-]|Hwc]; [exact Ex | exact (Hin w c Hwc)].
Qed.

(** X8: every row of the table of [get_md] is the row of a WELSEGS row
    of the well whose segment is in the selection: it carries the depth
    and the diameter of that WELSEGS row unchanged (the device and annulus
    offset of 0.1 is used for the lookup only), the interval of the row
    contains that depth less the offset of the section, and so the length
    of the interval, which becomes the THICKNESS of the row, is not
    negative. *)
Theorem merged_row_interval_contains_depth (well : string)
    (segment : list Z) (lateral : Z) (section : layer)
    (rows : list segment_row) :
  get_md welsegs_table compsegs_table compdat_table well segment lateral
    section = Ok rows ->
  forall r, In r rows ->
    WELL r = well /\ isin segment (Segment r) = true /\
    (exists ws w,
       Schedule.content_of welsegs_table well = Some ws /\ In w ws /\
       isin segment (Schedule.TUBINGSEGMENT w) = true /\
       Segment r = Schedule.TUBINGSEGMENT w /\
       MD r = Schedule.TUBINGMD w /\
       DIAMETER r = Schedule.TUBINGID w) /\
    STARTMD r <= MD r - interval_of section /\
    MD r - interval_of section <= ENDMD r /\
    0 <= ENDMD r - STARTMD r.
Proof.
  unfold get_md.
  destruct (Schedule.content_of welsegs_table well) as [ws|] eqn:Ews;
    [|discriminate].
  destruct (Schedule.content_of compsegs_table well) as [cs|]; [|discriminate].
  cbn [Py.bind].
  destruct (select_lateral cs lateral) as [branch|e]; [|discriminate].
  cbn [Py.bind].
  destruct (Py.traverse _ _) as [located|e] eqn:Et; [|discriminate].
  cbn [Py.bind]. intros [= <-] r Hr.
  apply in_flat_map in Hr. destruct Hr as ((w & c) & Hwc & Hr).
  cbn [fst snd] in Hr.
  destruct (located_pairs _ _ _ Et) as (Hfst & Hloc).
  assert (Hw : In w (filter (fun r => isin segment (Schedule.TUBINGSEGMENT r))
                       ws)).
  { rewrite <- Hfst. apply (in_map fst _ _ Hwc). }
  apply filter_In in Hw. destruct Hw as (Hws & Hsel).
  pose proof (locate_first branch (Schedule.TUBINGSEGMENT w)
                (Schedule.TUBINGMD w - interval_of section)) as Hfirst.
  rewrite (Hloc w c Hwc) in Hfirst.
  destruct Hfirst as (_ & _ & _ & (Hlo & Hhi) & _).
  destruct (join_row_copies _ _ _ _ _ Hr) as (Hs & H1 & H2 & _).
  destruct (join_row_depth _ _ _ _ _ Hr) as (Hwell & Hmd & Hd).
  rewrite Hs, H1, H2, Hmd.
  split; [exact Hwell|]. split; [exact Hsel|].
  split.
  { exists ws, w. split; [reflexivity|]. split; [exact Hws|].
    split; [exact Hsel|]. rewrite Hd. repeat split. }
  split; [exact Hlo|]. split; [exact Hhi|]. lra.
Qed.

(** X9: when no cell has more than one COMPDAT record for the well, the
    table of [get_md] has exactly one row per WELSEGS row of the
    selection, in the order of WELSEGS (not in the order of the segment
    numbers asked for). *)
Theorem merged_rows_follow_welsegs_order (well : string)
    (segment : list Z) (lateral : Z) (section : layer)
    (ws : list Schedule.welsegs_row) (rows : list segment_row) :
  (forall i j k,
     (length (filter (same_cell i j k)
                (filter (fun d => String.eqb (Schedule.dWELL d) well)
                   compdat_table)) <= 1)%nat) ->
  Schedule.content_of welsegs_table well = Some ws ->
  get_md welsegs_table compsegs_table compdat_table well segment lateral
    section = Ok rows ->
  map Segment rows
  = map Schedule.TUBINGSEGMENT
      (filter (fun r => isin segment (Schedule.TUBINGSEGMENT r)) ws) /\
  map MD rows
  = map Schedule.TUBINGMD
      (filter (fun r => isin segment (Schedule.TUBINGSEGMENT r)) ws).
Proof.
  intros Hone Hws. unfold get_md. rewrite Hws.
  destruct (Schedule.content_of compsegs_table well) as [cs|]; [|discriminate].
  cbn [Py.bind].
  destruct (select_lateral cs lateral) as [branch|e]; [|discriminate].
  cbn [Py.bind].
  destruct (Py.traverse _ _) as [located|e] eqn:Et; [|discriminate].
  cbn [Py.bind]. intros [= <-].
  destruct (located_pairs _ _ _ Et) as (Hfst & _).
  rewrite <- Hfst. clear Et Hfst.
  induction located as [|(w & c) located IH]; [split; reflexivity|].
  cbn [flat_map map fst snd]. rewrite !map_app.
  destruct IH as (IH1 & IH2). rewrite IH1, IH2.
  unfold join_row.
  specialize (Hone (Schedule.I c) (Schedule.J c) (Schedule.K c)).
  destruct (filter (same_cell _ _ _) _) as [|m [|m' ms]];
    [split; reflexivity | split; reflexivity | simpl in Hone; lia].
Qed.

End MergeRows.

(** X8 on the first device row of the example well. *)
Lemma merged_row_interval_example :
  let r := hd Example.no_segment_row Example.device_merge in
  Merge.WELL r = "A-1"%string /\
  isin [6; 7; 8; 9]%Z (Merge.Segment r) = true /\
  (exists ws w,
     Schedule.content_of Example.welsegs_table "A-1" = Some ws /\ In w ws /\
     isin [6; 7; 8; 9]%Z (Schedule.TUBINGSEGMENT w) = true /\
     Merge.Segment r = Schedule.TUBINGSEGMENT w /\
     Merge.MD r = Schedule.TUBINGMD w /\
     Merge.DIAMETER r = Schedule.TUBINGID w) /\
  Merge.STARTMD r <= Merge.MD r - Merge.interval_of Merge.device /\
  Merge.MD r - Merge.interval_of Merge.device <= Merge.ENDMD r /\
  0 <= Merge.ENDMD r - Merge.STARTMD r.
Proof.
  apply (merged_row_interval_contains_depth Example.welsegs_table
           Example.compsegs_table Example.compdat_table "A-1"%string
           [6; 7; 8; 9]%Z 1%Z Merge.device Example.device_merge).
  - reflexivity.
  - left. reflexivity.
Defined.

Lemma example_one_record_per_cell (i j k : Z) :
  (length (filter (Merge.same_cell i j k)
             (filter (fun d => String.eqb (Schedule.dWELL d) "A-1")
                Example.compdat_table)) <= 1)%nat.
Proof.
  unfold Example.compdat_table, Example.compdat, Merge.same_cell.
  cbn [filter Schedule.dWELL]. simpl String.eqb.
  cbn [filter Schedule.dI Schedule.dJ Schedule.dK].
  destruct (Z.eqb 10 i), (Z.eqb 10 j); cbn [andb length]; try lia.
  destruct (Z.eqb_spec 1 k), (Z.eqb_spec 2 k), (Z.eqb_spec 3 k),
    (Z.eqb_spec 4 k); cbn [length]; lia.
Qed.

(** X9 on the device segments of the example well. *)
Lemma merged_rows_follow_welsegs_order_example :
  map Merge.Segment Example.device_merge
  = map Schedule.TUBINGSEGMENT
      (filter (fun r => isin [6; 7; 8; 9]%Z (Schedule.TUBINGSEGMENT r))
         (snd (hd ("A-1"%string, []) Example.welsegs_table))) /\
  map Merge.MD Example.device_merge
  = map Schedule.TUBINGMD
      (filter (fun r => isin [6; 7; 8; 9]%Z (Schedule.TUBINGSEGMENT r))
         (snd (hd ("A-1"%string, []) Example.welsegs_table))).
Proof.
  apply (merged_rows_follow_welsegs_order Example.welsegs_table
           Example.compsegs_table Example.compdat_table "A-1"%string
           [6; 7; 8; 9]%Z 1%Z Merge.device
           (snd (hd ("A-1"%string, []) Example.welsegs_table))
           Example.device_merge).
  - exact example_one_record_per_cell.
  - reflexivity.
  - reflexivity.
Defined.

(** ** What a well selection holds *)

Section SelectionFacts.

Import Info.

Local Open Scope string_scope.

Variable py_int : string -> option Z.
Variable py_float : string -> option Q.

(** A run of consecutive integers. *)
Let run (l : list Z) : Prop :=
  forall i, (S i < length l)%nat -> nth (S i) l 0%Z = (nth i l 0 + 1)%Z.

Lemma split_nonempty (sep : ascii) (s : string) : split sep s <> [].
Proof.
  destruct s as [|c s]; simpl; [discriminate|].
  destruct (Ascii.eqb c sep); [discriminate|].
  destruct (split sep s); discriminate.
Qed.

Lemma arange_nth (start stop : Z) (i : nat) :
  (i < length (arange start stop))%nat ->
  nth i (arange start stop) 0%Z = (start + Z.of_nat i)%Z.
Proof.
  intros Hi. unfold arange in *. rewrite length_map, length_seq in Hi.
  rewrite (nth_indep _ 0%Z (start + Z.of_nat 0)%Z)
    by (rewrite length_map, length_seq; exact Hi).
  rewrite (map_nth (fun i => (start + Z.of_nat i)%Z)).
  rewrite seq_nth by exact Hi. reflexivity.
Qed.

Lemma arange_run (start stop : Z) : run (arange start stop).
Proof.
  intros i Hi. rewrite !arange_nth by lia. lia.
Qed.

Lemma single_run (z : Z) : run [z].
Proof. intros i Hi. simpl in Hi. lia. Qed.

Lemma interval_run (content : list string) (l : list Z) :
  interval py_int content = Ok l -> run l.
Proof.
  unfold interval, int.
  destruct (py_int (nth 0 content "")); simpl; [|discriminate].
  destruct (py_int (nth 1 content "")); simpl; [|discriminate].
  intros [= <-]. apply arange_run.
Qed.

Lemma read_tubing_run (content : string) (l : list Z) :
  snd (read_tubing py_int content) = Ok l -> run l.
Proof.
  unfold read_tubing. destruct (String.eqb content "1*").
  - intros [= <-]. apply single_run.
  - destruct (negb _); [discriminate|]. apply interval_run.
Qed.

Lemma read_device_run (tubing : list Z) (content : string) (l : list Z) :
  read_device py_int tubing content = Ok l ->
  run l /\ (length l = length tubing \/
            (content = "1*" /\ l = [0%Z])).
Proof.
  unfold read_device. destruct (String.eqb_spec content "1*") as [->|_].
  - intros [= <-]. split; [apply single_run | right; split; reflexivity].
  - destruct (length (split "-" content) =? 2)%nat; [|discriminate].
    destruct (interval py_int (split "-" content)) as [device|e] eqn:Ei;
      [|discriminate].
    cbn [Py.bind].
    destruct (Nat.eqb_spec (length tubing) (length device)) as [E|E];
      [|discriminate].
    intros [= <-]. split; [exact (interval_run _ _ Ei) | left; lia].
Qed.

Lemma read_annulus_run (content : string) (l : list Z) :
  read_annulus py_int content = Ok l -> run l.
Proof.
  unfold read_annulus. destruct (String.eqb content "1*").
  - intros [= <-]. apply single_run.
  - destruct (_ =? _)%nat; [apply interval_run | discriminate].
Qed.

Lemma read_days_nonempty (content : string) (l : list Q) :
  snd (read_days py_float content) = Ok l -> l <> [].
Proof.
  unfold read_days. destruct (String.eqb content "1*").
  - intros [= <-]. discriminate.
  - cbn [snd]. intros Ht Hnil. subst l.
    apply traverse_length in Ht.
    destruct (split "-" content) eqn:Es; [|discriminate].
    exact (split_nonempty _ _ Es).
Qed.

(** X10: whenever [get_info_per_well] returns a selection, each of its
    three segment lists is a run of consecutive segment numbers (possibly
    empty, when an interval ends below its start), there is at least one
    requested day, and the device list is as long as the tubing list
    unless the device column is "1*", in which case it is the single
    entry 0 whatever the tubing list is. *)
Theorem well_selection_is_consistent (information : list information_row)
    (well : string) (lateral : Z) (info : well_info) :
  snd (get_info_per_well py_int py_float information well lateral) = Ok info ->
  (forall i, (S i < length (tubing_segment info))%nat ->
     nth (S i) (tubing_segment info) 0%Z
     = (nth i (tubing_segment info) 0 + 1)%Z) /\
  (forall i, (S i < length (device_segment info))%nat ->
     nth (S i) (device_segment info) 0%Z
     = (nth i (device_segment info) 0 + 1)%Z) /\
  (forall i, (S i < length (annulus_segment info))%nat ->
     nth (S i) (annulus_segment info) 0%Z
     = (nth i (annulus_segment info) 0 + 1)%Z) /\
  my_days info <> [] /\
  (length (device_segment info) = length (tubing_segment info) \/
   device_segment info = [0%Z]).
Proof.
  unfold get_info_per_well.
  destruct (filter _ (filter _ information)) as [|row others];
    [discriminate|].
  destruct (read_tubing py_int (TUBINGSEGMENT row)) as [out1 [tubing|e]] eqn:Et;
    [|discriminate].
  destruct (read_device py_int tubing (DEVICESEGMENT row)) as [device|e] eqn:Ed;
    [|discriminate].
  destruct (read_annulus py_int (ANNULUSSEGMENT row)) as [annulus|e] eqn:Ea;
    [|discriminate].
  destruct (read_days py_float (DAYS row)) as [out2 [days|e]] eqn:Edays;
    [|discriminate].
  cbn [snd Py.bind]. intros [= <-]. cbn [tubing_segment device_segment
                                          annulus_segment my_days].
  assert (Ht : run tubing).
  { apply (read_tubing_run (TUBINGSEGMENT row)). rewrite Et. reflexivity. }
  destruct (read_device_run _ _ _ Ed) as (Hd & Hcount).
  pose proof (read_annulus_run _ _ Ea) as Han.
  assert (Hdays : days <> []).
  { apply (read_days_nonempty (DAYS row)). rewrite Edays. reflexivity. }
  split; [exact Ht|]. split; [exact Hd|]. split; [exact Han|].
  split; [exact Hdays|].
  destruct Hcount as [E|(_ & E)]; [left; exact E | right; exact E].
Qed.

End SelectionFacts.

(** X10 on a line of the example well with the device column "1*". *)
Lemma well_selection_example :
  let info :=
    {| Info.tubing_segment := [2; 3; 4; 5]%Z;
       Info.device_segment := [0%Z];
       Info.annulus_segment := [10; 11; 12]%Z;
       Info.my_days := [10; 15] |} in
  (forall i, (S i < length (Info.tubing_segment info))%nat ->
     nth (S i) (Info.tubing_segment info) 0%Z
     = (nth i (Info.tubing_segment info) 0 + 1)%Z) /\
  (forall i, (S i < length (Info.device_segment info))%nat ->
     nth (S i) (Info.device_segment info) 0%Z
     = (nth i (Info.device_segment info) 0 + 1)%Z) /\
  (forall i, (S i < length (Info.annulus_segment info))%nat ->
     nth (S i) (Info.annulus_segment info) 0%Z
     = (nth i (Info.annulus_segment info) 0 + 1)%Z) /\
  Info.my_days info <> [] /\
  (length (Info.device_segment info) = length (Info.tubing_segment info) \/
   Info.device_segment info = [0%Z]).
Proof.
  apply (well_selection_is_consistent Example.py_int Example.py_float
           [Example.info_line "2-5" "1*" "10-12" "10-15"] "A-1"%string 1%Z).
  reflexivity.
Defined.

(** ** The layout of the per-segment table *)

Section FrameKeys.

Import Assemble Layout.

Lemma for_each_invariant {A S : Type} (P : S -> Prop) (xs : list A)
    (body : S -> A -> result S) :
  (forall s x s', In x xs -> P s -> body s x = Ok s' -> P s') ->
  forall s s', P s -> Py.for_each xs body s = Ok s' -> P s'.
Proof.
  induction xs as [|x xs IH]; intros Hbody s s' Hs; simpl.
  - intros [= <-]. exact Hs.
  - destruct (body s x) as [s1|e] eqn:Eb; [|discriminate]. cbn [Py.bind].
    apply IH.
    + intros s0 x0 s0' Hx. apply Hbody. right. exact Hx.
    + apply (Hbody s x s1); [left; reflexivity | exact Hs | exact Eb].
Qed.

Lemma key_map (g : row -> row) (df : frame) :
  (forall r, key (g r) = key r) -> map key (map g df) = map key df.
Proof.
  intros Hg. rewrite map_map. apply map_ext. exact Hg.
Qed.

Lemma key_set_column (c : column) (value : list Q) (df df' : frame) :
  set_column c value df = Ok df' -> map key df' = map key df.
Proof.
  unfold set_column.
  destruct (Nat.eqb_spec (length value) (length df)) as [Hlen|_];
    [|discriminate].
  intros [= <-]. revert value Hlen.
  induction df as [|r df IH]; intros [|v value] Hlen; try discriminate;
    [reflexivity|].
  cbn [combine map]. rewrite IH by (simpl in Hlen; lia). reflexivity.
Qed.

Lemma key_fill_column (c : column) (v : Q) (df : frame) :
  map key (fill_column c v df) = map key df.
Proof. apply key_map. reflexivity. Qed.

Lemma key_add_swct (df : frame) : map key (add_swct df) = map key df.
Proof.
  apply key_map. intros r.
  destruct (lookup SWFR (values r)); [|reflexivity].
  destruct (lookup SOFR (values r)); reflexivity.
Qed.

Lemma key_add_sgor (df : frame) : map key (add_sgor df) = map key df.
Proof.
  apply key_map. intros r.
  destruct (lookup SGFRF (values r)); [|reflexivity].
  destruct (lookup SOFR (values r)); reflexivity.
Qed.

Lemma key_cast_static (df : frame) : map key (cast_static df) = map key df.
Proof.
  unfold cast_static.
  destruct (Merge.astype_float64 (map CF df));
    destruct (Merge.astype_float64 _);
    rewrite ?key_map; reflexivity.
Qed.

Lemma key_stack (well : string) (s : section) (d : date) (n : nat)
    (np_segment : list Z) (welsegs : list Merge.segment_row) (df : frame) :
  stack well s d n np_segment welsegs = Ok df ->
  n = length np_segment /\
  map key df = map (fun seg => (well, s, d, seg)) np_segment.
Proof.
  unfold stack.
  destruct (Nat.eqb_spec n (length np_segment)) as [Hn|_]; [|discriminate].
  destruct (Nat.eqb_spec n (length welsegs)) as [Hw|_]; [|discriminate].
  cbn [andb]. intros [= <-]. split; [exact Hn|].
  assert (Hlen : length np_segment = length welsegs) by lia.
  clear Hn Hw. revert welsegs Hlen.
  induction np_segment as [|seg segs IH]; intros [|w ws] Hlen;
    try discriminate; [reflexivity|].
  cbn [combine map]. rewrite IH by (simpl in Hlen; lia). reflexivity.
Qed.

Variable welsegs_table : Schedule.collection Schedule.welsegs_row.
Variable compsegs_table : Schedule.collection Schedule.compsegs_row.
Variable compdat_table : list Schedule.compdat_row.
Variable numpy_vector : column -> string -> Z -> result (list Q).
Variable eclipse_dates : list date.
Variable annulus_inflow :
  column -> frame -> frame -> list Packer.zone_row -> frame
  -> result (list Q).
Variable well : string.
Variable lateral : Z.
Variable tubing_segment device_segment annulus_segment : list Z.
Variable df_annulus_zone : list Packer.zone_row.

Let dated (idx : nat) (d : date) : Prop := Py.index eclipse_dates idx = Ok d.

Let keys_of (s : section) (segments : list Z) (d : date) :=
  map (fun seg => (well, s, d, seg)) segments.

Lemma key_raw_frame (s : section) (l : Merge.layer) (np_segment : list Z)
    (idx : nat) (df : frame) :
  raw_frame welsegs_table compsegs_table compdat_table numpy_vector
    eclipse_dates well lateral s l np_segment idx = Ok df ->
  exists d, dated idx d /\ map key df = keys_of s np_segment d.
Proof.
  unfold raw_frame, dated.
  destruct (Py.index eclipse_dates idx) as [d|e]; [|discriminate].
  cbn [Py.bind].
  destruct (get_md _ _ _ _ _ _ _) as [welsegs|e]; [|discriminate].
  cbn [Py.bind].
  destruct (stack _ _ _ _ _ _) as [df0|e] eqn:Es; [|discriminate].
  cbn [Py.bind].
  destruct (Py.for_each _ _ df0) as [df1|e] eqn:Ef; [|discriminate].
  cbn [Py.bind]. intros [= <-]. exists d. split; [reflexivity|].
  rewrite key_add_sgor, key_add_swct.
  destruct (key_stack _ _ _ _ _ _ _ Es) as (_ & Hk).
  unfold keys_of. rewrite <- Hk.
  eapply (for_each_invariant (fun df => map key df = map key df0));
    [|reflexivity | exact Ef].
  intros df keyword df' _ Hdf Hbody. cbn beta in *.
  destruct (series _ _ _ _ _) as [value|e]; [|discriminate].
  cbn [Py.bind] in Hbody. rewrite (key_set_column _ _ _ _ Hbody). exact Hdf.
Qed.

Lemma key_tubing_frame (df_all : option frame) (idx : nat) (df : frame) :
  tubing_frame welsegs_table compsegs_table compdat_table numpy_vector
    eclipse_dates well lateral tubing_segment df_all idx = Ok df ->
  exists d, dated idx d /\ map key df = keys_of Tubing tubing_segment d.
Proof.
  unfold tubing_frame, dated.
  destruct (Py.index eclipse_dates idx) as [d|e]; [|discriminate].
  cbn [Py.bind].
  destruct (get_md _ _ _ _ _ _ _) as [welsegs|e]; [|discriminate].
  cbn [Py.bind].
  destruct (stack _ _ _ _ _ _) as [df0|e] eqn:Es; [|discriminate].
  cbn [Py.bind].
  destruct (Py.for_each _ _ df0) as [df1|e] eqn:Ef; [|discriminate].
  cbn [Py.bind]. intros [= <-]. exists d. split; [reflexivity|].
  rewrite key_add_sgor, key_add_swct.
  destruct (key_stack _ _ _ _ _ _ _ Es) as (_ & Hk).
  unfold keys_of. rewrite <- Hk.
  eapply (for_each_invariant (fun df => map key df = map key df0));
    [|reflexivity | exact Ef].
  intros df keyword df' _ Hdf Hbody. unfold tubing_column in Hbody.
  destruct (negb _).
  - destruct (series _ _ _ _ _) as [value|e]; [|discriminate].
    cbn [Py.bind] in Hbody. rewrite (key_set_column _ _ _ _ Hbody). exact Hdf.
  - destruct (bound df_all) as [all|e]; [|discriminate].
    cbn [Py.bind] in Hbody.
    destruct (column_values _ _) as [rate|e]; [|discriminate].
    cbn [Py.bind] in Hbody.
    destruct (tubing_rate _ _) as [value|e]; [|discriminate].
    cbn [Py.bind] in Hbody. rewrite (key_set_column _ _ _ _ Hbody). exact Hdf.
Qed.

Lemma key_reservoir_frame (df_all : frame) (idx : nat) (df : frame) :
  reservoir_frame welsegs_table compsegs_table compdat_table numpy_vector
    eclipse_dates annulus_inflow well lateral tubing_segment device_segment
    annulus_segment df_annulus_zone df_all idx = Ok df ->
  length device_segment = length tubing_segment /\
  exists d, dated idx d /\ map key df = keys_of Reservoir tubing_segment d.
Proof.
  unfold reservoir_frame, dated.
  destruct (Py.index eclipse_dates idx) as [d|e]; [|discriminate].
  cbn [Py.bind].
  destruct (get_md _ _ _ _ _ _ _) as [welsegs|e]; [|discriminate].
  cbn [Py.bind].
  destruct (stack _ _ _ _ _ _) as [df0|e] eqn:Es; [|discriminate].
  cbn [Py.bind].
  destruct (Py.for_each _ _ df0) as [df1|e] eqn:Ef; [|discriminate].
  cbn [Py.bind]. intros [= <-].
  destruct (key_stack _ _ _ _ _ _ _ Es) as (Hn & Hk).
  split; [exact Hn|]. exists d. split; [reflexivity|].
  rewrite key_add_sgor, key_add_swct. unfold keys_of. rewrite <- Hk.
  eapply (for_each_invariant (fun df => map key df = map key df0));
    [|reflexivity | exact Ef].
  intros df keyword df' _ Hdf Hbody. unfold reservoir_column in Hbody.
  destruct keyword;
    try (injection Hbody as <-; rewrite ?key_fill_column; exact Hdf);
    (destruct (n_annulus annulus_segment =? 1)%nat;
     [ destruct (column_values _ _) as [rate|e]; [|discriminate];
       cbn [Py.bind] in Hbody;
       rewrite (key_set_column _ _ _ _ Hbody); exact Hdf
     | destruct df_annulus_zone; [discriminate|];
       destruct (annulus_inflow _ _ _ _ _) as [value|e]; [|discriminate];
       cbn [Py.bind] in Hbody;
       rewrite (key_set_column _ _ _ _ Hbody); exact Hdf ]).
Qed.

End FrameKeys.

Section FrameLayout.

Import Assemble Layout.

Variable welsegs_table : Schedule.collection Schedule.welsegs_row.
Variable compsegs_table : Schedule.collection Schedule.compsegs_row.
Variable compdat_table : list Schedule.compdat_row.
Variable numpy_vector : column -> string -> Z -> result (list Q).
Variable eclipse_dates : list date.
Variable annulus_inflow :
  column -> frame -> frame -> list Packer.zone_row -> frame
  -> result (list Q).
Variable well : string.
Variable lateral : Z.
Variable tubing_segment device_segment annulus_segment : list Z.
Variable my_days_idx : list nat.
Variable df_annulus_zone : list Packer.zone_row.

Let dated (idx : nat) (d : date) : Prop := Py.index eclipse_dates idx = Ok d.

Lemma dated_functional (idxs : list nat) (ds1 ds2 : list date) :
  Forall2 dated idxs ds1 -> Forall2 dated idxs ds2 -> ds1 = ds2.
Proof.
  intros H1. revert ds2. induction H1 as [|idx d idxs ds1 Hd _ IH];
    intros ds2 H2; inversion H2 as [|? d' ? ds2' Hd' H2']; subst;
    [reflexivity|].
  unfold dated in *. rewrite Hd in Hd'. injection Hd' as <-.
  f_equal. apply IH. exact H2'.
Qed.

Lemma block_cons (s : section) (segments : list Z) (d : date)
    (dates : list date) :
  block well s segments (d :: dates)
  = (map (fun seg => (well, s, d, seg)) segments
     ++ block well s segments dates)%list.
Proof. reflexivity. Qed.

(** A section that appends one frame per requested day to [df_all]. *)
Lemma accumulate_keys (F : option frame -> nat -> result frame)
    (s : section) (segments : list Z) :
  (forall acc idx df,
     F acc idx = Ok df ->
     exists d, dated idx d /\
               map key df = map (fun seg => (well, s, d, seg)) segments) ->
  forall idxs acc o,
    Py.for_each idxs
      (fun df_all idx =>
         data_frame <- F df_all idx ;;
         all <- bound df_all ;;
         Ok (Some (all ++ data_frame)%list)) acc = Ok o ->
    match acc with
    | Some df0 =>
        exists dates df,
          o = Some df /\ Forall2 dated idxs dates /\
          map key df = (map key df0 ++ block well s segments dates)%list
    | None => idxs = [] /\ o = None
    end.
Proof.
  intros HF. induction idxs as [|idx idxs IH]; intros acc o; cbn [Py.for_each].
  - intros [= <-]. destruct acc as [df0|]; [|split; reflexivity].
    exists [], df0. repeat split; [constructor|].
    unfold block. simpl. rewrite app_nil_r. reflexivity.
  - destruct (F acc idx) as [df1|e] eqn:EF; [|discriminate]. cbn [Py.bind].
    destruct acc as [df0|]; [|discriminate]. cbn [bound Py.bind].
    intros Hrest. specialize (IH _ _ Hrest). cbn beta iota in IH.
    destruct IH as (dates & df & -> & Hdates & Hkeys).
    destruct (HF _ _ _ EF) as (d & Hd & Hk1).
    exists (d :: dates), df. split; [reflexivity|].
    split; [constructor; assumption|].
    rewrite Hkeys, map_app, Hk1, block_cons, app_assoc. reflexivity.
Qed.

Lemma device_loop_keys (idxs : list nat) :
  forall (i : nat) (df0 : frame) (o : option frame),
    (1 <= i)%nat ->
    Py.for_each (enumerate_from i idxs)
      (fun df_all ix =>
         data_frame <- raw_frame welsegs_table compsegs_table compdat_table
                         numpy_vector eclipse_dates well lateral Device
                         Merge.device device_segment (snd ix) ;;
         if (fst ix =? 0)%nat then Ok (Some data_frame)
         else all <- bound df_all ;; Ok (Some (all ++ data_frame)%list))
      (Some df0) = Ok o ->
    exists dates df,
      o = Some df /\ Forall2 dated idxs dates /\
      map key df = (map key df0 ++ block well Device device_segment dates)%list.
Proof.
  induction idxs as [|idx idxs IH]; intros i df0 o Hi;
    cbn [enumerate_from Py.for_each].
  - intros [= <-]. exists [], df0. repeat split; [constructor|].
    unfold block. simpl. rewrite app_nil_r. reflexivity.
  - cbn [fst snd].
    destruct (raw_frame _ _ _ _ _ _ _ _ _ _ _) as [df1|e] eqn:EF;
      [|discriminate].
    cbn [Py.bind]. destruct (Nat.eqb_spec i 0) as [->|_]; [lia|].
    cbn [bound Py.bind]. intros Hrest.
    destruct (IH (S i) _ _ ltac:(lia) Hrest) as (dates & df & -> & Hd & Hk).
    destruct (key_raw_frame _ _ _ _ _ _ _ _ _ _ _ _ EF) as (d & Hdate & Hk1).
    exists (d :: dates), df. split; [reflexivity|].
    split; [constructor; assumption|].
    rewrite Hk, map_app, Hk1, block_cons, app_assoc. reflexivity.
Qed.

Lemma device_section_keys (o : option frame) :
  device_section welsegs_table compsegs_table compdat_table numpy_vector
    eclipse_dates well lateral device_segment my_days_idx = Ok o ->
  match o with
  | None => True
  | Some df =>
      (1 < length device_segment)%nat /\ my_days_idx <> [] /\
      exists dates,
        Forall2 dated my_days_idx dates /\
        map key df = block well Device device_segment dates
  end.
Proof.
  unfold device_section, n_device.
  destruct (Nat.ltb_spec 1 (length device_segment)) as [Hn|_];
    [|intros [= <-]; exact I].
  destruct my_days_idx as [|idx idxs]; cbn [enumerate_from Py.for_each];
    [intros [= <-]; exact I|].
  cbn [fst snd].
  destruct (raw_frame _ _ _ _ _ _ _ _ _ _ _) as [df1|e] eqn:EF;
    [|discriminate].
  cbn [Py.bind Nat.eqb]. intros Hrest.
  destruct (device_loop_keys idxs 1 _ _ (le_n 1) Hrest)
    as (dates & df & -> & Hd & Hk).
  destruct (key_raw_frame _ _ _ _ _ _ _ _ _ _ _ _ EF) as (d & Hdate & Hk1).
  split; [exact Hn|]. split; [discriminate|].
  exists (d :: dates). split; [constructor; assumption|].
  rewrite Hk, Hk1, block_cons. reflexivity.
Qed.

Lemma reservoir_section_keys (idxs : list nat) :
  forall (df0 df : frame),
    Py.for_each idxs
      (fun df_all idx =>
         data_frame <- reservoir_frame welsegs_table compsegs_table
                         compdat_table numpy_vector eclipse_dates
                         annulus_inflow well lateral tubing_segment
                         device_segment annulus_segment df_annulus_zone
                         df_all idx ;;
         Ok (df_all ++ data_frame)%list) df0 = Ok df ->
    (idxs <> [] -> length device_segment = length tubing_segment) /\
    exists dates,
      Forall2 dated idxs dates /\
      map key df
      = (map key df0 ++ block well Reservoir tubing_segment dates)%list.
Proof.
  induction idxs as [|idx idxs IH]; intros df0 df; cbn [Py.for_each].
  - intros [= <-]. split; [congruence|]. exists []. split; [constructor|].
    unfold block. simpl. rewrite app_nil_r. reflexivity.
  - destruct (reservoir_frame _ _ _ _ _ _ _ _ _ _ _ _ _ _) as [df1|e] eqn:EF;
      [|discriminate].
    cbn [Py.bind]. intros Hrest.
    destruct (IH _ _ Hrest) as (_ & dates & Hd & Hk).
    destruct (key_reservoir_frame _ _ _ _ _ _ _ _ _ _ _ _ _ _ _ EF)
      as (Hn & d & Hdate & Hk1).
    split; [intros _; exact Hn|].
    exists (d :: dates). split; [constructor; assumption|].
    rewrite Hk, map_app, Hk1, block_cons, app_assoc. reflexivity.
Qed.

(** X11: the table of [get_data], when it is built, is laid out by
    section: first the device rows, then the tubing rows, then the annulus
    rows (only with more than one annulus segment), then the reservoir
    rows; within a section there is one batch per requested day, in the
    order of the days, and within a batch one row per segment of the
    selection, in its order, the reservoir rows carrying the tubing
    segments.  A table is built only with more than one device segment,
    as many device as tubing segments, and at least one day. *)
Theorem segment_table_layout (df : frame) :
  snd (get_data welsegs_table compsegs_table compdat_table numpy_vector
         eclipse_dates annulus_inflow well lateral tubing_segment
         device_segment annulus_segment my_days_idx df_annulus_zone) = Ok df ->
  (1 < length device_segment)%nat /\
  length device_segment = length tubing_segment /\
  my_days_idx <> [] /\
  exists dates,
    Forall2 (fun idx d => Py.index eclipse_dates idx = Ok d) my_days_idx dates
    /\
    map key df
    = (block well Device device_segment dates
       ++ block well Tubing tubing_segment dates
       ++ (if (1 <? length annulus_segment)%nat
           then block well Annulus annulus_segment dates else [])
       ++ block well Reservoir tubing_segment dates)%list.
Proof.
  unfold get_data. cbn [snd].
  destruct (device_section _ _ _ _ _ _ _ _ _) as [o1|e] eqn:Edev;
    [|discriminate].
  cbn [Py.bind].
  destruct (tubing_section _ _ _ _ _ _ _ _ _ _) as [o2|e] eqn:Etub;
    [|discriminate].
  cbn [Py.bind].
  destruct (annulus_section _ _ _ _ _ _ _ _ _ _) as [o3|e] eqn:Eann;
    [|discriminate].
  cbn [Py.bind].
  destruct o3 as [df3|]; [|discriminate]. cbn [bound Py.bind].
  destruct (reservoir_section _ _ _ _ _ _ _ _ _ _ _ _ _ _)
    as [df4|e] eqn:Eres; [|discriminate].
  cbn [Py.bind]. intros [= <-].
  pose proof (device_section_keys _ Edev) as Hdev.
  unfold tubing_section in Etub.
  pose proof (accumulate_keys
                (fun df_all idx =>
                   tubing_frame welsegs_table compsegs_table compdat_table
                     numpy_vector eclipse_dates well lateral tubing_segment
                     df_all idx)
                Tubing tubing_segment
                (fun acc idx df0 => key_tubing_frame _ _ _ _ _ _ _ _ _ _ _)
                _ _ _ Etub) as Htub.
  assert (Hann : match o2 with
                 | Some df0 =>
                     exists dates,
                       Forall2 dated my_days_idx dates /\
                       map key df3
                       = (map key df0
                          ++ (if (1 <? length annulus_segment)%nat
                              then block well Annulus annulus_segment dates
                              else []))%list
                 | None => False
                 end).
  { unfold annulus_section, n_annulus in Eann.
    destruct (1 <? length annulus_segment)%nat.
    - pose proof (accumulate_keys
                    (fun _ idx =>
                       raw_frame welsegs_table compsegs_table compdat_table
                         numpy_vector eclipse_dates well lateral Annulus
                         Merge.annulus annulus_segment idx)
                    Annulus annulus_segment
                    (fun acc idx df0 =>
                       key_raw_frame _ _ _ _ _ _ _ _ _ _ _ _)
                    _ _ _ Eann) as Ha.
      destruct o2 as [df0|]; [|destruct Ha; discriminate].
      destruct Ha as (dates & df & [= <-] & Hd & Hk).
      exists dates. split; assumption.
    - injection Eann as ->.
      destruct o1 as [df1|].
      + destruct Htub as (dates & df & [= <-] & Hd & _).
        exists dates. split; [exact Hd | rewrite app_nil_r; reflexivity].
      + destruct Htub as (_ & [=]). }
  destruct o1 as [df1|]; [|destruct Htub as (_ & ->); destruct Hann].
  destruct Hdev as (Hn & Hdays & dates & Hd & Hk1).
  destruct Htub as (dates2 & df2 & -> & Hd2 & Hk2).
  destruct Hann as (dates3 & Hd3 & Hk3).
  unfold reservoir_section in Eres.
  destruct (reservoir_section_keys _ _ _ Eres) as (Hcount & dates4 & Hd4 & Hk4).
  rewrite (dated_functional _ _ _ Hd2 Hd) in *.
  rewrite (dated_functional _ _ _ Hd3 Hd) in *.
  rewrite (dated_functional _ _ _ Hd4 Hd) in *.
  split; [exact Hn|]. split; [exact (Hcount Hdays)|]. split; [exact Hdays|].
  exists dates. split; [exact Hd|].
  rewrite key_cast_static, Hk4, key_cast_static, Hk3, Hk2, Hk1.
  rewrite <- !app_assoc. reflexivity.
Qed.

End FrameLayout.

(** X11 on the table of the example well for report step 1. *)
Lemma segment_table_layout_example :
  (1 < length [6; 7; 8; 9]%Z)%nat /\
  length [6; 7; 8; 9]%Z = length [2; 3; 4; 5]%Z /\
  [1%nat] <> [] /\
  exists dates,
    Forall2 (fun idx d => Py.index Example.eclipse_dates idx = Ok d)
      [1%nat] dates /\
    map Layout.key Example.df_output
    = (Layout.block "A-1" Assemble.Device [6; 7; 8; 9]%Z dates
       ++ Layout.block "A-1" Assemble.Tubing [2; 3; 4; 5]%Z dates
       ++ (if (1 <? length [0%Z])%nat
           then Layout.block "A-1" Assemble.Annulus [0%Z] dates else [])
       ++ Layout.block "A-1" Assemble.Reservoir [2; 3; 4; 5]%Z dates)%list.
Proof.
  apply (segment_table_layout Example.welsegs_table Example.compsegs_table
           Example.compdat_table Example.numpy_vector Example.eclipse_dates
           Example.annulus_inflow "A-1"%string 1%Z [2; 3; 4; 5]%Z
           [6; 7; 8; 9]%Z [0%Z] [1%nat] [] Example.df_output).
  vm_compute. reflexivity.
Defined.

(** ** The static properties of the table *)

Section StaticColumns.

Import Assemble.

Lemma map_constant {A B C : Type} (c : C) (l : list A) (l' : list B) :
  length l = length l' -> map (fun _ => c) l = map (fun _ => c) l'.
Proof.
  revert l'. induction l as [|x l IH]; intros [|y l'] Hlen;
    try discriminate; [reflexivity|].
  cbn [map]. rewrite (IH l') by (simpl in Hlen; lia). reflexivity.
Qed.

Lemma forallb_constant {A C : Type} (p : C -> bool) (c : C) (l : list A) :
  p c = true -> forallb p (map (fun _ => c) l) = true.
Proof.
  intros Hc. induction l as [|x l IH]; [reflexivity|].
  cbn [map forallb]. rewrite Hc, IH. reflexivity.
Qed.

(** One cast of the two columns: a column with an entry that is no number
    is replaced as a whole. *)
Lemma cast_static_columns (df : frame) :
  length (cast_static df) = length df /\
  map CF (cast_static df)
  = (if forallb Merge.is_float (map CF df) then map CF df
     else map (fun _ => sentinel) df) /\
  map KH (cast_static df)
  = (if forallb Merge.is_float (map KH df) then map KH df
     else map (fun _ => sentinel) df).
Proof.
  unfold cast_static, Merge.astype_float64.
  destruct (forallb Merge.is_float (map CF df)) eqn:Ecf.
  - destruct (forallb Merge.is_float (map KH df)) eqn:Ekh.
    + repeat split.
    + rewrite length_map, !map_map. cbn [CF KH with_static].
      repeat split.
  - rewrite (map_map _ KH). cbn [KH with_static].
    change (map (fun x : row => KH x) df) with (map KH df).
    destruct (forallb Merge.is_float (map KH df)) eqn:Ekh.
    + rewrite length_map, !map_map. cbn [CF KH with_static].
      repeat split.
    + rewrite !length_map, !map_map. cbn [CF KH with_static].
      repeat split.
Qed.

(** The cast of the early rows, the reservoir rows appended, and the cast
    of the whole: a column of the table. *)
Lemma cast_in_two_steps (column : row -> Schedule.cell)
    (early late : frame) :
  (forall df,
     map column (cast_static df)
     = if forallb Merge.is_float (map column df) then map column df
       else map (fun _ => sentinel) df) ->
  map column (cast_static (cast_static early ++ late))
  = if forallb Merge.is_float (map column late)
    then ((if forallb Merge.is_float (map column early)
           then map column early
           else map (fun _ => sentinel) early) ++ map column late)%list
    else map (fun _ => sentinel) (early ++ late)%list.
Proof.
  intros Hcast. rewrite Hcast, map_app, forallb_app, (Hcast early).
  assert (Hfirst :
            forallb Merge.is_float
              (if forallb Merge.is_float (map column early)
               then map column early else map (fun _ => sentinel) early)
            = true).
  { destruct (forallb Merge.is_float (map column early)) eqn:E;
      [exact E | apply forallb_constant; reflexivity]. }
  rewrite Hfirst. cbn [andb].
  destruct (forallb Merge.is_float (map column late)); [reflexivity|].
  apply map_constant. rewrite !length_app.
  rewrite (proj1 (cast_static_columns early)). reflexivity.
Qed.

End StaticColumns.

Section StaticRows.

Import Assemble.

(** What a row has from the merge: its section, depth, interval and the
    two static properties. *)
Let origin : Type := (section * (Q * Q * Q) * (Schedule.cell * Schedule.cell)).

Let static (r : row) : origin :=
  (SECTION r, (MD r, STARTMD r, ENDMD r), (CF r, KH r)).

Lemma static_map (g : row -> row) (df : frame) :
  (forall r, static (g r) = static r) -> map static (map g df) = map static df.
Proof.
  intros Hg. rewrite map_map. apply map_ext. exact Hg.
Qed.

Lemma static_set_column (c : column) (value : list Q) (df df' : frame) :
  set_column c value df = Ok df' -> map static df' = map static df.
Proof.
  unfold set_column.
  destruct (Nat.eqb_spec (length value) (length df)) as [Hlen|_];
    [|discriminate].
  intros [= <-]. revert value Hlen.
  induction df as [|r df IH]; intros [|v value] Hlen; try discriminate;
    [reflexivity|].
  cbn [combine map]. rewrite IH by (simpl in Hlen; lia). reflexivity.
Qed.

Lemma static_fill_column (c : column) (v : Q) (df : frame) :
  map static (fill_column c v df) = map static df.
Proof. apply static_map. reflexivity. Qed.

Lemma static_add_swct (df : frame) : map static (add_swct df) = map static df.
Proof.
  apply static_map. intros r.
  destruct (lookup SWFR (values r)); [|reflexivity].
  destruct (lookup SOFR (values r)); reflexivity.
Qed.

Lemma static_add_sgor (df : frame) : map static (add_sgor df) = map static df.
Proof.
  apply static_map. intros r.
  destruct (lookup SGFRF (values r)); [|reflexivity].
  destruct (lookup SOFR (values r)); reflexivity.
Qed.

Lemma static_transfer (P : origin -> Prop) (df df0 : frame) :
  map static df = map static df0 ->
  Forall (fun r => P (static r)) df0 -> Forall (fun r => P (static r)) df.
Proof.
  intros Hsame Hall. apply Forall_map. rewrite Hsame. apply Forall_map.
  exact Hall.
Qed.

Lemma static_stack (well : string) (s : section) (d : date) (n : nat)
    (np_segment : list Z) (welsegs : list Merge.segment_row) (df : frame) :
  stack well s d n np_segment welsegs = Ok df ->
  Forall (fun r => exists w,
                     In w welsegs /\
                     static r
                     = (s, (Merge.MD w, Merge.STARTMD w, Merge.ENDMD w),
                        (Merge.CF w, Merge.KH w))) df.
Proof.
  unfold stack. destruct (_ && _)%bool; [|discriminate].
  intros [= <-]. apply Forall_forall. intros r Hr.
  apply in_map_iff in Hr. destruct Hr as ((seg & w) & <- & Hin).
  exists w. split; [exact (in_combine_r _ _ _ _ Hin) | reflexivity].
Qed.

Variable welsegs_table : Schedule.collection Schedule.welsegs_row.
Variable compsegs_table : Schedule.collection Schedule.compsegs_row.
Variable compdat_table : list Schedule.compdat_row.
Variable numpy_vector : column -> string -> Z -> result (list Q).
Variable eclipse_dates : list date.
Variable annulus_inflow :
  column -> frame -> frame -> list Packer.zone_row -> frame
  -> result (list Q).
Variable well : string.
Variable lateral : Z.
Variable tubing_segment device_segment annulus_segment : list Z.
Variable my_days_idx : list nat.
Variable df_annulus_zone : list Packer.zone_row.

(** [Layout.merged] on what a row has from the merge. *)
Let merged (s : section) (l : Merge.layer) (segments : list Z)
    (x : origin) : Prop :=
  let '(sec, (md, start_md, end_md), (cf, kh)) := x in
  sec = s /\
  exists rows w,
    Merge.get_md welsegs_table compsegs_table compdat_table well segments
      lateral l = Ok rows /\
    In w rows /\
    md = Merge.MD w /\ start_md = Merge.STARTMD w /\ end_md = Merge.ENDMD w /\
    cf = Merge.CF w /\ kh = Merge.KH w.

Let early_row (x : origin) : Prop :=
  merged Device Merge.device device_segment x \/
  merged Tubing Merge.tubing tubing_segment x \/
  merged Annulus Merge.annulus annulus_segment x.

Lemma merged_frame (s : section) (l : Merge.layer) (segments : list Z)
    (d : date) (n : nat) (welsegs : list Merge.segment_row)
    (df0 df : frame) :
  Merge.get_md welsegs_table compsegs_table compdat_table well segments
    lateral l = Ok welsegs ->
  stack well s d n segments welsegs = Ok df0 ->
  map static df = map static df0 ->
  Forall (fun r => merged s l segments (static r)) df.
Proof.
  intros Hmd Hstack Hsame.
  apply (static_transfer (merged s l segments) df df0 Hsame).
  eapply Forall_impl; [|exact (static_stack _ _ _ _ _ _ _ Hstack)].
  intros r (w & Hw & Hr). unfold merged. rewrite Hr.
  split; [reflexivity|]. exists welsegs, w. repeat split; assumption.
Qed.

Lemma merged_raw_frame (s : section) (l : Merge.layer) (np_segment : list Z)
    (idx : nat) (df : frame) :
  raw_frame welsegs_table compsegs_table compdat_table numpy_vector
    eclipse_dates well lateral s l np_segment idx = Ok df ->
  Forall (fun r => merged s l np_segment (static r)) df.
Proof.
  unfold raw_frame.
  destruct (Py.index eclipse_dates idx) as [d|e]; [|discriminate].
  cbn [Py.bind]. unfold get_md.
  destruct (Merge.get_md _ _ _ _ _ _ _) as [welsegs|e] eqn:Emd;
    [|discriminate].
  cbn [Py.bind].
  destruct (stack _ _ _ _ _ _) as [df0|e] eqn:Es; [|discriminate].
  cbn [Py.bind].
  destruct (Py.for_each _ _ df0) as [df1|e] eqn:Ef; [|discriminate].
  cbn [Py.bind]. intros [= <-].
  apply (merged_frame _ _ _ _ _ _ _ _ Emd Es).
  rewrite static_add_sgor, static_add_swct.
  eapply (for_each_invariant (fun df => map static df = map static df0));
    [|reflexivity | exact Ef].
  intros df keyword df' _ Hdf Hbody. cbn beta in *.
  destruct (series _ _ _ _ _) as [value|e]; [|discriminate].
  cbn [Py.bind] in Hbody. rewrite (static_set_column _ _ _ _ Hbody).
  exact Hdf.
Qed.

Lemma merged_tubing_frame (df_all : option frame) (idx : nat) (df : frame) :
  tubing_frame welsegs_table compsegs_table compdat_table numpy_vector
    eclipse_dates well lateral tubing_segment df_all idx = Ok df ->
  Forall (fun r => merged Tubing Merge.tubing tubing_segment (static r)) df.
Proof.
  unfold tubing_frame.
  destruct (Py.index eclipse_dates idx) as [d|e]; [|discriminate].
  cbn [Py.bind]. unfold get_md.
  destruct (Merge.get_md _ _ _ _ _ _ _) as [welsegs|e] eqn:Emd;
    [|discriminate].
  cbn [Py.bind].
  destruct (stack _ _ _ _ _ _) as [df0|e] eqn:Es; [|discriminate].
  cbn [Py.bind].
  destruct (Py.for_each _ _ df0) as [df1|e] eqn:Ef; [|discriminate].
  cbn [Py.bind]. intros [= <-].
  apply (merged_frame _ _ _ _ _ _ _ _ Emd Es).
  rewrite static_add_sgor, static_add_swct.
  eapply (for_each_invariant (fun df => map static df = map static df0));
    [|reflexivity | exact Ef].
  intros df keyword df' _ Hdf Hbody. unfold tubing_column in Hbody.
  destruct (negb _).
  - destruct (series _ _ _ _ _) as [value|e]; [|discriminate].
    cbn [Py.bind] in Hbody. rewrite (static_set_column _ _ _ _ Hbody).
    exact Hdf.
  - destruct (bound df_all) as [all|e]; [|discriminate].
    cbn [Py.bind] in Hbody.
    destruct (column_values _ _) as [rate|e]; [|discriminate].
    cbn [Py.bind] in Hbody.
    destruct (tubing_rate _ _) as [value|e]; [|discriminate].
    cbn [Py.bind] in Hbody. rewrite (static_set_column _ _ _ _ Hbody).
    exact Hdf.
Qed.

Lemma merged_reservoir_frame (df_all : frame) (idx : nat) (df : frame) :
  reservoir_frame welsegs_table compsegs_table compdat_table numpy_vector
    eclipse_dates annulus_inflow well lateral tubing_segment device_segment
    annulus_segment df_annulus_zone df_all idx = Ok df ->
  Forall (fun r => merged Reservoir Merge.tubing tubing_segment (static r)) df.
Proof.
  unfold reservoir_frame.
  destruct (Py.index eclipse_dates idx) as [d|e]; [|discriminate].
  cbn [Py.bind]. unfold get_md.
  destruct (Merge.get_md _ _ _ _ _ _ _) as [welsegs|e] eqn:Emd;
    [|discriminate].
  cbn [Py.bind].
  destruct (stack _ _ _ _ _ _) as [df0|e] eqn:Es; [|discriminate].
  cbn [Py.bind].
  destruct (Py.for_each _ _ df0) as [df1|e] eqn:Ef; [|discriminate].
  cbn [Py.bind]. intros [= <-].
  apply (merged_frame _ _ _ _ _ _ _ _ Emd Es).
  rewrite static_add_sgor, static_add_swct.
  eapply (for_each_invariant (fun df => map static df = map static df0));
    [|reflexivity | exact Ef].
  intros df keyword df' _ Hdf Hbody. unfold reservoir_column in Hbody.
  destruct keyword;
    try (injection Hbody as <-; rewrite ?static_fill_column; exact Hdf);
    (destruct (n_annulus annulus_segment =? 1)%nat;
     [ destruct (column_values _ _) as [rate|e]; [|discriminate];
       cbn [Py.bind] in Hbody;
       rewrite (static_set_column _ _ _ _ Hbody); exact Hdf
     | destruct df_annulus_zone; [discriminate|];
       destruct (annulus_inflow _ _ _ _ _) as [value|e]; [|discriminate];
       cbn [Py.bind] in Hbody;
       rewrite (static_set_column _ _ _ _ Hbody); exact Hdf ]).
Qed.

(** What the accumulator holds while the first three sections run. *)
Let early (df_all : option frame) : Prop :=
  match df_all with
  | Some df => Forall (fun r => early_row (static r)) df
  | None => True
  end.

Lemma early_device_section (o : option frame) :
  device_section welsegs_table compsegs_table compdat_table numpy_vector
    eclipse_dates well lateral device_segment my_days_idx = Ok o ->
  early o.
Proof.
  unfold device_section.
  destruct (1 <? _)%nat; [|intros [= <-]; exact I].
  apply (for_each_invariant early); [|exact I].
  intros acc ix acc' _ Hacc Hbody.
  destruct (raw_frame _ _ _ _ _ _ _ _ _ _ _) as [df1|e] eqn:EF;
    [|discriminate].
  cbn [Py.bind] in Hbody.
  pose proof (merged_raw_frame _ _ _ _ _ EF) as H1.
  assert (Hnew : Forall (fun r => early_row (static r)) df1).
  { eapply Forall_impl; [|exact H1]. intros r Hr. left. exact Hr. }
  destruct (fst ix =? 0)%nat.
  - injection Hbody as <-. exact Hnew.
  - destruct acc as [all|]; [|discriminate]. cbn [bound Py.bind] in Hbody.
    injection Hbody as <-. cbn [early] in *. apply Forall_app.
    split; assumption.
Qed.

Lemma early_tubing_section (acc o : option frame) :
  early acc ->
  tubing_section welsegs_table compsegs_table compdat_table numpy_vector
    eclipse_dates well lateral tubing_segment my_days_idx acc = Ok o ->
  early o.
Proof.
  intros Hacc. unfold tubing_section.
  apply (for_each_invariant early); [|exact Hacc].
  intros a idx a' _ Ha Hbody.
  destruct (tubing_frame _ _ _ _ _ _ _ _ _ _) as [df1|e] eqn:EF;
    [|discriminate].
  cbn [Py.bind] in Hbody.
  pose proof (merged_tubing_frame _ _ _ EF) as H1.
  destruct a as [all|]; [|discriminate]. cbn [bound Py.bind] in Hbody.
  injection Hbody as <-. cbn [early] in *. apply Forall_app.
  split; [exact Ha|].
  eapply Forall_impl; [|exact H1]. intros r Hr. right. left. exact Hr.
Qed.

Lemma early_annulus_section (acc o : option frame) :
  early acc ->
  annulus_section welsegs_table compsegs_table compdat_table numpy_vector
    eclipse_dates well lateral annulus_segment my_days_idx acc = Ok o ->
  early o.
Proof.
  intros Hacc. unfold annulus_section.
  destruct (1 <? _)%nat; [|intros [= <-]; exact Hacc].
  apply (for_each_invariant early); [|exact Hacc].
  intros a idx a' _ Ha Hbody.
  destruct (raw_frame _ _ _ _ _ _ _ _ _ _ _) as [df1|e] eqn:EF;
    [|discriminate].
  cbn [Py.bind] in Hbody.
  pose proof (merged_raw_frame _ _ _ _ _ EF) as H1.
  destruct a as [all|]; [|discriminate]. cbn [bound Py.bind] in Hbody.
  injection Hbody as <-. cbn [early] in *. apply Forall_app.
  split; [exact Ha|].
  eapply Forall_impl; [|exact H1]. intros r Hr. right. right. exact Hr.
Qed.

Lemma late_reservoir_section (idxs : list nat) :
  forall (df0 df : frame),
    Py.for_each idxs
      (fun df_all idx =>
         data_frame <- reservoir_frame welsegs_table compsegs_table
                         compdat_table numpy_vector eclipse_dates
                         annulus_inflow well lateral tubing_segment
                         device_segment annulus_segment df_annulus_zone
                         df_all idx ;;
         Ok (df_all ++ data_frame)%list) df0 = Ok df ->
    exists late,
      df = (df0 ++ late)%list /\
      Forall (fun r => merged Reservoir Merge.tubing tubing_segment
                         (static r)) late.
Proof.
  induction idxs as [|idx idxs IH]; intros df0 df; cbn [Py.for_each].
  - intros [= <-]. exists []. split; [symmetry; apply app_nil_r|].
    constructor.
  - destruct (reservoir_frame _ _ _ _ _ _ _ _ _ _ _ _ _ _) as [df1|e] eqn:EF;
      [|discriminate].
    cbn [Py.bind]. intros Hrest.
    destruct (IH _ _ Hrest) as (late & -> & Hlate).
    exists (df1 ++ late)%list. split; [symmetry; apply app_assoc|].
    apply Forall_app. split; [|exact Hlate].
    exact (merged_reservoir_frame _ _ _ EF).
Qed.

Lemma get_md_joined (segments : list Z) (l : Merge.layer)
    (rows : list Merge.segment_row) (w : Merge.segment_row) :
  Merge.get_md welsegs_table compsegs_table compdat_table well segments
    lateral l = Ok rows ->
  In w rows ->
  exists x c,
    In w (Merge.join_row
            (filter (fun d => String.eqb (Schedule.dWELL d) well)
               compdat_table) well x c).
Proof.
  unfold Merge.get_md.
  destruct (Schedule.content_of welsegs_table well) as [ws|]; [|discriminate].
  destruct (Schedule.content_of compsegs_table well) as [cs|]; [|discriminate].
  cbn [Py.bind].
  destruct (Merge.select_lateral cs lateral) as [branch|e]; [|discriminate].
  cbn [Py.bind].
  destruct (Py.traverse _ _) as [located|e]; [|discriminate].
  cbn [Py.bind]. intros [= <-] Hw.
  apply in_flat_map in Hw. destruct Hw as ((x & c) & _ & Hw).
  exists x, c. exact Hw.
Qed.

(** C9, amended: the table of [get_data] is the rows of the device, tubing
    and annulus sections followed by the rows of the reservoir section,
    each row with the CF and the KH of a row of the merge of its layer:
    the value of a COMPDAT record of the same cell (I, J, K) when there is
    one, and the missing marker NaN, not 1e-10, when there is none.  The
    default 1e-10 is given by column and in two steps.  The CF column (and
    likewise the KH column) of the device, tubing and annulus rows is
    1e-10 on all these rows as soon as one of them has a source value that
    is no number; the reservoir rows are appended after that cast and
    keep their values; but when a reservoir row has a source value that
    is no number, the column is 1e-10 on every row of the table.  In every
    other case a row keeps its value. *)
Theorem static_properties_cast_in_two_steps (df : frame) :
  snd (get_data welsegs_table compsegs_table compdat_table numpy_vector
         eclipse_dates annulus_inflow well lateral tubing_segment
         device_segment annulus_segment my_days_idx df_annulus_zone) = Ok df ->
  (exists early_rows late_rows,
     map Layout.key df = map Layout.key (early_rows ++ late_rows)%list /\
     Forall
       (fun r =>
          Layout.merged welsegs_table compsegs_table compdat_table well
            lateral Device Merge.device device_segment r \/
          Layout.merged welsegs_table compsegs_table compdat_table well
            lateral Tubing Merge.tubing tubing_segment r \/
          Layout.merged welsegs_table compsegs_table compdat_table well
            lateral Annulus Merge.annulus annulus_segment r)
       early_rows /\
     Forall
       (Layout.merged welsegs_table compsegs_table compdat_table well
          lateral Reservoir Merge.tubing tubing_segment)
       late_rows /\
     map CF df
     = (if forallb Merge.is_float (map CF late_rows)
        then ((if forallb Merge.is_float (map CF early_rows)
               then map CF early_rows
               else map (fun _ => Schedule.Numeric (1 # 10000000000))
                      early_rows)
              ++ map CF late_rows)%list
        else map (fun _ => Schedule.Numeric (1 # 10000000000))
               (early_rows ++ late_rows)%list) /\
     map KH df
     = (if forallb Merge.is_float (map KH late_rows)
        then ((if forallb Merge.is_float (map KH early_rows)
               then map KH early_rows
               else map (fun _ => Schedule.Numeric (1 # 10000000000))
                      early_rows)
              ++ map KH late_rows)%list
        else map (fun _ => Schedule.Numeric (1 # 10000000000))
               (early_rows ++ late_rows)%list)) /\
  (forall segments l rows w,
     Merge.get_md welsegs_table compsegs_table compdat_table well segments
       lateral l = Ok rows ->
     In w rows ->
     exists x c,
       In w (Merge.join_row
               (filter (fun d => String.eqb (Schedule.dWELL d) well)
                  compdat_table) well x c)) /\
  (forall compdat x c w,
     In w (Merge.join_row compdat well x c) ->
     (Forall (fun d => Merge.same_cell (Schedule.I c) (Schedule.J c)
                         (Schedule.K c) d = false) compdat ->
      Merge.CF w = Schedule.NaN /\ Merge.KH w = Schedule.NaN) /\
     (Exists (fun d => Merge.same_cell (Schedule.I c) (Schedule.J c)
                         (Schedule.K c) d = true) compdat ->
      exists d, In d compdat /\
        Merge.same_cell (Schedule.I c) (Schedule.J c) (Schedule.K c) d = true /\
        Merge.CF w = Schedule.dCF d /\ Merge.KH w = Schedule.dKH d)).
Proof.
  intros Hrun.
  split; [|split; [intros segments l rows w; apply get_md_joined
                  |intros compdat x c w; apply join_row_static]].
  unfold get_data in Hrun. cbn [snd] in Hrun.
  destruct (device_section _ _ _ _ _ _ _ _ _) as [o1|e] eqn:Edev;
    [|discriminate].
  cbn [Py.bind] in Hrun.
  destruct (tubing_section _ _ _ _ _ _ _ _ _ _) as [o2|e] eqn:Etub;
    [|discriminate].
  cbn [Py.bind] in Hrun.
  destruct (annulus_section _ _ _ _ _ _ _ _ _ _) as [o3|e] eqn:Eann;
    [|discriminate].
  cbn [Py.bind] in Hrun.
  destruct o3 as [df3|]; [|discriminate]. cbn [bound Py.bind] in Hrun.
  destruct (reservoir_section _ _ _ _ _ _ _ _ _ _ _ _ _ _)
    as [df4|e] eqn:Eres; [|discriminate].
  cbn [Py.bind] in Hrun. injection Hrun as <-.
  pose proof (early_annulus_section _ _
                (early_tubing_section _ _ (early_device_section _ Edev) Etub)
                Eann) as Hearly.
  cbn [early] in Hearly.
  unfold reservoir_section in Eres.
  destruct (late_reservoir_section _ _ _ Eres) as (late & -> & Hlate).
  exists df3, late.
  split.
  { rewrite key_cast_static, !map_app, key_cast_static. reflexivity. }
  split; [exact Hearly|]. split; [exact Hlate|].
  split.
  - apply (cast_in_two_steps CF). intros df.
    exact (proj1 (proj2 (cast_static_columns df))).
  - apply (cast_in_two_steps KH). intros df.
    exact (proj2 (proj2 (cast_static_columns df))).
Qed.

End StaticRows.

(** C9, amended, on the table of the example well for report step 1, where
    every source value is a number. *)
Lemma static_properties_example :
  (exists early_rows late_rows,
     map Layout.key Example.df_output
     = map Layout.key (early_rows ++ late_rows)%list /\
     Forall
       (fun r =>
          Layout.merged Example.welsegs_table Example.compsegs_table
            Example.compdat_table "A-1" 1 Assemble.Device Merge.device
            [6; 7; 8; 9]%Z r \/
          Layout.merged Example.welsegs_table Example.compsegs_table
            Example.compdat_table "A-1" 1 Assemble.Tubing Merge.tubing
            [2; 3; 4; 5]%Z r \/
          Layout.merged Example.welsegs_table Example.compsegs_table
            Example.compdat_table "A-1" 1 Assemble.Annulus Merge.annulus
            [0%Z] r)
       early_rows /\
     Forall
       (Layout.merged Example.welsegs_table Example.compsegs_table
          Example.compdat_table "A-1" 1 Assemble.Reservoir Merge.tubing
          [2; 3; 4; 5]%Z)
       late_rows /\
     map Assemble.CF Example.df_output
     = (if forallb Merge.is_float (map Assemble.CF late_rows)
        then ((if forallb Merge.is_float (map Assemble.CF early_rows)
               then map Assemble.CF early_rows
               else map (fun _ => Schedule.Numeric (1 # 10000000000))
                      early_rows)
              ++ map Assemble.CF late_rows)%list
        else map (fun _ => Schedule.Numeric (1 # 10000000000))
               (early_rows ++ late_rows)%list) /\
     map Assemble.KH Example.df_output
     = (if forallb Merge.is_float (map Assemble.KH late_rows)
        then ((if forallb Merge.is_float (map Assemble.KH early_rows)
               then map Assemble.KH early_rows
               else map (fun _ => Schedule.Numeric (1 # 10000000000))
                      early_rows)
              ++ map Assemble.KH late_rows)%list
        else map (fun _ => Schedule.Numeric (1 # 10000000000))
               (early_rows ++ late_rows)%list)) /\
  (forall segments l rows w,
     Merge.get_md Example.welsegs_table Example.compsegs_table
       Example.compdat_table "A-1" segments 1 l = Ok rows ->
     In w rows ->
     exists x c,
       In w (Merge.join_row
               (filter (fun d => String.eqb (Schedule.dWELL d) "A-1")
                  Example.compdat_table) "A-1" x c)) /\
  (forall compdat x c w,
     In w (Merge.join_row compdat "A-1" x c) ->
     (Forall (fun d => Merge.same_cell (Schedule.I c) (Schedule.J c)
                         (Schedule.K c) d = false) compdat ->
      Merge.CF w = Schedule.NaN /\ Merge.KH w = Schedule.NaN) /\
     (Exists (fun d => Merge.same_cell (Schedule.I c) (Schedule.J c)
                         (Schedule.K c) d = true) compdat ->
      exists d, In d compdat /\
        Merge.same_cell (Schedule.I c) (Schedule.J c) (Schedule.K c) d = true /\
        Merge.CF w = Schedule.dCF d /\ Merge.KH w = Schedule.dKH d)).
Proof.
  apply (static_properties_cast_in_two_steps Example.welsegs_table
           Example.compsegs_table Example.compdat_table Example.numpy_vector
           Example.eclipse_dates Example.annulus_inflow "A-1"%string 1%Z
           [2; 3; 4; 5]%Z [6; 7; 8; 9]%Z [0%Z] [1%nat] []
           Example.df_output).
  vm_compute. reflexivity.
Defined.

(** The two steps on a well whose device segments lie in cells of their
    own: the text "1*" as the CF of the cell of device segment 6 makes the
    first cast replace the CF of the device and tubing rows, the reservoir
    rows are appended after it with the numbers 5 and 7, and the second
    cast leaves every value as it is. *)
Lemma static_default_spares_reservoir_rows :
  exists df,
    snd (Assemble.get_data
           [("A-1"%string,
             [Example.welseg 2 1 1005; Example.welseg 3 2 1015;
              Example.welseg 6 2 (10071 # 10);
              Example.welseg 7 3 (10171 # 10)])]
           [("A-1"%string,
             [Example.compseg 1 1000 1006; Example.compseg 2 1006 1010;
              Example.compseg 3 1010 1016; Example.compseg 4 1016 1020])]
           [Example.compdat 1 (Schedule.Numeric 5) (Schedule.Numeric 100);
            Example.compdat 2 (Schedule.NonNumeric "1*")
              (Schedule.Numeric 200);
            Example.compdat 3 (Schedule.Numeric 7) (Schedule.Numeric 300);
            Example.compdat 4 (Schedule.Numeric 8) (Schedule.Numeric 400)]
           Example.numpy_vector Example.eclipse_dates
           Example.annulus_inflow "A-1" 1
           [2; 3]%Z [6; 7]%Z [0%Z] [1%nat] []) = Ok df /\
    map (fun r => (Assemble.SECTION r, Assemble.SEGMENT r, Assemble.CF r)) df
    = [(Assemble.Device, 6%Z, Schedule.Numeric (1 # 10000000000));
       (Assemble.Device, 7%Z, Schedule.Numeric (1 # 10000000000));
       (Assemble.Tubing, 2%Z, Schedule.Numeric (1 # 10000000000));
       (Assemble.Tubing, 3%Z, Schedule.Numeric (1 # 10000000000));
       (Assemble.Reservoir, 2%Z, Schedule.Numeric 5);
       (Assemble.Reservoir, 3%Z, Schedule.Numeric 7)].
Proof. eexists. split; vm_compute; reflexivity. Qed.

(** ** The keywords of the input file *)

Section KeywordFacts.

Import Input.

Local Open Scope string_scope.

Lemma no_such_line (keyword : string) (mydata : list string) :
  existsb (String.eqb keyword) mydata = false -> ~ In keyword mydata.
Proof.
  intros Hno Hin.
  assert (Hyes : existsb (String.eqb keyword) mydata = true).
  { apply existsb_exists. exists keyword.
    split; [exact Hin | apply String.eqb_refl]. }
  congruence.
Qed.

Lemma read_block_names (names post : list string) :
  ~ In "/" names ->
  read_block (names ++ "/" :: post)%list = Ok (map (remove quote) names).
Proof.
  induction names as [|line names IH]; intros Hslash.
  - reflexivity.
  - cbn [app read_block map].
    destruct (String.eqb_spec line "/") as [->|_];
      [exfalso; apply Hslash; left; reflexivity|].
    rewrite IH by (intros Hin; apply Hslash; right; exact Hin).
    reflexivity.
Qed.

Lemma read_block_open (rest : list string) :
  ~ In "/" rest -> read_block rest = Raise IndexError.
Proof.
  induction rest as [|line rest IH]; intros Hslash.
  - reflexivity.
  - cbn [read_block].
    destruct (String.eqb_spec line "/") as [->|_];
      [exfalso; apply Hslash; left; reflexivity|].
    rewrite IH by (intros Hin; apply Hslash; right; exact Hin).
    reflexivity.
Qed.

Lemma read_block_error (mydata : list string) (e : exn) :
  read_block mydata = Raise e -> e = IndexError.
Proof.
  induction mydata as [|line rest IH]; cbn [read_block].
  - intros [= <-]. reflexivity.
  - destruct (String.eqb line "/"); [discriminate|].
    destruct (read_block rest) as [content|e0]; [discriminate|].
    intros [= <-]. apply IH. reflexivity.
Qed.

Lemma read_keyword_absent (keyword : string) (mydata : list string) :
  ~ In keyword mydata -> read_keyword keyword mydata = Ok [].
Proof.
  induction mydata as [|line rest IH]; intros Hkw.
  - reflexivity.
  - cbn [read_keyword].
    destruct (String.eqb_spec line keyword) as [->|_];
      [exfalso; apply Hkw; left; reflexivity|].
    apply IH. intros Hin. apply Hkw. right. exact Hin.
Qed.

Lemma read_keyword_error (keyword : string) (mydata : list string) (e : exn) :
  read_keyword keyword mydata = Raise e -> e = IndexError.
Proof.
  induction mydata as [|line rest IH]; cbn [read_keyword].
  - discriminate.
  - destruct (String.eqb line keyword); [|exact IH].
    destruct (read_block rest) as [content|e0] eqn:Eb.
    + cbn [bind]. destruct (read_keyword keyword rest) as [later|e1];
        [discriminate|].
      intros [= <-]. apply IH. reflexivity.
    + intros [= <-]. apply (read_block_error _ _ Eb).
Qed.

(** The content of a keyword that occurs once, closed by a slash. *)
Lemma read_keyword_block (keyword : string) (pre names post : list string) :
  ~ In keyword (pre ++ names ++ post)%list ->
  keyword <> "/" ->
  ~ In "/" names ->
  read_keyword keyword (pre ++ keyword :: names ++ "/" :: post)%list
  = Ok (map (remove quote) names).
Proof.
  intros Hkw Hneq Hslash. induction pre as [|line pre IH].
  - cbn [app read_keyword]. rewrite String.eqb_refl.
    rewrite read_block_names by exact Hslash. cbn [bind].
    rewrite read_keyword_absent.
    + cbn [bind]. rewrite app_nil_r. reflexivity.
    + intros Hin. apply in_app_or in Hin. destruct Hin as [Hin|[Hin|Hin]].
      * apply Hkw. cbn [app]. apply in_or_app. left. exact Hin.
      * apply Hneq. symmetry. exact Hin.
      * apply Hkw. cbn [app]. apply in_or_app. right. exact Hin.
  - cbn [app read_keyword].
    destruct (String.eqb_spec line keyword) as [->|_];
      [exfalso; apply Hkw; left; reflexivity|].
    apply IH. intros Hin. apply Hkw. right. exact Hin.
Qed.

(** A keyword line with no slash after it. *)
Lemma read_keyword_open (keyword : string) (pre rest : list string) :
  ~ In "/" rest ->
  read_keyword keyword (pre ++ keyword :: rest)%list = Raise IndexError.
Proof.
  intros Hslash. induction pre as [|line pre IH].
  - cbn [app read_keyword]. rewrite String.eqb_refl.
    rewrite read_block_open by exact Hslash. reflexivity.
  - cbn [app read_keyword]. rewrite IH.
    destruct (String.eqb line keyword); [|reflexivity].
    destruct (read_block _) as [content|e] eqn:Eb; [reflexivity|].
    rewrite (read_block_error _ _ Eb). reflexivity.
Qed.

(** X12: a DATAFILE entry that occurs once in the input file and is closed
    by a slash gives the data files: the lines between the keyword and the
    slash, in their order, without their quotes, whatever the other lines
    are; an entry without a line is the error
    "Error : Eclipse file is not specified". *)
Theorem datafile_entry_gives_data_files
    (read_clean_input pre names post : list string) :
  stripped read_clean_input
  = (pre ++ "DATAFILE" :: names ++ "/" :: post)%list ->
  existsb (String.eqb "DATAFILE") (pre ++ names ++ post)%list = false ->
  existsb (String.eqb "/") names = false ->
  datafile_kw read_clean_input
  = match names with
    | [] => Raise (ValueError "Error : Eclipse file is not specified")
    | _ => Ok (map (remove quote) names)
    end.
Proof.
  intros Hlines Hkw Hslash. unfold datafile_kw. rewrite Hlines.
  apply no_such_line in Hkw, Hslash.
  rewrite read_keyword_block by (try assumption; discriminate).
  cbn [bind]. rewrite length_map. destruct names; reflexivity.
Qed.

(** X13: a keyword line of the input file with no slash line anywhere
    after it is an IndexError of the reader of that keyword, whatever
    comes before it: of [datafile_kw] for DATAFILE, [casename_kw] for
    CASENAME and [well_file_kw] for WELLFILE. *)
Theorem keyword_without_slash_is_index_error
    (read_clean_input pre rest : list string) (keyword : string) :
  stripped read_clean_input = (pre ++ keyword :: rest)%list ->
  existsb (String.eqb "/") rest = false ->
  read_keyword keyword (stripped read_clean_input) = Raise IndexError /\
  (keyword = "DATAFILE" -> datafile_kw read_clean_input = Raise IndexError) /\
  (keyword = "CASENAME" ->
   forall data_file,
     casename_kw read_clean_input data_file = Raise IndexError) /\
  (keyword = "WELLFILE" ->
   forall advanced_wells data_file,
     well_file_kw advanced_wells read_clean_input data_file
     = Raise IndexError).
Proof.
  intros Hlines Hslash. apply no_such_line in Hslash.
  assert (Hopen : read_keyword keyword (stripped read_clean_input)
                  = Raise IndexError).
  { rewrite Hlines. apply read_keyword_open. exact Hslash. }
  split; [exact Hopen|]. split; [|split].
  - intros ->. unfold datafile_kw. rewrite Hopen. reflexivity.
  - intros -> data_file. unfold casename_kw. rewrite Hopen. reflexivity.
  - intros -> advanced_wells data_file. unfold well_file_kw. rewrite Hopen.
    reflexivity.
Qed.

(** X14: a WELLFILE entry that occurs once with at least one line and is
    closed by a slash gives the schedule files, the lines of the entry
    without their quotes, exactly when there are as many of them as data
    files; otherwise the reader raises
    "Error : Well file must be given for each Data file".  The data files
    are not searched for schedule files. *)
Theorem wellfile_entry_must_match_data_files
    (advanced_wells : list string -> result (list string))
    (read_clean_input pre names post data_file : list string) :
  stripped read_clean_input
  = (pre ++ "WELLFILE" :: names ++ "/" :: post)%list ->
  existsb (String.eqb "WELLFILE") (pre ++ names ++ post)%list = false ->
  existsb (String.eqb "/") names = false ->
  (0 < length names)%nat ->
  well_file_kw advanced_wells read_clean_input data_file
  = if (length data_file =? length names)%nat
    then Ok (map (remove quote) names)
    else Raise
           (ValueError "Error : Well file must be given for each Data file").
Proof.
  intros Hlines Hkw Hslash Hnames. unfold well_file_kw. rewrite Hlines.
  apply no_such_line in Hkw, Hslash.
  rewrite read_keyword_block by (try assumption; discriminate).
  cbn [bind]. rewrite length_map.
  destruct names as [|name names]; [simpl in Hnames; lia|].
  cbn [length Nat.eqb bind].
  rewrite length_map. cbn [length].
  destruct (length data_file =? S (length names))%nat; reflexivity.
Qed.

Lemma output_file_loop_absent (mydata : list string) (output_file : string) :
  ~ In "OUTPUTFILE" mydata ->
  output_file_loop mydata output_file = ([], Ok output_file).
Proof.
  induction mydata as [|line rest IH]; intros Hkw.
  - reflexivity.
  - cbn [output_file_loop].
    destruct (String.eqb_spec line "OUTPUTFILE") as [->|_];
      [exfalso; apply Hkw; left; reflexivity|].
    apply IH. intros Hin. apply Hkw. right. exact Hin.
Qed.

Lemma output_file_loop_last (pre post : list string) (name : string) :
  name <> "/" ->
  ~ In "OUTPUTFILE" (name :: post) ->
  forall output_file,
    snd (output_file_loop (pre ++ "OUTPUTFILE" :: name :: post)%list
           output_file)
    = Ok (remove quote name).
Proof.
  intros Hname Hkw. induction pre as [|line pre IH]; intros output_file.
  - cbn [app].
    change (output_file_loop ("OUTPUTFILE" :: name :: post) output_file)
      with (if String.eqb "OUTPUTFILE" "OUTPUTFILE"
            then if String.eqb name "/"
                 then let (out, r) :=
                        output_file_loop (name :: post) output_file in
                      (output_warning :: out, r)
                 else output_file_loop (name :: post) (remove quote name)
            else output_file_loop (name :: post) output_file).
    rewrite String.eqb_refl.
    destruct (String.eqb_spec name "/") as [E|_]; [contradiction|].
    rewrite output_file_loop_absent by exact Hkw. reflexivity.
  - cbn [app output_file_loop].
    destruct (String.eqb line "OUTPUTFILE"); [|apply IH].
    destruct (pre ++ "OUTPUTFILE" :: name :: post)%list as [|next rest] eqn:E;
      [destruct pre; discriminate|].
    destruct (String.eqb next "/").
    + specialize (IH output_file).
      destruct (output_file_loop _ output_file) as [out r]. exact IH.
    + apply IH.
Qed.

(** X15: the line after the last OUTPUTFILE line of the input file, unless
    it is a slash, names the output file, with its quotes removed: earlier
    lines, earlier OUTPUTFILE entries among them, have no say, and no
    closing slash is looked for. *)
Theorem last_outputfile_entry_names_the_output
    (read_clean_input pre post : list string) (name : string) :
  stripped read_clean_input = (pre ++ "OUTPUTFILE" :: name :: post)%list ->
  String.eqb name "/" = false ->
  existsb (String.eqb "OUTPUTFILE") (name :: post) = false ->
  snd (output_file_kw read_clean_input) = Ok (remove quote name).
Proof.
  intros Hlines Hname Hkw. unfold output_file_kw. rewrite Hlines.
  apply no_such_line in Hkw. apply String.eqb_neq in Hname.
  apply output_file_loop_last; assumption.
Qed.

End KeywordFacts.

(** X12 on the example input file: the two cases, without quotes. *)
Lemma datafile_entry_example :
  Input.datafile_kw Example.read_clean_input
  = match ["'CASE_A'"; "'CASE_B'"]%string with
    | [] => Raise (ValueError "Error : Eclipse file is not specified")
    | _ => Ok (map (Input.remove Input.quote) ["'CASE_A'"; "'CASE_B'"]%string)
    end.
Proof.
  apply (datafile_entry_gives_data_files Example.read_clean_input []
           ["'CASE_A'"; "'CASE_B'"]%string
           ["WELLFILE"; "'a.sch'"; "'b.sch'"; "/";
            "OUTPUTFILE"; "'out.csv'"; "/";
            "INFORMATION"; "A-1 1 2-5 6-9 1* 10"; "/"]%string).
  - reflexivity.
  - reflexivity.
  - reflexivity.
Defined.

(** X13 on an input file that ends inside its DATAFILE entry. *)
Lemma keyword_without_slash_example :
  Input.read_keyword "DATAFILE"
    (Input.stripped (map Example.line ["DATAFILE"; "'CASE_A'"]%string))
  = Raise IndexError /\
  ("DATAFILE"%string = "DATAFILE"%string ->
   Input.datafile_kw (map Example.line ["DATAFILE"; "'CASE_A'"]%string)
   = Raise IndexError) /\
  ("DATAFILE"%string = "CASENAME"%string ->
   forall data_file,
     Input.casename_kw (map Example.line ["DATAFILE"; "'CASE_A'"]%string)
       data_file
     = Raise IndexError) /\
  ("DATAFILE"%string = "WELLFILE"%string ->
   forall advanced_wells data_file,
     Input.well_file_kw advanced_wells
       (map Example.line ["DATAFILE"; "'CASE_A'"]%string) data_file
     = Raise IndexError).
Proof.
  apply (keyword_without_slash_is_index_error
           (map Example.line ["DATAFILE"; "'CASE_A'"]%string) []
           ["'CASE_A'"%string] "DATAFILE"%string).
  - reflexivity.
  - reflexivity.
Defined.

(** X14 on the example input file and its two data files. *)
Lemma wellfile_entry_example :
  Input.well_file_kw (fun _ => Ok []) Example.read_clean_input
    ["CASE_A"; "CASE_B"]%string
  = if (length ["CASE_A"; "CASE_B"]%string
        =? length ["'a.sch'"; "'b.sch'"]%string)%nat
    then Ok (map (Input.remove Input.quote) ["'a.sch'"; "'b.sch'"]%string)
    else Raise
           (ValueError "Error : Well file must be given for each Data file").
Proof.
  apply (wellfile_entry_must_match_data_files (fun _ => Ok [])
           Example.read_clean_input
           ["DATAFILE"; "'CASE_A'"; "'CASE_B'"; "/"]%string
           ["'a.sch'"; "'b.sch'"]%string
           ["OUTPUTFILE"; "'out.csv'"; "/";
            "INFORMATION"; "A-1 1 2-5 6-9 1* 10"; "/"]%string
           ["CASE_A"; "CASE_B"]%string).
  - reflexivity.
  - reflexivity.
  - reflexivity.
  - simpl. lia.
Defined.

(** X15 on the example input file. *)
Lemma last_outputfile_entry_example :
  snd (Input.output_file_kw Example.read_clean_input)
  = Ok (Input.remove Input.quote "'out.csv'").
Proof.
  apply (last_outputfile_entry_names_the_output Example.read_clean_input
           ["DATAFILE"; "'CASE_A'"; "'CASE_B'"; "/";
            "WELLFILE"; "'a.sch'"; "'b.sch'"; "/"]%string
           ["/"; "INFORMATION"; "A-1 1 2-5 6-9 1* 10"; "/"]%string
           "'out.csv'"%string).
  - reflexivity.
  - reflexivity.
  - reflexivity.
Defined.

(** ** The depth windows of the annulus zones *)

Section ZoneWindows.

Import Schedule Packer.

Let shade (p : Q * Q) : Q * Q := (fst p - (3 # 10), snd p).

Lemma pair_up_induction {A : Type} (P : list A -> Prop) :
  P [] -> (forall a, P [a]) ->
  (forall a b l, P l -> P (a :: b :: l)) ->
  forall l, P l.
Proof.
  intros H0 H1 H2 l.
  assert (H : P l /\ forall a, P (a :: l)).
  { induction l as [|b l [IHl IHc]].
    - split; [exact H0 | exact H1].
    - split; [apply IHc|]. intros a. apply H2. exact IHl. }
  exact (proj1 H).
Qed.

Lemma index_app_right {A : Type} (pre l : list A) (i : nat) :
  Py.index (pre ++ l) (length pre + i) = Py.index l i.
Proof.
  unfold Py.index. rewrite nth_error_app2 by lia.
  replace (length pre + i - length pre)%nat with i by lia. reflexivity.
Qed.

(** The windows read the packer depths two by two. *)
Lemma zone_windows_from (mds : list Q) :
  forall (l pre : list Q) (i : nat),
    mds = (pre ++ l)%list -> length pre = (i * 2)%nat ->
    traverse
      (fun ip =>
         first <- Py.index mds (ip * 2) ;;
         last <- Py.index mds (ip * 2 + 1) ;;
         Ok (first - (3 # 10), last))
      (seq i (length l / 2))
    = Ok (map shade (pair_up l)).
Proof.
  intros l. induction l as [|a|a b l IH] using pair_up_induction;
    intros pre i Hmds Hpre.
  - reflexivity.
  - reflexivity.
  - replace (length (a :: b :: l) / 2)%nat with (S (length l / 2)).
    2:{ cbn [length]. change (S (S (length l))) with (2 + length l)%nat.
        replace (2 + length l)%nat with (1 * 2 + length l)%nat by lia.
        rewrite Nat.div_add_l by lia. reflexivity. }
    assert (Ha : Py.index mds (i * 2) = Ok a).
    { rewrite Hmds, <- Hpre, <- (Nat.add_0_r (length pre)).
      rewrite index_app_right. reflexivity. }
    assert (Hb : Py.index mds (i * 2 + 1) = Ok b).
    { rewrite Hmds, <- Hpre. rewrite index_app_right. reflexivity. }
    cbn [seq traverse pair_up map]. rewrite Ha, Hb. cbn [bind].
    rewrite (IH (pre ++ [a; b])%list (S i)).
    + reflexivity.
    + rewrite Hmds, <- app_assoc. reflexivity.
    + rewrite length_app. cbn [length]. lia.
Qed.

Lemma zone_windows_pairs (df_packer : list packer_row) :
  zone_windows df_packer = Ok (map shade (pair_up (map fst df_packer))).
Proof.
  unfold zone_windows.
  destruct df_packer as [|p rest]; [reflexivity|].
  change (0 <? length (p :: rest))%nat with true. cbv iota zeta.
  replace (length (p :: rest)) with (length (map fst (p :: rest)))
    by apply length_map.
  apply (zone_windows_from (map fst (p :: rest)) (map fst (p :: rest)) [] 0);
    reflexivity.
Qed.

Lemma last_cons {A : Type} (a d : A) (l : list A) :
  last (a :: l) d = last l a.
Proof.
  revert a d. induction l as [|b l IH]; intros a d; [reflexivity|].
  change (last (a :: b :: l) d) with (last (b :: l) d).
  rewrite !IH. reflexivity.
Qed.

Lemma filter_none {A : Type} (f : A -> bool) (l : list A) :
  (forall x, In x l -> f x = false) -> filter f l = [].
Proof.
  induction l as [|x l IH]; intros Hf; [reflexivity|].
  cbn [filter]. rewrite (Hf x) by (left; reflexivity).
  apply IH. intros y Hy. apply Hf. right. exact Hy.
Qed.

Lemma packer_loop_zones_from (rest : list welsegs_row) :
  forall (prev : welsegs_row) (zone z : Z),
    In z (snd (packer_loop prev rest zone)) -> (zone <= z)%Z.
Proof.
  induction rest as [|cur rest IH]; intros prev zone z; cbn [packer_loop].
  - intros [].
  - set (zone' := if negb (Z.eqb (TUBINGOUTLET cur) (TUBINGSEGMENT prev))
                  then (zone + 1)%Z else zone).
    specialize (IH cur zone' z).
    destruct (packer_loop cur rest zone') as [packers zones].
    cbn [snd] in *. intros [<-|Hin].
    + unfold zone'. destruct (negb _); lia.
    + specialize (IH Hin). unfold zone' in IH. destruct (negb _); lia.
Qed.

(** The rows after [prev] with the zone each one gets. *)
Let labelled (prev : welsegs_row) (rest : list welsegs_row) (zone : Z)
    : list (welsegs_row * Z) :=
  combine rest (snd (packer_loop prev rest zone)).

Let of_zone (z : Z) (lab : list (welsegs_row * Z)) : list (welsegs_row * Z) :=
  filter (fun p => Z.eqb (snd p) z) lab.

Let span (lab : list (welsegs_row * Z)) (z : Z) : option (Q * Q) :=
  match of_zone z lab with
  | [] => None
  | p :: ps => Some (TUBINGMD (fst p), TUBINGMD (fst (last ps p)))
  end.

Lemma of_zone_below (prev : welsegs_row) (rest : list welsegs_row)
    (zone z : Z) :
  (z < zone)%Z -> of_zone z (labelled prev rest zone) = [].
Proof.
  intros Hz. apply filter_none. intros [r z'] Hin. cbn [snd].
  apply in_combine_r in Hin. apply packer_loop_zones_from in Hin.
  apply Z.eqb_neq. lia.
Qed.

Lemma span_skip (p : welsegs_row * Z) (lab : list (welsegs_row * Z))
    (a c : nat) :
  (snd p < Z.of_nat a)%Z ->
  map (fun k => span (p :: lab) (Z.of_nat k)) (seq a c)
  = map (fun k => span lab (Z.of_nat k)) (seq a c).
Proof.
  intros Hp. apply map_ext_in. intros k Hk. apply in_seq in Hk.
  unfold span, of_zone. cbn [filter].
  destruct (Z.eqb_spec (snd p) (Z.of_nat k)); [lia | reflexivity].
Qed.

(** The packer depths after the start [s] of the running zone, two by
    two: the running zone is closed by its last row, and every later zone
    gives the depths of its first and last row. *)
Lemma packer_loop_pairs (rest : list welsegs_row) :
  forall (prev : welsegs_row) (n : nat) (s : Q),
    rest <> [] ->
    map Some
      (pair_up (s :: map fst (fst (packer_loop prev rest (Z.of_nat n)))))
    = (Some (s, TUBINGMD
                  (fst (last (of_zone (Z.of_nat n)
                                (labelled prev rest (Z.of_nat n)))
                          (prev, Z.of_nat n))))
       :: map (fun k => span (labelled prev rest (Z.of_nat n)) (Z.of_nat k))
            (seq (S n) (crossings prev rest)))%list.
Proof.
  induction rest as [|cur rest IH]; intros prev n s Hrest; [contradiction|].
  unfold labelled. cbn [packer_loop crossings].
  destruct (Z.eqb (TUBINGOUTLET cur) (TUBINGSEGMENT prev)) eqn:Eout;
    cbn [negb].
  - (* the row stays in the zone *)
    destruct rest as [|next rest].
    + cbn [packer_loop fst snd app map pair_up combine crossings seq
             Nat.add].
      unfold of_zone. cbn [filter snd]. rewrite Z.eqb_refl. reflexivity.
    + specialize (IH cur n s ltac:(discriminate)).
      unfold labelled in IH.
      destruct (packer_loop cur (next :: rest) (Z.of_nat n))
        as [packers zones] eqn:El.
      cbn [fst snd app combine Nat.add] in *.
      rewrite IH. unfold of_zone at 2. cbn [filter snd].
      rewrite Z.eqb_refl. rewrite last_cons.
      rewrite span_skip by (cbn [snd]; lia). reflexivity.
  - (* the row opens the next zone *)
    replace (Z.of_nat n + 1)%Z with (Z.of_nat (S n)) by lia.
    destruct rest as [|next rest].
    + cbn [packer_loop fst snd app map pair_up combine crossings seq
             Nat.add].
      unfold span, of_zone. cbn [filter snd].
      rewrite Z.eqb_refl.
      destruct (Z.eqb_spec (Z.of_nat (S n)) (Z.of_nat n)); [lia|].
      reflexivity.
    + pose proof (of_zone_below cur (next :: rest) (Z.of_nat (S n))
                    (Z.of_nat n) ltac:(lia)) as Hbelow.
      specialize (IH cur (S n) (TUBINGMD cur) ltac:(discriminate)).
      unfold labelled in IH, Hbelow.
      destruct (packer_loop cur (next :: rest) (Z.of_nat (S n)))
        as [packers zones] eqn:El.
      cbn [fst snd] in *.
      set (lab := combine (next :: rest) zones) in *.
      change (combine (cur :: next :: rest) (Z.of_nat (S n) :: zones))
        with ((cur, Z.of_nat (S n)) :: lab).
      cbn [app map depth_pair fst Nat.add].
      change (pair_up (s :: TUBINGMD prev :: TUBINGMD cur :: map fst packers))
        with ((s, TUBINGMD prev)
              :: pair_up (TUBINGMD cur :: map fst packers)).
      cbn [map]. rewrite IH. cbn [seq map].
      rewrite span_skip by (cbn [snd]; lia).
      assert (H1 : of_zone (Z.of_nat n) ((cur, Z.of_nat (S n)) :: lab) = []).
      { unfold of_zone. cbn [filter snd].
        destruct (Z.eqb_spec (Z.of_nat (S n)) (Z.of_nat n)); [lia|].
        exact Hbelow. }
      assert (H2 : span ((cur, Z.of_nat (S n)) :: lab) (Z.of_nat (S n))
                   = Some (TUBINGMD cur,
                           TUBINGMD
                             (fst (last (of_zone (Z.of_nat (S n)) lab)
                                     (cur, Z.of_nat (S n)))))).
      { unfold span, of_zone. cbn [filter snd]. rewrite Z.eqb_refl.
        reflexivity. }
      rewrite H1, H2. reflexivity.
Qed.

Let zone_of (p : welsegs_row * Z) : zone_row :=
  {| zSEGMENT := TUBINGSEGMENT (fst p);
     zMD := TUBINGMD (fst p);
     ANNULUS_ZONE := snd p |}.

Lemma filter_map_swap {A B : Type} (f : B -> bool) (g : A -> B)
    (l : list A) :
  filter f (map g l) = map g (filter (fun x => f (g x)) l).
Proof.
  induction l as [|x l IH]; [reflexivity|].
  cbn [map filter]. destruct (f (g x)); cbn [map]; rewrite IH; reflexivity.
Qed.

Lemma last_of_map {A B : Type} (g : A -> B) (l : list A) (d : A) :
  last (map g l) (g d) = g (last l d).
Proof.
  revert d. induction l as [|x l IH]; intros d; [reflexivity|].
  cbn [map]. rewrite !last_cons. apply IH.
Qed.

Lemma zone_span_labelled (lab : list (welsegs_row * Z)) (z : Z) :
  zone_span (map zone_of lab) z = span lab z.
Proof.
  unfold zone_span, span, of_zone. rewrite filter_map_swap.
  cbn [zone_of ANNULUS_ZONE].
  destruct (filter _ lab) as [|p ps]; [reflexivity|].
  cbn [map]. rewrite last_of_map. reflexivity.
Qed.

(** X16: with at least two WELSEGS rows in the annulus selection,
    [plot_trajectory] shades one depth window for each annulus zone of
    [get_packer], 1 plus the number of crossings in all, and never runs
    past the packer table; the window of zone z starts 0.3 above the
    depth of the first row of the zone frame with that zone number and
    ends at the depth of the last one. *)
Theorem zone_windows_span_the_zones
    (welsegs_table : collection welsegs_row) (well : string)
    (annulus_segment : list Z) (ws : list welsegs_row)
    (first second : welsegs_row) (rest : list welsegs_row) :
  content_of welsegs_table well = Some ws ->
  (1 < length annulus_segment)%nat ->
  filter (fun r => isin annulus_segment (TUBINGSEGMENT r)) ws
  = first :: second :: rest ->
  exists packers zones windows,
    get_packer welsegs_table well annulus_segment
    = Ok (Some (packers, zones)) /\
    zone_windows packers = Ok windows /\
    length windows = S (crossings first (second :: rest)) /\
    forall k w,
      nth_error windows k = Some w ->
      exists a b,
        zone_span zones (Z.of_nat (S k)) = Some (a, b) /\
        w = (a - (3 # 10), b).
Proof.
  intros Hws Hsel Hrows. unfold get_packer.
  rewrite (proj2 (Nat.ltb_lt _ _) Hsel), Hws, Hrows.
  pose proof (packer_loop_pairs (second :: rest) first 1 (TUBINGMD first)
                ltac:(discriminate)) as Hpairs.
  change (Z.of_nat 1) with 1%Z in Hpairs. unfold labelled in Hpairs.
  destruct (packer_loop first (second :: rest) 1) as [packers zones].
  cbn [fst snd] in Hpairs.
  set (lab := combine (second :: rest) zones) in *.
  set (c := crossings first (second :: rest)) in *.
  eexists _, _, _. split; [reflexivity|].
  split; [apply zone_windows_pairs|].
  change (combine (first :: second :: rest) (1%Z :: zones))
    with ((first, 1%Z) :: lab).
  change (map (fun rz => {| zSEGMENT := TUBINGSEGMENT (fst rz);
                            zMD := TUBINGMD (fst rz);
                            ANNULUS_ZONE := snd rz |})
            ((first, 1%Z) :: lab))
    with (map zone_of ((first, 1%Z) :: lab)).
  cbn [map fst depth_pair].
  set (pairs := pair_up (TUBINGMD first :: map fst packers)) in *.
  assert (Hspans :
            map Some pairs
            = map (fun k => zone_span (map zone_of ((first, 1%Z) :: lab))
                              (Z.of_nat k))
                (seq 1 (S c))).
  { rewrite Hpairs. change (seq 1 (S c)) with (1%nat :: seq 2 c).
    rewrite map_cons. f_equal.
    - rewrite zone_span_labelled. unfold span, of_zone. cbn [filter snd].
      reflexivity.
    - rewrite <- (span_skip (first, 1%Z) lab 2 c) by (cbn [snd]; lia).
      apply map_ext. intros k. symmetry. apply zone_span_labelled. }
  assert (Hlen : length pairs = S c).
  { rewrite <- (length_map Some pairs), Hspans, length_map, length_seq.
    reflexivity. }
  split; [rewrite length_map; exact Hlen|].
  intros k w Hk. rewrite nth_error_map in Hk.
  destruct (nth_error pairs k) as [[a b]|] eqn:Ep; [|discriminate].
  injection Hk as <-. exists a, b. split; [|reflexivity].
  assert (Hlt : (k < S c)%nat).
  { rewrite <- Hlen. apply nth_error_Some. rewrite Ep. discriminate. }
  pose proof (f_equal (fun l => nth_error l k) Hspans) as Hnth.
  cbn beta in Hnth. rewrite !nth_error_map, Ep in Hnth.
  rewrite (nth_error_nth' (seq 1 (S c)) 0%nat) in Hnth
    by (rewrite length_seq; exact Hlt).
  rewrite seq_nth in Hnth by exact Hlt. cbn [option_map] in Hnth.
  injection Hnth as Hnth. symmetry. exact Hnth.
Qed.

End ZoneWindows.

(** X16 on the annulus segments 10-12 of the example well: zone 1 holds
    the segments 10 and 11, zone 2 the segment 12. *)
Lemma zone_windows_example :
  exists packers zones windows,
    Packer.get_packer Example.welsegs_table "A-1" [10; 11; 12]%Z
    = Ok (Some (packers, zones)) /\
    Packer.zone_windows packers = Ok windows /\
    length windows
    = S (Packer.crossings (Example.welseg 10 6 (10052 # 10))
           [Example.welseg 11 10 (10152 # 10);
            Example.welseg 12 8 (10252 # 10)]) /\
    forall k w,
      nth_error windows k = Some w ->
      exists a b,
        Packer.zone_span zones (Z.of_nat (S k)) = Some (a, b) /\
        w = (a - (3 # 10), b).
Proof.
  apply (zone_windows_span_the_zones Example.welsegs_table "A-1"%string
           [10; 11; 12]%Z (snd (hd ("A-1"%string, []) Example.welsegs_table))
           (Example.welseg 10 6 (10052 # 10))
           (Example.welseg 11 10 (10152 # 10))
           [Example.welseg 12 8 (10252 # 10)]).
  - reflexivity.
  - simpl. lia.
  - reflexivity.
Defined.

(** ** A well that the schedule file does not describe *)

Section AbsentWell.

Context `{Days.ArgSort}.

Variable py_int : string -> option Z.
Variable py_float : string -> option Q.
Variable information : list Info.information_row.
Variable eclipse_days : list Q.
Variable eclipse_dates : list Assemble.date.
Variable welsegs_table : Schedule.collection Schedule.welsegs_row.
Variable compsegs_table : Schedule.collection Schedule.compsegs_row.
Variable compdat_table : list Schedule.compdat_row.
Variable numpy_vector : Assemble.column -> string -> Z -> result (list Q).
Variable annulus_inflow :
  Assemble.column -> Assemble.frame -> Assemble.frame
  -> list Packer.zone_row -> Assemble.frame -> result (list Q).

(** X17: a well of the INFORMATION table that has no WELSEGS entry in the
    schedule file never gets a table: whatever its line selects, the run
    for the well ends in an exception, and with more than one annulus
    segment selected that exception is the TypeError of unpacking what
    [get_packer] returns. *)
Theorem well_without_welsegs_gets_no_table (well : string) (lateral : Z) :
  Schedule.content_of welsegs_table well = None ->
  (exists e,
     snd (Driver.run_well py_int py_float information eclipse_days
            eclipse_dates welsegs_table compsegs_table compdat_table
            numpy_vector annulus_inflow well lateral) = Raise e) /\
  (forall info my_days_idx,
     snd (Info.get_info_per_well py_int py_float information well lateral)
     = Ok info ->
     snd (Days.get_day_index eclipse_days (Info.my_days info))
     = Ok my_days_idx ->
     (1 < length (Info.annulus_segment info))%nat ->
     Driver.run_well py_int py_float information eclipse_days
       eclipse_dates welsegs_table compsegs_table compdat_table
       numpy_vector annulus_inflow well lateral
     = ([Driver.InfoPerWell; Driver.DayIndex; Driver.Trajectory;
         Driver.FindPacker], Raise TypeError)).
Proof.
  intros Habsent. split.
  - unfold Driver.run_well.
    destruct (snd (Info.get_info_per_well _ _ _ _ _)) as [info|e];
      [|eexists; reflexivity].
    destruct (snd (Days.get_day_index _ _)) as [idx|e];
      [|eexists; reflexivity].
    unfold Packer.get_packer. rewrite Habsent.
    destruct (1 <? _)%nat; cbn [snd]; [eexists; reflexivity|].
    apply merge_error_aborts_get_data
      with (e := UnboundLocalError "welsegs").
    unfold Merge.get_md. rewrite Habsent. reflexivity.
  - intros info idx Hinfo Hdays Hn. unfold Driver.run_well.
    rewrite Hinfo, Hdays. unfold Packer.get_packer. rewrite Habsent.
    destruct (Nat.ltb_spec 1 (length (Info.annulus_segment info)));
      [reflexivity | lia].
Qed.

End AbsentWell.

(** X17 on the example well with a schedule file that has no WELSEGS
    entry. *)
Lemma well_without_welsegs_example :
  (exists e,
     snd (Driver.run_well Example.py_int Example.py_float
            [Example.info_line "2-5" "6-9" "10-12" "10"] Example.eclipse_days
            Example.eclipse_dates [] Example.compsegs_table
            Example.compdat_table Example.numpy_vector
            Example.annulus_inflow "A-1" 1) = Raise e) /\
  (forall info my_days_idx,
     snd (Info.get_info_per_well Example.py_int Example.py_float
            [Example.info_line "2-5" "6-9" "10-12" "10"] "A-1" 1) = Ok info ->
     snd (Days.get_day_index Example.eclipse_days (Info.my_days info))
     = Ok my_days_idx ->
     (1 < length (Info.annulus_segment info))%nat ->
     Driver.run_well Example.py_int Example.py_float
       [Example.info_line "2-5" "6-9" "10-12" "10"] Example.eclipse_days
       Example.eclipse_dates [] Example.compsegs_table
       Example.compdat_table Example.numpy_vector Example.annulus_inflow
       "A-1" 1
     = ([Driver.InfoPerWell; Driver.DayIndex; Driver.Trajectory;
         Driver.FindPacker], Raise TypeError)).
Proof.
  apply (well_without_welsegs_gets_no_table Example.py_int Example.py_float
           [Example.info_line "2-5" "6-9" "10-12" "10"] Example.eclipse_days
           Example.eclipse_dates [] Example.compsegs_table
           Example.compdat_table Example.numpy_vector
           Example.annulus_inflow "A-1"%string 1%Z).
  reflexivity.
Defined.

(** ** The exported table *)

Section ExportFacts.

Import Driver.

Variable df_output : nat -> nat -> result Assemble.frame.
Variable table : nat -> nat -> Assemble.frame.

(** The tables of the data files [a], ..., [a + n - 1] for a well. *)
Let cases (iw a n : nat) : Assemble.frame :=
  flat_map (table iw) (seq a n).

Lemma export_first_well (n a : nat) (df_export : option Assemble.frame) :
  (forall ifi, (a <= ifi < a + n)%nat -> df_output 0 ifi = Ok (table 0 ifi)) ->
  for_each (seq a n)
    (fun df_export ifi =>
       out <- df_output 0%nat ifi ;;
       if (0 =? 0)%nat then Ok (Some out)
       else all <- bound_export df_export ;; Ok (Some (all ++ out)%list))
    df_export
  = Ok (match n with
        | O => df_export
        | S m => Some (table 0%nat (a + m)%nat)
        end).
Proof.
  revert a df_export. induction n as [|n IH]; intros a df_export Hok.
  - reflexivity.
  - cbn [seq for_each]. rewrite (Hok a) by lia. cbn [bind Nat.eqb].
    rewrite IH by (intros ifi Hi; apply Hok; lia).
    destruct n; [rewrite Nat.add_0_r; reflexivity|].
    do 3 f_equal. lia.
Qed.

Lemma export_later_well (iw n a : nat) (df_export : Assemble.frame) :
  iw <> 0%nat ->
  (forall ifi, (a <= ifi < a + n)%nat ->
     df_output iw ifi = Ok (table iw ifi)) ->
  for_each (seq a n)
    (fun df_export ifi =>
       out <- df_output iw ifi ;;
       if (iw =? 0)%nat then Ok (Some out)
       else all <- bound_export df_export ;; Ok (Some (all ++ out)%list))
    (Some df_export)
  = Ok (Some (df_export ++ cases iw a n)%list).
Proof.
  intros Hiw. revert a df_export. induction n as [|n IH]; intros a df_export Hok.
  - unfold cases. simpl. rewrite app_nil_r. reflexivity.
  - cbn [seq for_each]. rewrite (Hok a) by lia. cbn [bind].
    destruct (Nat.eqb_spec iw 0) as [E|_]; [contradiction|].
    cbn [bound_export bind].
    rewrite IH by (intros ifi Hi; apply Hok; lia).
    unfold cases. cbn [flat_map]. rewrite <- app_assoc. reflexivity.
Qed.

Lemma export_wells (n_file : nat) (n iw : nat) (df_export : Assemble.frame) :
  iw <> 0%nat ->
  (forall k ifi, (iw <= k < iw + n)%nat -> (ifi < n_file)%nat ->
     df_output k ifi = Ok (table k ifi)) ->
  for_each (seq iw n) (export_files df_output n_file) (Some df_export)
  = Ok (Some (df_export
              ++ flat_map (fun k => cases k 0 n_file) (seq iw n))%list).
Proof.
  revert iw df_export. induction n as [|n IH]; intros iw df_export Hiw Hok.
  - simpl. rewrite app_nil_r. reflexivity.
  - cbn [seq for_each]. unfold export_files at 1.
    rewrite export_later_well
      by (try exact Hiw; intros ifi Hi; apply Hok; lia).
    cbn [bind]. rewrite IH by (try lia; intros k ifi Hk Hi; apply Hok; lia).
    cbn [flat_map]. rewrite <- app_assoc. reflexivity.
Qed.

(** X18: when every well and data file gives a table and an output file is
    named, [main] writes the table of the LAST data file for the first
    well of the INFORMATION table, followed by the tables of every data
    file for each further well, in the order of the wells and of the
    files: with several data files the earlier cases of the first well are
    not exported. *)
Theorem export_keeps_last_case_of_first_well (n_well n_file : nat)
    (output_file : string) :
  (0 < n_well)%nat -> (0 < n_file)%nat ->
  String.eqb output_file EmptyString = false ->
  (forall iw ifi, (iw < n_well)%nat -> (ifi < n_file)%nat ->
     df_output iw ifi = Ok (table iw ifi)) ->
  main df_output n_well n_file output_file
  = Ok (Some (table 0%nat (n_file - 1)%nat
              ++ flat_map
                   (fun iw => flat_map (table iw) (seq 0 n_file))
                   (seq 1 (n_well - 1)))%list).
Proof.
  intros Hw Hf Hname Hok. unfold main.
  destruct n_well as [|n]; [lia|]. cbn [seq for_each].
  unfold export_files at 1.
  rewrite export_first_well by (intros ifi Hi; apply Hok; lia).
  destruct n_file as [|m]; [lia|]. cbn [bind].
  rewrite export_wells by (try lia; intros k ifi Hk Hi; apply Hok; lia).
  cbn [bind].
  rewrite Hname. cbn [negb bound_export bind].
  replace (S m - 1)%nat with m by lia. replace (S n - 1)%nat with n by lia.
  reflexivity.
Qed.

(** Without a well in the INFORMATION table there is nothing to export,
    and naming an output file makes [main] end in the unbound
    [df_export]. *)
Lemma export_without_wells (n_file : nat) (output_file : string) :
  String.eqb output_file EmptyString = false ->
  main df_output 0 n_file output_file
  = Raise (UnboundLocalError "df_export").
Proof.
  intros Hname. unfold main. cbn [seq for_each bind].
  rewrite Hname. reflexivity.
Qed.

End ExportFacts.

(** X18 on two wells and two data files, every table a copy of the table
    of the example well: three of the four tables are exported. *)
Lemma export_example :
  Driver.main (fun _ _ => Ok Example.df_output) 2 2 "out.csv"
  = Ok (Some (Example.df_output
              ++ flat_map
                   (fun iw => flat_map (fun _ => Example.df_output)
                                (seq 0 2))
                   (seq 1 (2 - 1)))%list).
Proof.
  apply (export_keeps_last_case_of_first_well
           (fun _ _ => Ok Example.df_output) (fun _ _ => Example.df_output)
           2 2 "out.csv"%string).
  - lia.
  - lia.
  - reflexivity.
  - reflexivity.
Defined.
